(** * JRC clear-cut analysis scripts: a shallow embedding and its properties

    The repository is three QGIS console scripts:
    - [Harvest_Biomass_Stats.py]: per-polygon zonal sampling of a biomass raster;
    - [harvest_prob_extract.py]: raster value extraction under a mask layer,
      once pixel by pixel and once through numpy arrays;
    - [calculate_shape_metrics.py]: closed-form shape metrics of polygons.

    Numbers.  Python floats are embedded by exact arithmetic: rationals [Q]
    for the two raster scripts (so that every definition evaluates), reals
    [R] for the shape metrics (which need [sqrt], [ln] and [atan]).  Binary64
    rounding is not modelled.  The special values a raster can deliver
    (NaN, the infinities) and Python's [None] are explicit constructors, and
    the exceptions the scripts catch are explicit results.

    Host objects.  [QgsGeometry], [QgsRasterLayer] and friends belong to the
    GIS host; each is embedded as a record of the methods the scripts call. *)

From Stdlib Require Import ZArith QArith Qround List Bool Lia Lqa.
From Stdlib Require Import Reals Lra.
From Stdlib Require String.
Import ListNotations.

(* ------------------------------------------------------------------ *)
(** * Python values, exceptions and built-ins *)

Module Py.

Inductive exception : Type :=
| ZeroDivisionError
| ValueError
| IndexError
| QgsCsException.

(** A computation that either returns or raises. *)
Inductive exc (A : Type) : Type :=
| Return (a : A)
| Raise (e : exception).
Arguments Return {A} a.
Arguments Raise {A} e.

Definition bind {A B : Type} (m : exc A) (k : A -> exc B) : exc B :=
  match m with
  | Return a => k a
  | Raise e => Raise e
  end.

(** Float values as a raster hands them out. *)
Inductive pyfloat : Type :=
| Fin (q : Q)
| NaN
| PosInf
| NegInf.

(** A Python object that is either [None] or a float. *)
Inductive pyval : Type :=
| PyNone
| PyFloat (f : pyfloat).

(** [np.isnan] *)
Definition isnan (f : pyfloat) : bool :=
  match f with
  | NaN => true
  | _ => false
  end.

(** [a < b] on floats; every comparison with NaN is false. *)
Definition float_lt (a b : pyfloat) : bool :=
  match a, b with
  | NaN, _ | _, NaN => false
  | Fin x, Fin y => negb (Qle_bool y x)
  | NegInf, NegInf => false
  | NegInf, _ => true
  | _, PosInf => match a with PosInf => false | _ => true end
  | _, _ => false
  end.

(** [a == b] on floats. *)
Definition float_eq (a b : pyfloat) : bool :=
  match a, b with
  | Fin x, Fin y => Qeq_bool x y
  | PosInf, PosInf | NegInf, NegInf => true
  | _, _ => false
  end.

(** [a + b] on floats. *)
Definition float_add (a b : pyfloat) : pyfloat :=
  match a, b with
  | NaN, _ | _, NaN => NaN
  | Fin x, Fin y => Fin (x + y)
  | PosInf, NegInf | NegInf, PosInf => NaN
  | PosInf, _ | _, PosInf => PosInf
  | NegInf, _ | _, NegInf => NegInf
  end.

(** [a * q] for a finite scalar [q]. *)
Definition float_scale (a : pyfloat) (q : Q) : pyfloat :=
  match a with
  | Fin x => Fin (x * q)
  | NaN => NaN
  | PosInf => if Qeq_bool q 0 then NaN
              else if Qle_bool 0 q then PosInf else NegInf
  | NegInf => if Qeq_bool q 0 then NaN
              else if Qle_bool 0 q then NegInf else PosInf
  end.

(** True division [x / y] of finite numbers: raises on a zero divisor. *)
Definition truediv (x y : Q) : exc Q :=
  if Qeq_bool y 0 then Raise ZeroDivisionError else Return (x / y).

(** [int(x)] on a finite float: truncation toward zero. *)
Definition int (x : Q) : Z := Z.quot (Qnum x) (QDen x).

(** [range(lo, hi)] *)
Definition range (lo hi : Z) : list Z :=
  map (fun i => (lo + Z.of_nat i)%Z) (seq 0 (Z.to_nat (hi - lo))).

(** [len(l)] *)
Definition len {A : Type} (l : list A) : Z := Z.of_nat (length l).

(** [np.sum] and [np.mean] of a float array, in exact arithmetic. *)
Definition np_sum (values : list pyfloat) : pyfloat :=
  fold_left float_add values (Fin 0).

Definition np_mean (values : list pyfloat) : pyfloat :=
  match values with
  | [] => NaN
  | _ => float_scale (np_sum values) (/ inject_Z (len values))
  end.

End Py.

Notation "x <- m ;; k" := (Py.bind m (fun x => k))
  (at level 61, m at next level, right associativity).

(* ------------------------------------------------------------------ *)
(** * The host's objects, as far as the scripts use them *)

Module Qgs.
Import Py.

Record QgsPointXY : Type := { x : Q; y : Q }.

Record QgsRectangle : Type :=
  { xMinimum : Q; yMinimum : Q; xMaximum : Q; yMaximum : Q }.

(** [rect.width()], [rect.height()] *)
Definition rect_width (r : QgsRectangle) : Q := xMaximum r - xMinimum r.
Definition rect_height (r : QgsRectangle) : Q := yMaximum r - yMinimum r.

(** A polygon geometry: [boundingBox()] and [contains(point)]. *)
Record QgsGeometry : Type :=
  { boundingBox : QgsRectangle;
    contains : QgsPointXY -> bool }.

(** A raster layer: [extent()], [width()], [height()],
    [dataProvider().sample(point, band)] returning [(value, success)],
    [dataProvider().sourceNoDataValue(band)],
    [dataProvider().dataTypeSize(band)], the bytes one pixel takes in the
    band's block, and the block's bytes read four by four as float32
    values, by row and column. *)
Record QgsRasterLayer : Type :=
  { extent : QgsRectangle;
    width : Z;
    height : Z;
    sample : QgsPointXY -> Z -> pyval * bool;
    sourceNoDataValue : Z -> pyfloat;
    dataTypeSize : Z -> Z;
    block : Z -> Z -> Z -> pyfloat }.

(** ** A raster held as a table of cells, and a rectangular polygon

    The provider of a north-up raster answers [sample] with the value of
    the cell the point falls in, and with [(NaN, False)] outside the
    extent.  The band is of type Float32: four bytes a pixel, and the
    block holds the cells. *)
Definition cell_sample (extent : QgsRectangle) (width height : Z)
           (cells : Z -> Z -> pyfloat) (point : QgsPointXY) (band : Z)
  : pyval * bool :=
  if Qle_bool (xMinimum extent) (x point) && Qle_bool (x point) (xMaximum extent)
     && Qle_bool (yMinimum extent) (y point) && Qle_bool (y point) (yMaximum extent)
  then
    let col := Qfloor ((x point - xMinimum extent)
                       / (rect_width extent / inject_Z width)) in
    let row := Qfloor ((yMaximum extent - y point)
                       / (rect_height extent / inject_Z height)) in
    (PyFloat (cells (Z.min row (height - 1)) (Z.min col (width - 1))), true)
  else (PyFloat NaN, false).

Definition cell_raster (extent : QgsRectangle) (width height : Z)
           (nodata : pyfloat) (cells : Z -> Z -> pyfloat) : QgsRasterLayer :=
  {| Qgs.extent := extent;
     Qgs.width := width;
     Qgs.height := height;
     sample := cell_sample extent width height cells;
     sourceNoDataValue := fun _ => nodata;
     dataTypeSize := fun _ => 4%Z;
     block := fun _ row col => cells row col |}.

(** The polygon whose ring is the rectangle [r]; [contains] holds for
    the points of its interior. *)
Definition rectangle_polygon (r : QgsRectangle) : QgsGeometry :=
  {| boundingBox := r;
     contains := fun p =>
       negb (Qle_bool (x p) (xMinimum r)) && negb (Qle_bool (xMaximum r) (x p))
       && negb (Qle_bool (y p) (yMinimum r)) && negb (Qle_bool (yMaximum r) (y p)) |}.

End Qgs.

(* ------------------------------------------------------------------ *)
(** * Harvest_Biomass_Stats.py *)

Module HarvestBiomassStats.
Import Py Qgs.

(** What the script prints. *)
Inductive message : Type :=
| Processing_feature (i : Z) (feature_count : Z)
| Warning_no_valid_biomass_data (feature_id : Z)
| Error_extracting_raster_values (e : exception)
| Error_processing_feature (feature_id : Z) (e : exception).

(** The dictionary [extract_raster_values_in_polygon] returns. *)
Record SampleResult : Type :=
  { values : list pyfloat;
    pixel_count : Z;
    coverage_pct : Q }.

(** The two accumulators of the pixel loop. *)
Record scan : Type :=
  { valid_values : list pyfloat;
    total_pixels : Z }.

(** Centre of pixel [(row, col)] (lines 233-234). *)
Definition pixel_center (raster_layer : QgsRasterLayer)
           (pixel_size_x pixel_size_y : Q) (row col : Z) : QgsPointXY :=
  {| x := xMinimum (extent raster_layer) + (inject_Z col + 0.5) * pixel_size_x;
     y := yMaximum (extent raster_layer) - (inject_Z row + 0.5) * pixel_size_y |}.

(** Body of the inner loop (lines 230-244). *)
Definition visit_pixel (raster_layer : QgsRasterLayer) (polygon_geom : QgsGeometry)
           (pixel_size_x pixel_size_y : Q) (row : Z) (st : scan) (col : Z) : scan :=
  let st := {| valid_values := valid_values st;
               total_pixels := total_pixels st + 1 |} in
  let point := pixel_center raster_layer pixel_size_x pixel_size_y row col in
  if contains polygon_geom point then
    let '(value, success) := sample raster_layer point 1 in
    match value with
    | PyFloat v =>
        if success && negb (isnan v) then
          if float_lt v (Fin 65530) then
            {| valid_values := valid_values st ++ [v];
               total_pixels := total_pixels st |}
          else st
        else st
    | PyNone => st
    end
  else st.

(** The index range of the bounding box (lines 219-222). *)
Record index_range : Type :=
  { min_col : Z; max_col : Z; min_row : Z; max_row : Z }.

Definition bbox_index_range (raster_layer : QgsRasterLayer)
           (polygon_geom : QgsGeometry) (pixel_size_x pixel_size_y : Q)
  : exc index_range :=
  let extent := extent raster_layer in
  let bbox := boundingBox polygon_geom in
  c0 <- truediv (xMinimum bbox - xMinimum extent) pixel_size_x ;;
  c1 <- truediv (xMaximum bbox - xMinimum extent) pixel_size_x ;;
  r0 <- truediv (yMaximum extent - yMaximum bbox) pixel_size_y ;;
  r1 <- truediv (yMaximum extent - yMinimum bbox) pixel_size_y ;;
  Return {| min_col := Z.max 0 (int c0);
            max_col := Z.min (width raster_layer - 1) (int c1);
            min_row := Z.max 0 (int r0);
            max_row := Z.min (height raster_layer - 1) (int r1) |}.

(** The two nested loops (lines 225-244). *)
Definition scan_pixels (raster_layer : QgsRasterLayer) (polygon_geom : QgsGeometry)
           (pixel_size_x pixel_size_y : Q) (rg : index_range) : scan :=
  fold_left
    (fun st row =>
       fold_left
         (visit_pixel raster_layer polygon_geom pixel_size_x pixel_size_y row)
         (range (min_col rg) (max_col rg + 1)) st)
    (range (min_row rg) (max_row rg + 1))
    {| valid_values := []; total_pixels := 0 |}.

(** Pixel sizes (lines 212-213). *)
Definition pixel_sizes (raster_layer : QgsRasterLayer) : exc (Q * Q) :=
  let extent := extent raster_layer in
  pixel_size_x <- truediv (xMaximum extent - xMinimum extent)
                          (inject_Z (width raster_layer)) ;;
  pixel_size_y <- truediv (yMaximum extent - yMinimum extent)
                          (inject_Z (height raster_layer)) ;;
  Return (pixel_size_x, pixel_size_y).

(** The summary built after the loops (lines 246-255). *)
Definition summarize (st : scan) : option SampleResult :=
  if (len (valid_values st) =? 0)%Z then None
  else
    let coverage_pct :=
      if (total_pixels st >? 0)%Z
      then inject_Z (len (valid_values st)) / inject_Z (total_pixels st) * 100
      else 0 in
    Some {| values := valid_values st;
            pixel_count := len (valid_values st);
            coverage_pct := coverage_pct |}.

(** The [try] block of [extract_raster_values_in_polygon]. *)
Definition extract_try (raster_layer : QgsRasterLayer) (polygon_geom : QgsGeometry)
  : exc (option SampleResult) :=
  sizes <- pixel_sizes raster_layer ;;
  rg <- bbox_index_range raster_layer polygon_geom (fst sizes) (snd sizes) ;;
  Return (summarize
            (scan_pixels raster_layer polygon_geom (fst sizes) (snd sizes) rg)).

(** [extract_raster_values_in_polygon]: the result and what was printed. *)
Definition extract_raster_values_in_polygon
           (raster_layer : QgsRasterLayer) (polygon_geom : QgsGeometry)
           (pixel_area_ha : Q) : option SampleResult * list message :=
  match extract_try raster_layer polygon_geom with
  | Return r => (r, [])
  | Raise e => (None, [Error_extracting_raster_values e])
  end.

(** ** The caller, [extract_biomass_statistics] (lines 97-164) *)

(** A feature of the harvest layer: [id()], the optional attribute ['id'],
    and [geometry()]. *)
Record QgsFeature : Type :=
  { id : Z;
    attribute_id : option Z;
    geometry : QgsGeometry }.

(** One dictionary of [results]; the column order is [csv_headers]. *)
Record StatRow : Type :=
  { patch_id : option Z;
    feature_id : Z;
    mean_biomass : pyfloat;
    median_biomass : pyfloat;
    std_biomass : pyfloat;
    min_biomass : pyfloat;
    max_biomass : pyfloat;
    p25_biomass : pyfloat;
    p75_biomass : pyfloat;
    p95_biomass : pyfloat;
    total_biomass : pyfloat;
    row_pixel_count : Z;
    effective_area_ha : Q;
    data_coverage_pct : Q }.

Section Caller.

(** numpy reductions whose results are only copied into the row. *)
Variable np_median np_std np_min np_max : list pyfloat -> pyfloat.
Variable np_percentile : list pyfloat -> Q -> pyfloat.

(** [QgsCoordinateTransform], when the two layers' CRS differ; transforming
    a geometry may raise. *)
Variable transform : option (QgsGeometry -> exc QgsGeometry).

Variable biomass_layer : QgsRasterLayer.
Variable pixel_area_ha : Q.

(** The accumulating [results] list and the console output. *)
Record run : Type :=
  { results : list StatRow;
    printed : list message }.

(** Body of the feature loop (lines 104-164); [BIOMASS_STDEV_LAYER] is
    [None] in the script, so [stdev_layer] stays [None]. *)
Definition process_feature (feature_count : Z) (st : run)
           (i_feature : Z * QgsFeature) : run :=
  let '(i, feature) := i_feature in
  let progress :=
    if (i mod 50 =? 0)%Z then [Processing_feature (i + 1) feature_count]
    else [] in
  let transformed :=
    match transform with
    | Some t => t (geometry feature)
    | None => Return (geometry feature)
    end in
  match transformed with
  | Raise e =>
      {| results := results st;
         printed := printed st ++ progress
                      ++ [Error_processing_feature (id feature) e] |}
  | Return geom =>
      let patch_id := attribute_id feature in
      let feature_id := id feature in
      let '(biomass_stats, out) :=
        extract_raster_values_in_polygon biomass_layer geom pixel_area_ha in
      match biomass_stats with
      | None =>
          {| results := results st;
             printed := printed st ++ progress ++ out
                          ++ [Warning_no_valid_biomass_data feature_id] |}
      | Some stats =>
          if (pixel_count stats =? 0)%Z then
            {| results := results st;
               printed := printed st ++ progress ++ out
                            ++ [Warning_no_valid_biomass_data feature_id] |}
          else
            let values := values stats in
            let stats_result :=
              {| patch_id := patch_id;
                 feature_id := feature_id;
                 mean_biomass := np_mean values;
                 median_biomass := np_median values;
                 std_biomass := np_std values;
                 min_biomass := np_min values;
                 max_biomass := np_max values;
                 p25_biomass := np_percentile values 25;
                 p75_biomass := np_percentile values 75;
                 p95_biomass := np_percentile values 95;
                 total_biomass := float_scale (np_sum values) pixel_area_ha;
                 row_pixel_count := len values;
                 effective_area_ha := inject_Z (len values) * pixel_area_ha;
                 data_coverage_pct := coverage_pct stats |} in
            {| results := results st ++ [stats_result];
               printed := printed st ++ progress ++ out |}
      end
  end.

(** [enumerate(features)] *)
Definition enumerate {A : Type} (l : list A) : list (Z * A) :=
  combine (range 0 (len l)) l.

(** The feature loop. *)
Definition process_features (features : list QgsFeature) : run :=
  fold_left (process_feature (len features)) (enumerate features)
            {| results := []; printed := [] |}.

End Caller.

(** ** The scenario of the specification *)

(** Origin (0,100), 10 m pixels, 10 x 10 cells, all 5 except the no-data
    cell (0,0); the polygon is the grid's bounding box. *)
Definition example_extent : QgsRectangle :=
  {| xMinimum := 0; yMinimum := 0; xMaximum := 100; yMaximum := 100 |}.

Definition example_cells (row col : Z) : pyfloat :=
  if ((row =? 0) && (col =? 0))%Z then Fin 65535 else Fin 5.

Definition example_raster : QgsRasterLayer :=
  cell_raster example_extent 10 10 (Fin 65535) example_cells.

Definition example_polygon : QgsGeometry := rectangle_polygon example_extent.

End HarvestBiomassStats.

(* ------------------------------------------------------------------ *)
(** * harvest_prob_extract.py *)

Module HarvestProbExtract.
Import Py Qgs.

(** A row of [csv_data]. *)
Inductive csv_row : Type :=
| Header
| Record_ (x y : Q) (agb_value harvest_prob_value : pyfloat).

(** [v == 1] for a sampled value that may be [None]. *)
Definition equals_one (v : pyval) : bool :=
  match v with
  | PyNone => false
  | PyFloat f => float_eq f (Fin 1)
  end.

(** [v is not None and v != nodata] *)
Definition not_None_and_ne (v : pyval) (nodata : pyfloat) : bool :=
  match v with
  | PyNone => false
  | PyFloat f => negb (float_eq f nodata)
  end.

(** The float a sampled value holds; read only after the [is not None]
    test. *)
Definition as_float (v : pyval) : pyfloat :=
  match v with
  | PyNone => NaN
  | PyFloat f => f
  end.

(** Body of the inner loop of the per-pixel path (lines 74-91). *)
Definition sample_pixel (agb_layer harvest_layer harvest_prob_layer : QgsRasterLayer)
           (pixel_size_x pixel_size_y : Q) (row : Z)
           (csv_data : list csv_row) (col : Z) : list csv_row :=
  let extent := extent harvest_layer in
  let x := xMinimum extent + (inject_Z col + 0.5) * pixel_size_x in
  let y := yMaximum extent - (inject_Z row + 0.5) * pixel_size_y in
  let point := {| Qgs.x := x; Qgs.y := y |} in
  let harvest_value := fst (sample harvest_layer point 1) in
  if equals_one harvest_value then
    let agb_value := fst (sample agb_layer point 1) in
    let harvest_prob_value := fst (sample harvest_prob_layer point 1) in
    if not_None_and_ne agb_value (sourceNoDataValue agb_layer 1)
       && not_None_and_ne harvest_prob_value
                          (sourceNoDataValue harvest_prob_layer 1)
    then csv_data ++ [Record_ x y (as_float agb_value)
                              (as_float harvest_prob_value)]
    else csv_data
  else csv_data.

(** [extract_raster_values_to_csv], from the three layers found to the
    rows handed to [csv.writer] (lines 53-91). *)
Definition extract_raster_values_to_csv
           (agb_layer harvest_layer harvest_prob_layer : QgsRasterLayer)
  : exc (list csv_row) :=
  let extent := extent harvest_layer in
  let width := width harvest_layer in
  let height := height harvest_layer in
  pixel_size_x <- truediv (rect_width extent) (inject_Z width) ;;
  pixel_size_y <- truediv (rect_height extent) (inject_Z height) ;;
  Return
    (fold_left
       (fun csv_data row =>
          fold_left
            (sample_pixel agb_layer harvest_layer harvest_prob_layer
                          pixel_size_x pixel_size_y row)
            (range 0 width) csv_data)
       (range 0 height) [Header]).

(** A two-dimensional numpy array. *)
Record ndarray : Type :=
  { nrows : Z; ncols : Z; item : Z -> Z -> pyfloat }.

(** [np.frombuffer(data, dtype=np.float32)] on [n_bytes] bytes: the
    number of items, or [ValueError] when the bytes are not a whole number
    of 4-byte items. *)
Definition frombuffer_float32 (n_bytes : Z) : exc Z :=
  if (n_bytes mod 4 =? 0)%Z then Return (n_bytes / 4)%Z else Raise ValueError.

(** [a.reshape(nrows, ncols)] on an array of [size] items. *)
Definition reshape (size nrows ncols : Z) (item : Z -> Z -> pyfloat)
  : exc ndarray :=
  if (size =? nrows * ncols)%Z
  then Return {| nrows := nrows; ncols := ncols; item := item |}
  else Raise ValueError.

(** [np.frombuffer(layer.dataProvider().block(1, extent, width, height)
    .data(), dtype=np.float32).reshape(height, width)] (lines 144-151):
    the block holds [width * height] pixels of [dataTypeSize] bytes each. *)
Definition read_band (layer : QgsRasterLayer) : exc ndarray :=
  size <- frombuffer_float32 (width layer * height layer
                              * dataTypeSize layer 1)%Z ;;
  reshape size (height layer) (width layer) (block layer 1).

(** [a[row, col]] for non-negative indices. *)
Definition getitem (a : ndarray) (row col : Z) : exc pyfloat :=
  if ((row <? nrows a) && (col <? ncols a))%Z then Return (item a row col)
  else Raise IndexError.

(** [np.where(a == 1)]: the index pairs in row-major order. *)
Definition where_equals_one (a : ndarray) : list (Z * Z) :=
  flat_map
    (fun row =>
       flat_map
         (fun col => if float_eq (item a row col) (Fin 1) then [(row, col)] else [])
         (range 0 (ncols a)))
    (range 0 (nrows a)).

(** Body of the loop of the numpy path (lines 168-177). *)
Definition mask_pixel (harvest_layer : QgsRasterLayer) (agb_np harvest_prob_np : ndarray)
           (pixel_size_x pixel_size_y : Q)
           (acc : exc (list csv_row)) (rc : Z * Z) : exc (list csv_row) :=
  csv_data <- acc ;;
  let '(row, col) := rc in
  let extent := extent harvest_layer in
  let x := xMinimum extent + (inject_Z col + 0.5) * pixel_size_x in
  let y := yMaximum extent - (inject_Z row + 0.5) * pixel_size_y in
  agb_val <- getitem agb_np row col ;;
  harvest_prob_val <- getitem harvest_prob_np row col ;;
  if negb (isnan agb_val || isnan harvest_prob_val)
  then Return (csv_data ++ [Record_ x y agb_val harvest_prob_val])
  else Return csv_data.

(** [extract_raster_values_to_csv_numpy], with numpy importable
    (lines 143-177). *)
Definition extract_raster_values_to_csv_numpy
           (agb_layer harvest_layer harvest_prob_layer : QgsRasterLayer)
  : exc (list csv_row) :=
  harvest_np <- read_band harvest_layer ;;
  agb_np <- read_band agb_layer ;;
  harvest_prob_np <- read_band harvest_prob_layer ;;
  let extent := extent harvest_layer in
  pixel_size_x <- truediv (rect_width extent) (inject_Z (width harvest_layer)) ;;
  pixel_size_y <- truediv (rect_height extent) (inject_Z (height harvest_layer)) ;;
  fold_left
    (mask_pixel harvest_layer agb_np harvest_prob_np pixel_size_x pixel_size_y)
    (where_equals_one harvest_np) (Return [Header]).

(** Three aligned 1 x 1 rasters over the same 10 m cell: the mask is 1,
    the probability is 0.5, and the biomass cell holds the layer's
    declared no-data value 65535. *)
Definition one_cell : QgsRectangle :=
  {| xMinimum := 0; yMinimum := 0; xMaximum := 10; yMaximum := 10 |}.

Definition harvest_1x1 : QgsRasterLayer :=
  cell_raster one_cell 1 1 (Fin 255) (fun _ _ => Fin 1).
Definition agb_1x1 : QgsRasterLayer :=
  cell_raster one_cell 1 1 (Fin 65535) (fun _ _ => Fin 65535).
Definition harvest_prob_1x1 : QgsRasterLayer :=
  cell_raster one_cell 1 1 (Fin 255) (fun _ _ => Fin 0.5).

End HarvestProbExtract.

(* ------------------------------------------------------------------ *)
(** * calculate_shape_metrics.py *)

Module ShapeMetrics.
Import Py.
Local Open Scope R_scope.

(** ** [math] and built-ins over the reals *)

(** [x / y] *)
Definition truediv (x y : R) : exc R :=
  if Req_dec_T y 0 then Raise ZeroDivisionError else Return (x / y).

(** [math.sqrt] *)
Definition math_sqrt (x : R) : exc R :=
  if Rlt_dec x 0 then Raise ValueError else Return (sqrt x).

(** [math.log] *)
Definition math_log (x : R) : exc R :=
  if Rle_dec x 0 then Raise ValueError else Return (ln x).

(** [math.atan2(y, x)] *)
Definition math_atan2 (y x : R) : R :=
  if Rlt_dec 0 x then atan (y / x)
  else if Rlt_dec x 0 then
         if Rle_dec 0 y then atan (y / x) + PI else atan (y / x) - PI
  else if Rlt_dec 0 y then PI / 2
  else if Rlt_dec y 0 then - PI / 2
  else 0.

(** [math.degrees] *)
Definition math_degrees (a : R) : R := a * 180 / PI.

(** Round half to even, to an integer. *)
Definition round_half_even (v : R) : Z :=
  let f := Zfloor v in
  let d := v - IZR f in
  if Rlt_dec d (1 / 2) then f
  else if Rlt_dec (1 / 2) d then (f + 1)%Z
  else if Z.even f then f else (f + 1)%Z.

(** [round(x, ndigits)] *)
Definition round (x : R) (ndigits : nat) : R :=
  IZR (round_half_even (x * 10 ^ ndigits)) / 10 ^ ndigits.

(** [sorted(l)] for a list of floats. *)
Fixpoint insert_sorted (a : R) (l : list R) : list R :=
  match l with
  | [] => [a]
  | b :: t => if Rle_dec a b then a :: l else b :: insert_sorted a t
  end.

Definition sorted (l : list R) : list R := fold_right insert_sorted [] l.

(** ** The host's objects *)

Inductive geometry_type : Type :=
| PointGeometry
| LineGeometry
| PolygonGeometry
| UnknownGeometry
| NullGeometry.

Definition geometry_type_eqb (a b : geometry_type) : bool :=
  match a, b with
  | PointGeometry, PointGeometry
  | LineGeometry, LineGeometry
  | PolygonGeometry, PolygonGeometry
  | UnknownGeometry, UnknownGeometry
  | NullGeometry, NullGeometry => true
  | _, _ => false
  end.

(** The geometry [orientedMinimumBoundingBox()] returns first: its
    [type()] and its [vertices()] as [[x, y]] pairs. *)
Record BoxGeometry : Type :=
  { box_type : geometry_type;
    box_vertices : list (R * R) }.

(** A feature geometry: [type()], [area()], [length()], the width and
    height of [boundingBox()], and [orientedMinimumBoundingBox()[0]]. *)
Record QgsGeometry : Type :=
  { type : geometry_type;
    area : R;
    length : R;
    bbox_width : R;
    bbox_height : R;
    orientedMinimumBoundingBox : option BoxGeometry }.

Record QgsFeature : Type :=
  { id : Z;
    geometry : option QgsGeometry }.

Inductive message : Type :=
| Error_calculating_metrics (feature_id : Z) (e : exception).

(** ** [calculate_elongation_and_orientation] (lines 140-214)

    Nothing in the [try] block raises over the reals (the square root is
    taken of a sum of squares and the division is guarded), so the
    handler's [(1.0, 0.0)] is reached only through the explicit returns. *)

(** [(dx, dy)] of every edge [vertices[i] -> vertices[i+1]]. *)
Fixpoint edges (vertices : list (R * R)) : list (R * R) :=
  match vertices with
  | a :: (b :: _) as rest =>
      (fst b - fst a, snd b - snd a) :: edges rest
  | _ => []
  end.

Definition edge_length (e : R * R) : R :=
  sqrt (fst e * fst e + snd e * snd e).

(** Body of the orientation loop (lines 197-204): the state is
    [(max_length, orientation_angle)]. *)
Definition longer_edge (st : R * R) (e : R * R) : R * R :=
  let length := edge_length e in
  if Rlt_dec (fst st) length
  then (length, math_degrees (math_atan2 (snd e) (fst e)))
  else st.

Definition calculate_elongation_and_orientation (geom : QgsGeometry) : R * R :=
  match orientedMinimumBoundingBox geom with
  | None => (1, 0)
  | Some bbox_geom =>
      if negb (geometry_type_eqb (box_type bbox_geom) PolygonGeometry)
      then (1, 0)
      else
        let vertices := box_vertices bbox_geom in
        if (len vertices <? 4)%Z then (1, 0)
        else
          let side_lengths := map edge_length (edges vertices) in
          if (len side_lengths <? 2)%Z then (1, 0)
          else
            let unique_lengths :=
              nodup Req_dec_T (map (fun length => round length 2) side_lengths) in
            if (len unique_lengths <? 2)%Z then (1, 0)
            else
              let unique_lengths := sorted unique_lengths in
              let minor_axis := nth 0 unique_lengths 0 in
              let major_axis := nth 1 unique_lengths 0 in
              let elongation_ratio :=
                if Rlt_dec 0 minor_axis then major_axis / minor_axis else 1 in
              let orientation_angle :=
                snd (fold_left longer_edge (edges vertices) (0, 0)) in
              let orientation_angle :=
                if Rlt_dec orientation_angle 0
                then orientation_angle + 180 else orientation_angle in
              (elongation_ratio, orientation_angle)
  end.

(** ** [calculate_feature_metrics] (lines 75-138) *)

(** One CSV row, in the order of [headers]. *)
Record MetricsRow : Type :=
  { feature_id : Z;
    area_ha : R;
    perimeter_m : R;
    length_m : R;
    width_m : R;
    equivalent_diameter_m : R;
    shape_index : R;
    perimeter_area_ratio : R;
    compactness_index : R;
    fractal_dimension_index : R;
    elongation_ratio : R;
    orientation_degrees : R;
    edge_density : R }.

(** Lines 109-112. *)
Definition fractal_dimension (area_m2 perimeter_m : R) : exc R :=
  if Rlt_dec 0 area_m2 then
    if Rlt_dec 0 perimeter_m then
      log_p <- math_log (perimeter_m / 4) ;;
      log_a <- math_log area_m2 ;;
      truediv (2 * log_p) log_a
    else Return 0
  else Return 0.

(** The [try] block. *)
Definition feature_metrics_try (feature : QgsFeature) (geom : QgsGeometry)
  : exc (option MetricsRow) :=
  let feature_id := id feature in
  let area_m2 := area geom in
  let area_ha := area_m2 / 10000 in
  let perimeter_m := length geom in
  if Rlt_dec area_ha 0.1 then Return None
  else
    let length_m := Rmax (bbox_width geom) (bbox_height geom) in
    let width_m := Rmin (bbox_width geom) (bbox_height geom) in
    r <- math_sqrt (area_m2 / PI) ;;
    let equivalent_diameter_m := 2 * r in
    s <- math_sqrt (PI * area_m2) ;;
    shape_index <- truediv perimeter_m (2 * s) ;;
    perimeter_area_ratio <- truediv perimeter_m area_m2 ;;
    compactness_index <- truediv (4 * PI * area_m2) (perimeter_m ^ 2) ;;
    fractal_dimension_index <- fractal_dimension area_m2 perimeter_m ;;
    let '(elongation_ratio, orientation_degrees) :=
      calculate_elongation_and_orientation geom in
    edge_density <- truediv perimeter_m area_m2 ;;
    Return (Some {| feature_id := feature_id;
                    area_ha := round area_ha 4;
                    perimeter_m := round perimeter_m 2;
                    length_m := round length_m 2;
                    width_m := round width_m 2;
                    equivalent_diameter_m := round equivalent_diameter_m 2;
                    shape_index := round shape_index 4;
                    perimeter_area_ratio := round perimeter_area_ratio 6;
                    compactness_index := round compactness_index 4;
                    fractal_dimension_index := round fractal_dimension_index 4;
                    elongation_ratio := round elongation_ratio 4;
                    orientation_degrees := round orientation_degrees 2;
                    edge_density := round edge_density 6 |}).

Definition calculate_feature_metrics (feature : QgsFeature) (geom : QgsGeometry)
  : option MetricsRow * list message :=
  match feature_metrics_try feature geom with
  | Return r => (r, [])
  | Raise e => (None, [Error_calculating_metrics (id feature) e])
  end.

(** ** The feature loop of [calculate_shape_metrics] (lines 53-67) *)

Record output : Type :=
  { written : list MetricsRow;
    printed : list message }.

Definition write_feature (out : output) (feature : QgsFeature) : output :=
  match geometry feature with
  | None => out
  | Some geom =>
      if negb (geometry_type_eqb (type geom) PolygonGeometry) then out
      else
        let '(metrics, msgs) := calculate_feature_metrics feature geom in
        match metrics with
        | Some row => {| written := written out ++ [row];
                         printed := printed out ++ msgs |}
        | None => {| written := written out;
                     printed := printed out ++ msgs |}
        end
  end.

Definition calculate_shape_metrics (features : list QgsFeature) : output :=
  fold_left write_feature features {| written := []; printed := [] |}.

End ShapeMetrics.

(* ------------------------------------------------------------------ *)
(** * harvest_prob_extract.py: the two functions from project to file *)

Module HarvestProbMain.
Import Py Qgs HarvestProbExtract.
Import Stdlib.Strings.String.

(** A layer of [QgsProject.instance().mapLayers()]: a raster layer, or a
    layer of another class; both answer [name()]. *)
Inductive map_layer : Type :=
| RasterLayer (name : string) (layer : QgsRasterLayer)
| OtherLayer (name : string).

(** The three variables the lookup loop assigns (lines 17-30). *)
Record layers : Type :=
  { agb_layer : option QgsRasterLayer;
    harvest_layer : option QgsRasterLayer;
    harvest_prob_layer : option QgsRasterLayer }.

(** Body of the lookup loop (lines 22-30 and 127-135). *)
Definition note_layer (found : layers) (layer : map_layer) : layers :=
  match layer with
  | OtherLayer _ => found
  | RasterLayer layer_display_name layer =>
      if (layer_display_name =? "AGB_Masked")%string then
        {| agb_layer := Some layer;
           harvest_layer := harvest_layer found;
           harvest_prob_layer := harvest_prob_layer found |}
      else if (layer_display_name =? "harvest_prob_10m")%string then
        {| agb_layer := agb_layer found;
           harvest_layer := harvest_layer found;
           harvest_prob_layer := Some layer |}
      else if (layer_display_name =? "Harvest_10m")%string then
        {| agb_layer := agb_layer found;
           harvest_layer := Some layer;
           harvest_prob_layer := harvest_prob_layer found |}
      else found
  end.

Definition find_layers (project : list map_layer) : layers :=
  fold_left note_layer project
            {| agb_layer := None; harvest_layer := None;
               harvest_prob_layer := None |}.

(** What the two functions print. *)
Inductive message : Type :=
| AGB_Masked_layer_not_found
| Harvest_10m_layer_not_found
| harvest_prob_10m_layer_not_found
| Found_layers
| Extracting_pixel_values
| Processing_row (row height : Z)
| Successfully_exported (records : Z)
| Error_writing_CSV_file
| NumPy_not_available
| One_or_more_layers_not_found
| Reading_raster_data_into_memory.

(** What a call leaves behind: the console output, the rows of the file
    if one was written, and the exception if one escaped. *)
Record outcome : Type :=
  { printed : list message;
    file : option (list csv_row);
    raised : option exception }.

(** The progress lines of the row loop (lines 70-71). *)
Definition progress (height : Z) : list message :=
  map (fun row => Processing_row row height)
      (filter (fun row => (row mod 100 =? 0)%Z) (range 0 height)).

(** Lines 96-105 and 179-190: [writable] tells whether opening and writing
    the file succeeds. *)
Definition write_csv (writable : bool) (so_far : list message)
           (csv_data : list csv_row) : outcome :=
  if writable then
    {| printed := so_far ++ [Successfully_exported (len csv_data - 1)];
       file := Some csv_data;
       raised := None |}
  else
    {| printed := so_far ++ [Error_writing_CSV_file];
       file := None;
       raised := None |}.

(** [extract_raster_values_to_csv()] (lines 7-105). *)
Definition run_extract_raster_values_to_csv (writable : bool)
           (project : list map_layer) : outcome :=
  let found := find_layers project in
  match agb_layer found with
  | None => {| printed := [AGB_Masked_layer_not_found];
               file := None; raised := None |}
  | Some agb =>
      match harvest_layer found with
      | None => {| printed := [Harvest_10m_layer_not_found];
                   file := None; raised := None |}
      | Some harvest =>
          match harvest_prob_layer found with
          | None => {| printed := [harvest_prob_10m_layer_not_found];
                       file := None; raised := None |}
          | Some harvest_prob =>
              match extract_raster_values_to_csv agb harvest harvest_prob with
              | Raise e => {| printed := [Found_layers];
                              file := None; raised := Some e |}
              | Return csv_data =>
                  write_csv writable
                            ([Found_layers; Extracting_pixel_values]
                               ++ progress (height harvest))
                            csv_data
              end
          end
      end
  end.

(** [extract_raster_values_to_csv_numpy()] (lines 108-190);
    [numpy_importable] tells whether [import numpy] succeeds. *)
Definition run_extract_raster_values_to_csv_numpy (numpy_importable writable : bool)
           (project : list map_layer) : outcome :=
  if negb numpy_importable then
    let out := run_extract_raster_values_to_csv writable project in
    {| printed := NumPy_not_available :: printed out;
       file := file out;
       raised := raised out |}
  else
    let found := find_layers project in
    match agb_layer found, harvest_layer found, harvest_prob_layer found with
    | Some agb, Some harvest, Some harvest_prob =>
        match extract_raster_values_to_csv_numpy agb harvest harvest_prob with
        | Raise e => {| printed := [Reading_raster_data_into_memory];
                        file := None; raised := Some e |}
        | Return csv_data =>
            write_csv writable [Reading_raster_data_into_memory] csv_data
        end
    | _, _, _ => {| printed := [One_or_more_layers_not_found];
                    file := None; raised := None |}
    end.

End HarvestProbMain.

(* ------------------------------------------------------------------ *)
(** * calculate_shape_metrics.py: the console, the file, the layer *)

Module ShapeMetricsMain.
Import Py ShapeMetrics.
Import Stdlib.Strings.String.
Local Open Scope R_scope.

(** [iface.activeLayer()] when there is one: a vector layer with its
    features, or a layer of another type. *)
Inductive map_layer : Type :=
| VectorLayer (features : list QgsFeature)
| OtherLayer.

(** What the script prints. *)
Inductive console : Type :=
| Starting_shape_metrics_calculation
| Make_sure_you_have_selected_the_layer
| Please_select_a_polygon_vector_layer
| Feature_message (m : message)
| Shape_metrics_exported
| Processed_features (featureCount : Z)
| Error_writing_CSV_file
| Shape_metrics_added_to_layer_attributes
| Shape_metrics_calculation_completed.

(** A line of the CSV file. *)
Inductive csv_line : Type :=
| Headers
| Metrics (row : MetricsRow).

Record report : Type :=
  { printed_lines : list console;
    csv_file : option (list csv_line) }.

(** [calculate_shape_metrics()] (lines 9-73); [writable] tells whether
    the file can be opened and written. *)
Definition run_calculate_shape_metrics (writable : bool)
           (layer : option map_layer) : report :=
  match layer with
  | Some (VectorLayer features) =>
      if writable then
        let out := calculate_shape_metrics features in
        {| printed_lines :=
             map Feature_message (printed out)
             ++ [Shape_metrics_exported;
                 Processed_features (len features)];
           csv_file := Some (Headers :: map Metrics (written out)) |}
      else
        {| printed_lines := [Error_writing_CSV_file]; csv_file := None |}
  | _ =>
      {| printed_lines := [Please_select_a_polygon_vector_layer];
         csv_file := None |}
  end.

(** The statements at the end of the script (lines 277-288). *)
Definition script (writable : bool) (layer : option map_layer) : report :=
  let r := run_calculate_shape_metrics writable layer in
  {| printed_lines :=
       [Starting_shape_metrics_calculation;
        Make_sure_you_have_selected_the_layer]
       ++ printed_lines r ++ [Shape_metrics_calculation_completed];
     csv_file := csv_file r |}.

(** ** [add_metrics_to_layer] (lines 216-275) *)

(** An attribute value. *)
Inductive QVariant : Type :=
| Double (v : R)
| Text (s : string)
| Null.

(** The part of a vector layer the function edits: the names of its
    fields in order, and the value of each feature at each field index. *)
Record attribute_table : Type :=
  { fields : list string;
    attribute : Z -> Z -> QVariant }.

(** [layer.fields().indexOf(name)]: the first index, or -1. *)
Fixpoint indexOf (fields : list string) (name : string) : Z :=
  match fields with
  | [] => -1
  | f :: rest =>
      if (f =? name)%string then 0
      else let i := indexOf rest name in
           if (i =? -1)%Z then -1 else (i + 1)%Z
  end.

(** The names of [fields_to_add] (lines 227-234). *)
Definition fields_to_add : list string :=
  ["area_ha"; "perimeter_m"; "shape_index"; "compactness"; "elongation";
   "orientation"]%string.

(** Body of the field loop (lines 240-242). *)
Definition add_field (t : attribute_table) (name : string) : attribute_table :=
  if (indexOf (fields t) name =? -1)%Z
  then {| fields := (fields t ++ [name])%list; attribute := attribute t |}
  else t.

(** [layer.changeAttributeValue(fid, index, value)]: refused for an index
    that is not a field. *)
Definition changeAttributeValue (t : attribute_table) (fid index : Z) (value : R)
  : attribute_table :=
  if ((0 <=? index) && (index <? len (fields t)))%Z then
    {| fields := fields t;
       attribute := fun f i =>
         if ((f =? fid) && (i =? index))%Z then Double value
         else attribute t f i |}
  else t.

(** The six values computed for a polygon of at least 0.1 ha
    (lines 256-263). *)
Record layer_metrics : Type :=
  { stored_area_ha : R;
    stored_perimeter_m : R;
    stored_shape_index : R;
    stored_compactness : R;
    stored_elongation : R;
    stored_orientation : R }.

Definition polygon_metrics (geom : QgsGeometry) : exc (option layer_metrics) :=
  let area_m2 := area geom in
  let area_ha := area_m2 / 10000 in
  let perimeter_m := ShapeMetrics.length geom in
  if Rle_dec 0.1 area_ha then
    s <- math_sqrt (PI * area_m2) ;;
    shape_index <- truediv perimeter_m (2 * s) ;;
    compactness <- truediv (4 * PI * area_m2) (perimeter_m ^ 2) ;;
    let '(elongation_ratio, orientation) :=
      calculate_elongation_and_orientation geom in
    Return (Some {| stored_area_ha := area_ha;
                    stored_perimeter_m := perimeter_m;
                    stored_shape_index := shape_index;
                    stored_compactness := compactness;
                    stored_elongation := elongation_ratio;
                    stored_orientation := orientation |})
  else Return None.

(** Lines 266-271. *)
Definition store_metrics (t : attribute_table) (fid : Z) (m : layer_metrics)
  : attribute_table :=
  let t := changeAttributeValue t fid (indexOf (fields t) "area_ha")
                                (stored_area_ha m) in
  let t := changeAttributeValue t fid (indexOf (fields t) "perimeter_m")
                                (stored_perimeter_m m) in
  let t := changeAttributeValue t fid (indexOf (fields t) "shape_index")
                                (stored_shape_index m) in
  let t := changeAttributeValue t fid (indexOf (fields t) "compactness")
                                (stored_compactness m) in
  let t := changeAttributeValue t fid (indexOf (fields t) "elongation")
                                (stored_elongation m) in
  changeAttributeValue t fid (indexOf (fields t) "orientation")
                       (stored_orientation m).

(** Body of the feature loop (lines 247-271); nothing catches what the
    computation raises. *)
Definition update_feature (acc : exc attribute_table) (feature : QgsFeature)
  : exc attribute_table :=
  t <- acc ;;
  match geometry feature with
  | None => Return t
  | Some geom =>
      if negb (geometry_type_eqb (type geom) PolygonGeometry) then Return t
      else
        m <- polygon_metrics geom ;;
        match m with
        | Some m => Return (store_metrics t (id feature) m)
        | None => Return t
        end
  end.

(** What a call of [add_metrics_to_layer] leaves: the committed table and
    the console output, or the exception that ended it before
    [commitChanges]. *)
Definition add_metrics_to_layer (layer : option map_layer) (t : attribute_table)
  : exc (attribute_table * list console) :=
  match layer with
  | Some (VectorLayer features) =>
      let t := fold_left add_field fields_to_add t in
      t <- fold_left update_feature features (Return t) ;;
      Return (t, [Shape_metrics_added_to_layer_attributes])
  | _ => Return (t, [Please_select_a_polygon_vector_layer])
  end.

End ShapeMetricsMain.

(* ------------------------------------------------------------------ *)
(** * Harvest_Biomass_Stats.py: [extract_biomass_statistics] *)

Module HarvestBiomassMain.
Import Py Qgs HarvestBiomassStats.
Import Stdlib.Strings.String.
Local Open Scope Q_scope.

(** A layer of [QgsProject.instance().mapLayers()] with its [name()] and
    [crs()]: a vector layer with its features, or a raster layer with
    [rasterUnitsPerPixelX()] and [rasterUnitsPerPixelY()]. *)
Inductive map_layer : Type :=
| VectorLayer (name crs : string) (features : list QgsFeature)
| RasterLayer (name crs : string) (layer : QgsRasterLayer)
              (rasterUnitsPerPixelX rasterUnitsPerPixelY : Q).

Definition layer_name (layer : map_layer) : string :=
  match layer with
  | VectorLayer name _ _ => name
  | RasterLayer name _ _ _ _ => name
  end.

(** Body of the lookup loop (lines 47-53): [(harvest_layer, biomass_layer)];
    [BIOMASS_STDEV_LAYER] is [None], so the third branch never assigns. *)
Definition note_layer (found : option map_layer * option map_layer)
           (layer : map_layer) : option map_layer * option map_layer :=
  if (layer_name layer =? "Vectorized")%string then (Some layer, snd found)
  else if (layer_name layer =? "AGB_Masked")%string then (fst found, Some layer)
  else found.

Definition find_layers (project : list map_layer)
  : option map_layer * option map_layer :=
  fold_left note_layer project (None, None).

(** What leaves the function through [raise] of line 190. *)
Inductive error : Type :=
| Harvest_vector_layer_not_found
| Biomass_raster_layer_not_found
| AttributeError
| OSError.

Inductive console : Type :=
| Loading_layers
| Found_harvest_layer (featureCount : Z)
| Found_biomass_raster (width height : Z)
| CRS_mismatch_detected (harvest biomass : string)
| Transforming_coordinates
| Raster_pixel_size (x y : Q)
| Pixel_area (pixel_area_ha : Q)
| Processing_harvest_patches
| Loop (m : message)
| Writing_results
| Analysis_complete (patches : Z)
| Results_saved
| Summary_statistics
| Average_biomass_per_patch (v : pyfloat)
| Total_biomass_across_all_patches (v : pyfloat)
| Mean_patch_biomass_range (low high : pyfloat)
| Error (e : error).

Inductive csv_line : Type :=
| Header
| Row (r : StatRow).

Record outcome : Type :=
  { printed : list console;
    file : option (list csv_line);
    raised : option error }.

(** The handler of lines 188-190. *)
Definition fail (so_far : list console) (e : error) : outcome :=
  {| printed := so_far ++ [Error e]; file := None; raised := Some e |}.

Section Main.

Variable np_median np_std np_min np_max : list pyfloat -> pyfloat.
Variable np_percentile : list pyfloat -> Q -> pyfloat.

(** [geom.transform(QgsCoordinateTransform(source, destination, project))] *)
Variable reproject : string -> string -> QgsGeometry -> exc QgsGeometry.

(** Lines 179-186. *)
Definition summary (results : list StatRow) : list console :=
  match results with
  | [] => []
  | _ =>
      let all_means := map mean_biomass results in
      let all_totals := map total_biomass results in
      [Summary_statistics;
       Average_biomass_per_patch (np_mean all_means);
       Total_biomass_across_all_patches (np_sum all_totals);
       Mean_patch_biomass_range (np_min all_means) (np_max all_means)]
  end.

(** [extract_biomass_statistics()] (lines 13-190); [writable] tells
    whether the output directory and file can be created and written. *)
Definition extract_biomass_statistics (writable : bool)
           (project : list map_layer) : outcome :=
  let '(harvest_layer, biomass_layer) := find_layers project in
  match harvest_layer with
  | None => fail [Loading_layers] Harvest_vector_layer_not_found
  | Some harvest_layer =>
      match biomass_layer with
      | None => fail [Loading_layers] Biomass_raster_layer_not_found
      | Some biomass_layer =>
          match harvest_layer with
          | RasterLayer _ _ _ _ _ => fail [Loading_layers] AttributeError
          | VectorLayer _ harvest_crs features =>
              let found := [Loading_layers;
                            Found_harvest_layer (len features)] in
              match biomass_layer with
              | VectorLayer _ _ _ => fail found AttributeError
              | RasterLayer _ biomass_crs layer pixel_size_x pixel_size_y =>
                  let mismatch := negb (harvest_crs =? biomass_crs)%string in
                  let transform :=
                    if mismatch then Some (reproject harvest_crs biomass_crs)
                    else None in
                  let pixel_area_ha := pixel_size_x * pixel_size_y / 10000 in
                  let loop :=
                    process_features np_median np_std np_min np_max
                                     np_percentile transform layer
                                     pixel_area_ha features in
                  let so_far :=
                    found
                    ++ [Found_biomass_raster (width layer) (height layer)]
                    ++ (if mismatch
                        then [CRS_mismatch_detected harvest_crs biomass_crs;
                              Transforming_coordinates]
                        else [])
                    ++ [Raster_pixel_size pixel_size_x pixel_size_y;
                        Pixel_area pixel_area_ha;
                        Processing_harvest_patches]
                    ++ map Loop (HarvestBiomassStats.printed loop)
                    ++ [Writing_results] in
                  if writable then
                    {| printed :=
                         so_far
                         ++ [Analysis_complete (len (results loop));
                             Results_saved]
                         ++ summary (results loop);
                       file := Some (Header :: map Row (results loop));
                       raised := None |}
                  else fail so_far OSError
              end
          end
      end
  end.

End Main.

End HarvestBiomassMain.

(* ------------------------------------------------------------------ *)
(** * Properties of the zonal sampler *)

Module SamplerFacts.
Import Py Qgs HarvestBiomassStats.

(** Linear arithmetic over the rationals. *)
Ltac lra := Lqa.lra.

(** ** Vocabulary *)

(** A sample is valid when it succeeded and its value is a float that is
    neither NaN nor at or above the no-data threshold. *)
Definition valid_sample (value : pyval) (success : bool) (v : pyfloat) : Prop :=
  success = true /\ value = PyFloat v /\ isnan v = false
  /\ float_lt v (Fin 65530) = true.

(** What one pixel adds to [valid_values]. *)
Definition contribution (raster_layer : QgsRasterLayer) (polygon_geom : QgsGeometry)
           (pixel_size_x pixel_size_y : Q) (row col : Z) : list pyfloat :=
  let point := pixel_center raster_layer pixel_size_x pixel_size_y row col in
  if contains polygon_geom point then
    match sample raster_layer point 1 with
    | (PyFloat v, true) =>
        if negb (isnan v) && float_lt v (Fin 65530) then [v] else []
    | _ => []
    end
  else [].

(** The pixels of an index range, in the order the loops visit them. *)
Definition examined (rg : index_range) : list (Z * Z) :=
  flat_map (fun row => map (pair row) (range (min_col rg) (max_col rg + 1)))
           (range (min_row rg) (max_row rg + 1)).

(** The number of pixels of an index range. *)
Definition cells_examined (rg : index_range) : Z :=
  Z.max 0 (max_row rg - min_row rg + 1) * Z.max 0 (max_col rg - min_col rg + 1).

(** The bounding box of a geometry encloses what the geometry contains. *)
Definition bbox_encloses (g : QgsGeometry) : Prop :=
  forall p, contains g p = true ->
    xMinimum (boundingBox g) <= x p <= xMaximum (boundingBox g)
    /\ yMinimum (boundingBox g) <= y p <= yMaximum (boundingBox g).

(** The grid invariant of the data model: positive pixel sizes. *)
Definition well_formed (r : QgsRasterLayer) : Prop :=
  xMinimum (extent r) < xMaximum (extent r)
  /\ yMinimum (extent r) < yMaximum (extent r)
  /\ (0 < width r)%Z /\ (0 < height r)%Z.

(** ** Python built-ins *)

Lemma range_length (lo hi : Z) : length (range lo hi) = Z.to_nat (hi - lo).
Proof. unfold range. now rewrite length_map, length_seq. Qed.

Lemma range_In (lo hi k : Z) : In k (range lo hi) <-> (lo <= k < hi)%Z.
Proof.
  unfold range. rewrite in_map_iff. split.
  - intros [i [<- Hi]]. apply in_seq in Hi. lia.
  - intros H. exists (Z.to_nat (k - lo)). split; [lia|].
    apply in_seq. lia.
Qed.

Lemma int_nonneg (a : Q) : 0 <= a -> int a = Qfloor a.
Proof.
  intros H. unfold int, Qfloor. destruct a as [n d]; simpl.
  apply Z.quot_div_nonneg; [|reflexivity].
  unfold Qle in H; simpl in H. lia.
Qed.

Lemma int_nonpos (a : Q) : a <= 0 -> (int a <= 0)%Z.
Proof.
  intros H. unfold int. destruct a as [n d]; simpl.
  unfold Qle in H; simpl in H.
  assert (Hn : (n <= 0)%Z) by lia.
  rewrite <- (Z.opp_involutive n), Z.quot_opp_l by discriminate.
  assert (0 <= (- n) ÷ Z.pos d)%Z by (apply Z.quot_pos; lia).
  lia.
Qed.

(** [int] never exceeds an index whose half-open cell reaches the value. *)
Lemma int_le_index (a : Q) (c : Z) :
  a <= inject_Z c + 0.5 -> (0 <= c)%Z -> (int a <= c)%Z.
Proof.
  intros Ha Hc. destruct (Qlt_le_dec a 0) as [Hneg|Hpos].
  - pose proof (int_nonpos a (Qlt_le_weak _ _ Hneg)). lia.
  - rewrite (int_nonneg a Hpos).
    assert (H : inject_Z (Qfloor a) < inject_Z (c + 1)).
    { rewrite inject_Z_plus. pose proof (Qfloor_le a).
      change (inject_Z 1) with 1.
      lra. }
    rewrite <- Zlt_Qlt in H. lia.
Qed.

Lemma int_ge_index (b : Q) (c : Z) :
  inject_Z c + 0.5 <= b -> (0 <= c)%Z -> (c <= int b)%Z.
Proof.
  intros Hb Hc.
  assert (H0 : inject_Z 0 <= inject_Z c) by (rewrite <- Zle_Qle; exact Hc).
  change (inject_Z 0) with 0 in H0.
  rewrite (int_nonneg b) by lra.
  rewrite <- (Qfloor_Z c). apply Qfloor_resp_le. lra.
Qed.

Lemma truediv_pos (a d : Q) : 0 < d -> truediv a d = Return (a / d).
Proof.
  intros Hd. unfold truediv.
  destruct (Qeq_bool d 0) eqn:E; [|reflexivity].
  apply Qeq_bool_eq in E. lra.
Qed.

(** ** The loops *)

Section Scan.
Variable raster_layer : QgsRasterLayer.
Variable polygon_geom : QgsGeometry.
Variable pixel_size_x pixel_size_y : Q.

Let visit := visit_pixel raster_layer polygon_geom pixel_size_x pixel_size_y.
Let adds := contribution raster_layer polygon_geom pixel_size_x pixel_size_y.

(** One pass of the loop body appends the pixel's contribution and
    counts the pixel. *)
Lemma visit_pixel_spec (row col : Z) (st : scan) :
  visit row st col =
  {| valid_values := valid_values st ++ adds row col;
     total_pixels := total_pixels st + 1 |}.
Proof.
  unfold visit, adds, visit_pixel, contribution.
  destruct (contains polygon_geom _); simpl.
  - destruct (sample raster_layer _ 1) as [[|v] [|]]; simpl;
      rewrite ?app_nil_r; try reflexivity.
    destruct (isnan v); simpl; rewrite ?app_nil_r; try reflexivity.
    destruct (float_lt v (Fin 65530)); simpl; rewrite ?app_nil_r; reflexivity.
  - now rewrite app_nil_r.
Qed.

Lemma inner_loop_spec (row : Z) (cols : list Z) (st : scan) :
  fold_left (visit row) cols st =
  {| valid_values := valid_values st ++ flat_map (adds row) cols;
     total_pixels := total_pixels st + len cols |}.
Proof.
  revert st. induction cols as [|col cols IH]; intros st; simpl.
  - rewrite app_nil_r. unfold len; simpl. rewrite Z.add_0_r. now destruct st.
  - rewrite IH, visit_pixel_spec; simpl. rewrite <- app_assoc.
    f_equal. unfold len; simpl length. lia.
Qed.

Lemma outer_loop_spec (cols rows : list Z) (st : scan) :
  fold_left (fun st row => fold_left (visit row) cols st) rows st =
  {| valid_values :=
       valid_values st
       ++ flat_map (fun rc => adds (fst rc) (snd rc))
                   (flat_map (fun row => map (pair row) cols) rows);
     total_pixels :=
       total_pixels st
       + len (flat_map (fun row => map (pair row) cols) rows) |}.
Proof.
  revert st. induction rows as [|row rows IH]; intros st; simpl.
  - rewrite app_nil_r. unfold len; simpl. rewrite Z.add_0_r. now destruct st.
  - rewrite IH, inner_loop_spec; simpl.
    rewrite flat_map_app, <- app_assoc. f_equal.
    + do 2 f_equal. clear. induction cols as [|c cols IHc]; simpl;
        [reflexivity | now rewrite IHc].
    + unfold len. rewrite length_app, length_map. lia.
Qed.

(** The accumulators after the two loops. *)
Lemma scan_pixels_spec (rg : index_range) :
  scan_pixels raster_layer polygon_geom pixel_size_x pixel_size_y rg =
  {| valid_values := flat_map (fun rc => adds (fst rc) (snd rc)) (examined rg);
     total_pixels := len (examined rg) |}.
Proof. unfold scan_pixels. now rewrite outer_loop_spec. Qed.

Lemma contribution_short (row col : Z) : (length (adds row col) <= 1)%nat.
Proof.
  unfold adds, contribution.
  destruct (contains polygon_geom _); simpl; [|lia].
  destruct (sample raster_layer _ 1) as [[|v] [|]]; simpl; try lia.
  destruct (negb (isnan v) && float_lt v (Fin 65530)); simpl; lia.
Qed.

Lemma contribution_valid (row col : Z) (v : pyfloat) :
  In v (adds row col) -> float_lt v (Fin 65530) = true /\ isnan v = false.
Proof.
  unfold adds, contribution.
  destruct (contains polygon_geom _); simpl; [|tauto].
  destruct (sample raster_layer _ 1) as [[|w] [|]]; simpl; try tauto.
  destruct (isnan w) eqn:Hn; simpl; [tauto|].
  destruct (float_lt w (Fin 65530)) eqn:Hlt; simpl; [|tauto].
  intros [<-|[]]. now split.
Qed.

Lemma collected_at_most_examined (cells : list (Z * Z)) :
  (length (flat_map (fun rc => adds (fst rc) (snd rc)) cells)
   <= length cells)%nat.
Proof.
  induction cells as [|[row col] cells IH]; simpl; [lia|].
  rewrite length_app. pose proof (contribution_short row col). simpl. lia.
Qed.

End Scan.

Lemma examined_length (rg : index_range) : len (examined rg) = cells_examined rg.
Proof.
  unfold examined, cells_examined, len.
  set (cols := range (min_col rg) (max_col rg + 1)).
  assert (H : forall rows : list Z,
             length (flat_map (fun row => map (pair row) cols) rows)
             = (length rows * length cols)%nat).
  { induction rows as [|r rows IH]; simpl; [reflexivity|].
    now rewrite length_app, length_map, IH. }
  rewrite H. subst cols. rewrite !range_length. lia.
Qed.

Lemma examined_In (rg : index_range) (row col : Z) :
  In (row, col) (examined rg) <->
  (min_row rg <= row <= max_row rg)%Z /\ (min_col rg <= col <= max_col rg)%Z.
Proof.
  unfold examined. rewrite in_flat_map. split.
  - intros [r [Hr Hin]]. apply in_map_iff in Hin as [c [Heq Hc]].
    inversion Heq; subst. apply range_In in Hr, Hc. lia.
  - intros [Hr Hc]. exists row. split; [apply range_In; lia|].
    apply in_map. apply range_In. lia.
Qed.

(** ** What a returned result looks like *)

(** A returned dictionary comes from the accumulators of a completed scan. *)
Lemma extract_Some_inv raster_layer polygon_geom pixel_area_ha r :
  fst (extract_raster_values_in_polygon raster_layer polygon_geom pixel_area_ha)
  = Some r ->
  exists pixel_size_x pixel_size_y rg,
    pixel_sizes raster_layer = Return (pixel_size_x, pixel_size_y)
    /\ bbox_index_range raster_layer polygon_geom pixel_size_x pixel_size_y
       = Return rg
    /\ summarize (scan_pixels raster_layer polygon_geom
                              pixel_size_x pixel_size_y rg) = Some r.
Proof.
  unfold extract_raster_values_in_polygon, extract_try.
  destruct (pixel_sizes raster_layer) as [[sx sy]|e] eqn:Hs; simpl;
    [|discriminate].
  destruct (bbox_index_range raster_layer polygon_geom sx sy) as [rg|e] eqn:Hr;
    simpl; [|discriminate].
  intros H. exists sx, sy, rg. auto.
Qed.

Lemma summarize_Some_inv (st : scan) (r : SampleResult) :
  summarize st = Some r ->
  valid_values st <> []
  /\ values r = valid_values st
  /\ pixel_count r = len (valid_values st)
  /\ coverage_pct r =
     if (total_pixels st >? 0)%Z
     then inject_Z (len (valid_values st)) / inject_Z (total_pixels st) * 100
     else 0.
Proof.
  unfold summarize. destruct (len (valid_values st) =? 0)%Z eqn:E; [discriminate|].
  intros H; inversion H; subst; clear H; simpl.
  repeat split. intros Hnil. rewrite Hnil in E. discriminate.
Qed.

(** The guard of line 249: accumulators that counted no pixel give a
    coverage of 0. *)
Lemma summarize_without_pixels (st : scan) (r : SampleResult) :
  summarize st = Some r -> (total_pixels st <= 0)%Z -> coverage_pct r = 0.
Proof.
  intros H Ht. apply summarize_Some_inv in H as (_ & _ & _ & ->).
  destruct (Z.gtb_spec (total_pixels st) 0); [lia|reflexivity].
Qed.

Lemma len_pos {A : Type} (l : list A) : l <> [] -> (0 < len l)%Z.
Proof. destruct l; [congruence|]. unfold len; simpl; lia. Qed.

Lemma inject_Z_pos (z : Z) : (0 < z)%Z -> 0 < inject_Z z.
Proof. intros H. change 0 with (inject_Z 0). now rewrite <- Zlt_Qlt. Qed.

(** The dictionary the sampler returns on the scenario of the
    specification. *)
Definition example_result : SampleResult :=
  Eval vm_compute in
    match fst (extract_raster_values_in_polygon example_raster example_polygon 0.01)
    with
    | Some r => r
    | None => {| values := []; pixel_count := 0; coverage_pct := 0 |}
    end.

Lemma example_result_returned :
  fst (extract_raster_values_in_polygon example_raster example_polygon 0.01)
  = Some example_result.
Proof. vm_compute. reflexivity. Qed.

(** ** The claims *)

(** C1. On the 10 x 10 grid with origin (0,100) and 10 m pixels, all
    cells 5 except the no-data cell (0,0) = 65535, and the polygon equal
    to the grid's bounding box, the sampler returns a result with
    [pixel_count = 99] and [coverage_pct = 99], and the mean of the
    returned values is 5. *)
Theorem C1_example_scenario :
  exists r,
    fst (extract_raster_values_in_polygon example_raster example_polygon 0.01)
    = Some r
    /\ pixel_count r = 99%Z
    /\ coverage_pct r == 99
    /\ exists mean, np_mean (values r) = Fin mean /\ mean == 5.
Proof.
  exists example_result. split; [exact example_result_returned|].
  split; [reflexivity|]. split; [reflexivity|].
  eexists. split; [vm_compute; reflexivity|reflexivity].
Qed.



(** C10. Every result the sampler returns has [pixel_count] equal to
    the length of [values] and at least 1, holds only values that are
    strictly below 65530 and not NaN, and has [coverage_pct] in (0, 100]. *)
Theorem C10_result_invariant raster_layer polygon_geom pixel_area_ha r :
  fst (extract_raster_values_in_polygon raster_layer polygon_geom pixel_area_ha)
  = Some r ->
  pixel_count r = len (values r)
  /\ (1 <= pixel_count r)%Z
  /\ Forall (fun v => float_lt v (Fin 65530) = true /\ isnan v = false)
            (values r)
  /\ 0 < coverage_pct r /\ coverage_pct r <= 100.
Proof.
  intros H. apply extract_Some_inv in H as (sx & sy & rg & _ & _ & Hsum).
  apply summarize_Some_inv in Hsum as (Hne & Hv & Hn & Hc).
  rewrite scan_pixels_spec in *. simpl in *.
  pose proof (len_pos _ Hne) as Hpos.
  pose proof (collected_at_most_examined raster_layer polygon_geom sx sy
                                         (examined rg)) as Hle.
  rewrite Hv, Hn. split; [reflexivity|]. split; [lia|]. split.
  - apply Forall_forall. intros v Hin. apply in_flat_map in Hin as [[row col] [_ Hin]].
    exact (contribution_valid raster_layer polygon_geom sx sy row col v Hin).
  - rewrite Hc. clear Hc Hv Hn.
    set (n := len (flat_map _ _)) in *. set (t := len (examined rg)).
    assert (Hnt : (n <= t)%Z) by (unfold n, t, len; lia).
    assert (Ht : (0 < t)%Z) by lia.
    replace (t >? 0)%Z with true by (symmetry; apply Z.gtb_lt; exact Ht).
    pose proof (inject_Z_pos _ Hpos) as Qn.
    pose proof (inject_Z_pos _ Ht) as Qt.
    assert (Qnt : inject_Z n <= inject_Z t) by (rewrite <- Zle_Qle; exact Hnt).
    split.
    + apply Qmult_lt_0_compat; [|reflexivity].
      apply Qlt_shift_div_l; [exact Qt|]. lra.
    + assert (Hd : inject_Z n / inject_Z t <= 1).
      { apply Qle_shift_div_r; [exact Qt|]. lra. }
      lra.
Qed.

Lemma C10_result_invariant_witness :
  pixel_count example_result = len (values example_result)
  /\ (1 <= pixel_count example_result)%Z
  /\ Forall (fun v => float_lt v (Fin 65530) = true /\ isnan v = false)
            (values example_result)
  /\ 0 < coverage_pct example_result /\ coverage_pct example_result <= 100.
Proof.
  apply (C10_result_invariant example_raster example_polygon 0.01).
  vm_compute. reflexivity.
Defined.

Lemma pixel_sizes_well_formed (raster_layer : QgsRasterLayer) :
  well_formed raster_layer ->
  exists pixel_size_x pixel_size_y,
    pixel_sizes raster_layer = Return (pixel_size_x, pixel_size_y)
    /\ 0 < pixel_size_x /\ 0 < pixel_size_y.
Proof.
  intros (Hx & Hy & Hw & Hh). unfold pixel_sizes.
  pose proof (inject_Z_pos _ Hw) as Qw. pose proof (inject_Z_pos _ Hh) as Qh.
  rewrite (truediv_pos _ _ Qw); simpl. rewrite (truediv_pos _ _ Qh); simpl.
  eexists; eexists; split; [reflexivity|].
  split; (apply Qlt_shift_div_l; [assumption|lra]).
Qed.

Lemma rectangle_polygon_bbox_encloses (r : QgsRectangle) :
  bbox_encloses (rectangle_polygon r).
Proof.
  intros p. unfold rectangle_polygon; simpl.
  rewrite !andb_true_iff, !negb_true_iff.
  intros [[[H1 H2] H3] H4].
  assert (L : forall a b, Qle_bool a b = false -> b < a).
  { intros a b E. apply Qnot_le_lt. rewrite <- Qle_bool_iff. congruence. }
  apply L in H1, H2, H3, H4. repeat split; apply Qlt_le_weak; assumption.
Qed.

Lemma example_raster_well_formed : well_formed example_raster.
Proof. repeat split. Qed.

(** C3. The clamped index range computed from the polygon's bounding
    box contains every cell of the grid whose centre lies inside the
    polygon. *)
Theorem C3_index_range_keeps_inside_cells raster_layer polygon_geom :
  well_formed raster_layer ->
  bbox_encloses polygon_geom ->
  exists pixel_size_x pixel_size_y rg,
    pixel_sizes raster_layer = Return (pixel_size_x, pixel_size_y)
    /\ bbox_index_range raster_layer polygon_geom pixel_size_x pixel_size_y
       = Return rg
    /\ forall row col,
         (0 <= row < height raster_layer)%Z ->
         (0 <= col < width raster_layer)%Z ->
         contains polygon_geom
                  (pixel_center raster_layer pixel_size_x pixel_size_y row col)
         = true ->
         (min_row rg <= row <= max_row rg)%Z
         /\ (min_col rg <= col <= max_col rg)%Z
         /\ In (row, col) (examined rg).
Proof.
  intros Hwf Hbox.
  destruct (pixel_sizes_well_formed _ Hwf) as (sx & sy & Hs & Hsx & Hsy).
  exists sx, sy. unfold bbox_index_range.
  rewrite !(truediv_pos _ _ Hsx); simpl. rewrite !(truediv_pos _ _ Hsy); simpl.
  eexists. split; [exact Hs|]. split; [reflexivity|].
  intros row col Hrow Hcol Hin.
  apply Hbox in Hin. unfold pixel_center in Hin; simpl in Hin.
  destruct Hin as [[Hx0 Hx1] [Hy0 Hy1]].
  assert (R : (Z.max 0 (int ((yMaximum (extent raster_layer)
                              - yMaximum (boundingBox polygon_geom)) / sy)) <= row
               <= Z.min (height raster_layer - 1)
                        (int ((yMaximum (extent raster_layer)
                               - yMinimum (boundingBox polygon_geom)) / sy)))%Z).
  { split.
    - apply Z.max_lub; [lia|]. apply int_le_index; [|lia].
      apply Qle_shift_div_r; [exact Hsy|]. lra.
    - apply Z.min_glb; [lia|]. apply int_ge_index; [|lia].
      apply Qle_shift_div_l; [exact Hsy|]. lra. }
  assert (C : (Z.max 0 (int ((xMinimum (boundingBox polygon_geom)
                              - xMinimum (extent raster_layer)) / sx)) <= col
               <= Z.min (width raster_layer - 1)
                        (int ((xMaximum (boundingBox polygon_geom)
                               - xMinimum (extent raster_layer)) / sx)))%Z).
  { split.
    - apply Z.max_lub; [lia|]. apply int_le_index; [|lia].
      apply Qle_shift_div_r; [exact Hsx|]. lra.
    - apply Z.min_glb; [lia|]. apply int_ge_index; [|lia].
      apply Qle_shift_div_l; [exact Hsx|]. lra. }
  split; [exact R|]. split; [exact C|].
  apply examined_In; simpl. split; assumption.
Qed.

Lemma C3_index_range_keeps_inside_cells_witness :
  exists pixel_size_x pixel_size_y rg,
    pixel_sizes example_raster = Return (pixel_size_x, pixel_size_y)
    /\ bbox_index_range example_raster example_polygon pixel_size_x pixel_size_y
       = Return rg
    /\ forall row col,
         (0 <= row < height example_raster)%Z ->
         (0 <= col < width example_raster)%Z ->
         contains example_polygon
                  (pixel_center example_raster pixel_size_x pixel_size_y row col)
         = true ->
         (min_row rg <= row <= max_row rg)%Z
         /\ (min_col rg <= col <= max_col rg)%Z
         /\ In (row, col) (examined rg).
Proof.
  apply (C3_index_range_keeps_inside_cells example_raster example_polygon).
  - exact example_raster_well_formed.
  - exact (rectangle_polygon_bbox_encloses example_extent).
Defined.

Lemma contribution_inside raster_layer polygon_geom pixel_size_x pixel_size_y
      row col value success :
  let point := pixel_center raster_layer pixel_size_x pixel_size_y row col in
  contains polygon_geom point = true ->
  sample raster_layer point 1 = (value, success) ->
  (forall v, contribution raster_layer polygon_geom pixel_size_x pixel_size_y
                          row col = [v]
             <-> valid_sample value success v)
  /\ (contribution raster_layer polygon_geom pixel_size_x pixel_size_y row col = []
      <-> ~ exists v, valid_sample value success v).
Proof.
  intros point Hin Hs. unfold contribution. fold point. rewrite Hin, Hs.
  unfold valid_sample.
  destruct value as [|w]; [|destruct success; [destruct (isnan w) eqn:Hn;
    [|destruct (float_lt w (Fin 65530)) eqn:Hlt]|]]; simpl; split;
    try (intros v; split; [discriminate|]);
    try (split; [intros _|reflexivity]).
  all: try (intros (_ & E & _); discriminate).
  all: try (intros (v & _ & E & _); discriminate).
  all: try (intros (E & _); discriminate).
  all: try (intros (v & E & _); discriminate).
  - intros (_ & E & E1 & _). inversion E; subst. congruence.
  - intros (v & _ & E & E1 & _). inversion E; subst. congruence.
  - intros v; split.
    + intros E; inversion E; subst. auto.
    + intros (_ & E & _). inversion E; subst. reflexivity.
  - split; [discriminate|]. intros H. exfalso. apply H. exists w. auto.
  - intros (_ & E & _ & E1). inversion E; subst. congruence.
  - intros (v & _ & E & _ & E1). inversion E; subst. congruence.
Qed.

(** C4. At an examined cell whose centre is inside the polygon, the
    sampled value is appended to the value list exactly when the sample
    succeeded and the value is not [None], not NaN and strictly below
    65530; otherwise the list is left as it was. *)
Theorem C4_appended_iff_valid raster_layer polygon_geom pixel_size_x pixel_size_y
        row col st value success :
  let point := pixel_center raster_layer pixel_size_x pixel_size_y row col in
  let st' := visit_pixel raster_layer polygon_geom pixel_size_x pixel_size_y
                         row st col in
  contains polygon_geom point = true ->
  sample raster_layer point 1 = (value, success) ->
  (forall v, valid_values st' = valid_values st ++ [v]
             <-> valid_sample value success v)
  /\ (valid_values st' = valid_values st
      <-> ~ exists v, valid_sample value success v)
  /\ total_pixels st' = (total_pixels st + 1)%Z.
Proof.
  intros point st' Hin Hs. subst st'. rewrite visit_pixel_spec; simpl.
  destruct (contribution_inside raster_layer polygon_geom pixel_size_x
              pixel_size_y row col value success Hin Hs) as [H1 H0].
  split; [|split; [|reflexivity]].
  - intros v. rewrite <- H1. split.
    + intros E. now apply app_inv_head in E.
    + intros E. now rewrite E.
  - rewrite <- H0. split.
    + intros E. rewrite <- (app_nil_r (valid_values st)) in E at 2.
      now apply app_inv_head in E.
    + intros E. rewrite E. apply app_nil_r.
Qed.

Lemma C4_appended_iff_valid_witness :
  let st := {| valid_values := []; total_pixels := 0 |} in
  let st' := visit_pixel example_raster example_polygon 10 10 0 st 1 in
  (forall v, valid_values st' = valid_values st ++ [v]
             <-> valid_sample (PyFloat (Fin 5)) true v)
  /\ (valid_values st' = valid_values st
      <-> ~ exists v, valid_sample (PyFloat (Fin 5)) true v)
  /\ total_pixels st' = (total_pixels st + 1)%Z.
Proof.
  apply (C4_appended_iff_valid example_raster example_polygon 10 10 0 1
           {| valid_values := []; total_pixels := 0 |} (PyFloat (Fin 5)) true);
    vm_compute; reflexivity.
Defined.

(** The geometry the sampler is called with (lines 109-111). *)
Definition transformed (transform : option (QgsGeometry -> exc QgsGeometry))
           (feature : QgsFeature) : exc QgsGeometry :=
  match transform with
  | Some t => t (geometry feature)
  | None => Return (geometry feature)
  end.

(** No examined pixel inside the polygon delivers a valid sample. *)
Definition all_no_data (raster_layer : QgsRasterLayer) (polygon_geom : QgsGeometry)
           (pixel_size_x pixel_size_y : Q) (rg : index_range) : Prop :=
  forall row col,
    In (row, col) (examined rg) ->
    let point := pixel_center raster_layer pixel_size_x pixel_size_y row col in
    contains polygon_geom point = true ->
    ~ exists v, valid_sample (fst (sample raster_layer point 1))
                             (snd (sample raster_layer point 1)) v.

Lemma no_contribution raster_layer polygon_geom pixel_size_x pixel_size_y rg :
  cells_examined rg = 0%Z
  \/ all_no_data raster_layer polygon_geom pixel_size_x pixel_size_y rg ->
  valid_values (scan_pixels raster_layer polygon_geom pixel_size_x pixel_size_y rg)
  = [].
Proof.
  intros H. rewrite scan_pixels_spec; simpl.
  destruct H as [H|H].
  - rewrite <- examined_length in H. unfold len in H.
    destruct (examined rg); [reflexivity|simpl in H; lia].
  - assert (G : forall cells, incl cells (examined rg) ->
                 flat_map (fun rc => contribution raster_layer polygon_geom
                                       pixel_size_x pixel_size_y (fst rc) (snd rc))
                          cells = []).
    { induction cells as [|[row col] cells IH]; intros Hincl; simpl;
        [reflexivity|].
      rewrite IH by (intros c Hc; apply Hincl; now right).
      rewrite app_nil_r.
      specialize (H row col (Hincl _ (or_introl eq_refl))). simpl in H.
      destruct (contains polygon_geom
                  (pixel_center raster_layer pixel_size_x pixel_size_y row col))
        eqn:Hin.
      - destruct (sample raster_layer
                    (pixel_center raster_layer pixel_size_x pixel_size_y row col) 1)
          as [value success] eqn:Hs.
        apply (contribution_inside _ _ _ _ _ _ _ _ Hin Hs).
        simpl in H. exact (H eq_refl).
      - unfold contribution. now rewrite Hin. }
    apply G, incl_refl.
Qed.

(** C5. If no valid value is collected, because the index range is
    empty or because every examined pixel inside the polygon is no-data,
    the sampler returns [None], and in both cases the caller does the
    same thing: it appends no row and prints its warning. *)
Theorem C5_no_valid_values_is_skipped
        raster_layer polygon_geom pixel_area_ha pixel_size_x pixel_size_y rg :
  pixel_sizes raster_layer = Return (pixel_size_x, pixel_size_y) ->
  bbox_index_range raster_layer polygon_geom pixel_size_x pixel_size_y
  = Return rg ->
  cells_examined rg = 0%Z
  \/ all_no_data raster_layer polygon_geom pixel_size_x pixel_size_y rg ->
  extract_raster_values_in_polygon raster_layer polygon_geom pixel_area_ha
  = (None, [])
  /\ forall np_median np_std np_min np_max np_percentile transform
            feature_count st i feature,
      transformed transform feature = Return polygon_geom ->
      process_feature np_median np_std np_min np_max np_percentile transform
                      raster_layer pixel_area_ha feature_count st (i, feature)
      = {| results := results st;
           printed := printed st
                      ++ (if (i mod 50 =? 0)%Z
                          then [Processing_feature (i + 1) feature_count]
                          else [])
                      ++ [Warning_no_valid_biomass_data (id feature)] |}.
Proof.
  intros Hs Hr Hno.
  assert (E : extract_raster_values_in_polygon raster_layer polygon_geom
                                               pixel_area_ha = (None, [])).
  { unfold extract_raster_values_in_polygon, extract_try.
    rewrite Hs; simpl. rewrite Hr; simpl.
    unfold summarize. now rewrite (no_contribution _ _ _ _ _ Hno). }
  split; [exact E|].
  intros np_median np_std np_min np_max np_percentile transform
         feature_count st i feature Hg.
  unfold process_feature. unfold transformed in Hg. rewrite Hg, E.
  reflexivity.
Qed.

(** A polygon beyond the grid, and one over the no-data cell alone. *)
Definition outside_polygon : QgsGeometry :=
  rectangle_polygon
    {| xMinimum := 200; yMinimum := 200; xMaximum := 300; yMaximum := 300 |}.

Definition no_data_polygon : QgsGeometry :=
  rectangle_polygon
    {| xMinimum := 0; yMinimum := 90; xMaximum := 10; yMaximum := 100 |}.

Lemma C5_no_valid_values_is_skipped_witness :
  (extract_raster_values_in_polygon example_raster outside_polygon 0.01
   = (None, [])
   /\ forall np_median np_std np_min np_max np_percentile transform
             feature_count st i feature,
       transformed transform feature = Return outside_polygon ->
       process_feature np_median np_std np_min np_max np_percentile transform
                       example_raster 0.01 feature_count st (i, feature)
       = {| results := results st;
            printed := printed st
                       ++ (if (i mod 50 =? 0)%Z
                           then [Processing_feature (i + 1) feature_count]
                           else [])
                       ++ [Warning_no_valid_biomass_data (id feature)] |})
  /\ (extract_raster_values_in_polygon example_raster no_data_polygon 0.01
      = (None, [])
      /\ forall np_median np_std np_min np_max np_percentile transform
                feature_count st i feature,
          transformed transform feature = Return no_data_polygon ->
          process_feature np_median np_std np_min np_max np_percentile transform
                          example_raster 0.01 feature_count st (i, feature)
          = {| results := results st;
               printed := printed st
                          ++ (if (i mod 50 =? 0)%Z
                              then [Processing_feature (i + 1) feature_count]
                              else [])
                          ++ [Warning_no_valid_biomass_data (id feature)] |}).
Proof.
  split.
  - apply (C5_no_valid_values_is_skipped
             example_raster outside_polygon 0.01 (100 / 10) (100 / 10)
             {| min_col := 20; max_col := 9; min_row := 0; max_row := -10 |}).
    + vm_compute. reflexivity.
    + vm_compute. reflexivity.
    + left. vm_compute. reflexivity.
  - apply (C5_no_valid_values_is_skipped
             example_raster no_data_polygon 0.01 (100 / 10) (100 / 10)
             {| min_col := 0; max_col := 1; min_row := 0; max_row := 1 |}).
    + vm_compute. reflexivity.
    + vm_compute. reflexivity.
    + right. intros row col Hin. apply examined_In in Hin. simpl in Hin.
      assert (Hrow : row = 0%Z \/ row = 1%Z) by lia.
      assert (Hcol : col = 0%Z \/ col = 1%Z) by lia.
      destruct Hrow, Hcol; subst; intros point Hc; subst point;
        try (vm_compute in Hc; discriminate).
      intros (v & _ & Hv & _ & Hlt). vm_compute in Hv.
      inversion Hv; subst. vm_compute in Hlt. discriminate.
Defined.

End SamplerFacts.

(* ------------------------------------------------------------------ *)
(** * Properties of the shape metrics *)

Module ShapeFacts.
Import Py ShapeMetrics.
Local Open Scope R_scope.

(** Linear arithmetic over the reals. *)
Ltac lra := Lra.lra.

(** ** [math] on arguments inside the domain *)

Lemma truediv_nonzero (a d : R) : d <> 0 -> truediv a d = Return (a / d).
Proof. intros H. unfold truediv. destruct (Req_dec_T d 0); [contradiction|reflexivity]. Qed.

Lemma truediv_Return_inv (a d q : R) : truediv a d = Return q -> d <> 0 /\ q = a / d.
Proof.
  unfold truediv. destruct (Req_dec_T d 0); [discriminate|].
  intros H; inversion H; auto.
Qed.

Lemma math_sqrt_nonneg (a : R) : 0 <= a -> math_sqrt a = Return (sqrt a).
Proof. intros H. unfold math_sqrt. destruct (Rlt_dec a 0); [lra|reflexivity]. Qed.

Lemma math_log_pos (a : R) : 0 < a -> math_log a = Return (ln a).
Proof. intros H. unfold math_log. destruct (Rle_dec a 0); [lra|reflexivity]. Qed.

Lemma fractal_dimension_formula (area_m2 perimeter_m : R) :
  1 < area_m2 -> 0 < perimeter_m ->
  fractal_dimension area_m2 perimeter_m
  = Return (2 * ln (perimeter_m / 4) / ln area_m2).
Proof.
  intros Ha Hp. unfold fractal_dimension.
  destruct (Rlt_dec 0 area_m2); [|lra].
  destruct (Rlt_dec 0 perimeter_m); [|lra].
  rewrite math_log_pos by lra. cbn [bind].
  rewrite math_log_pos by lra. cbn [bind].
  apply truediv_nonzero. apply ln_neq_0; lra.
Qed.

(** ** What a produced row tells about the polygon *)

Lemma metrics_row_inv (feature : QgsFeature) (geom : QgsGeometry) (row : MetricsRow) :
  fst (calculate_feature_metrics feature geom) = Some row ->
  1000 <= area geom
  /\ length geom <> 0
  /\ exists fdi, fractal_dimension (area geom) (length geom) = Return fdi
                 /\ fractal_dimension_index row = round fdi 4.
Proof.
  unfold calculate_feature_metrics.
  destruct (feature_metrics_try feature geom) as [r|e] eqn:T; simpl; [|discriminate].
  intros ->. unfold feature_metrics_try in T.
  destruct (Rlt_dec (area geom / 10000) 0.1) as [Hs|Hs]; [discriminate|].
  destruct (math_sqrt (area geom / PI)); cbn [bind] in T; [|discriminate].
  destruct (math_sqrt (PI * area geom)); cbn [bind] in T; [|discriminate].
  destruct (truediv (length geom) _); cbn [bind] in T; [|discriminate].
  destruct (truediv (length geom) (area geom)); cbn [bind] in T; [|discriminate].
  destruct (truediv (4 * PI * area geom) (length geom ^ 2)) eqn:Hc; cbn [bind] in T;
    [|discriminate].
  destruct (fractal_dimension (area geom) (length geom)) as [fdi|] eqn:Hf;
    cbn [bind] in T; [|discriminate].
  destruct (calculate_elongation_and_orientation geom) as [el ori].
  inversion T; subst; clear T. simpl.
  apply truediv_Return_inv in Hc as [Hp _].
  split; [lra|]. split.
  - intros Hz. apply Hp. rewrite Hz. simpl. lra.
  - exists fdi. split; reflexivity.
Qed.

(** C9. A polygon of less than 0.1 ha (1000 square metres) gets no row:
    [calculate_feature_metrics] returns [None] without printing, and the
    feature loop writes nothing for it. *)
Theorem C9_small_polygons_get_no_row (feature : QgsFeature) (geom : QgsGeometry) :
  area geom < 1000 ->
  calculate_feature_metrics feature geom = (None, [])
  /\ (geometry feature = Some geom ->
      forall out, write_feature out feature = out).
Proof.
  intros Ha.
  assert (E : calculate_feature_metrics feature geom = (None, [])).
  { unfold calculate_feature_metrics, feature_metrics_try.
    destruct (Rlt_dec (area geom / 10000) 0.1) as [_|H]; [reflexivity|].
    exfalso. apply H. lra. }
  split; [exact E|].
  intros Hg out. unfold write_feature. rewrite Hg, E.
  destruct (negb _); [reflexivity|].
  rewrite app_nil_r. now destruct out.
Qed.

(** A rectangular clearing of 25 m by 20 m: 500 square metres. *)
Definition small_clearing : QgsGeometry :=
  {| type := PolygonGeometry;
     area := 500;
     length := 90;
     bbox_width := 25;
     bbox_height := 20;
     orientedMinimumBoundingBox :=
       Some {| box_type := PolygonGeometry;
               box_vertices := [(0, 0); (25, 0); (25, 20); (0, 20); (0, 0)] |} |}.

Definition small_feature : QgsFeature :=
  {| id := 7; geometry := Some small_clearing |}.

Lemma C9_small_polygons_get_no_row_witness :
  calculate_feature_metrics small_feature small_clearing = (None, [])
  /\ (geometry small_feature = Some small_clearing ->
      forall out, write_feature out small_feature = out).
Proof.
  apply (C9_small_polygons_get_no_row small_feature small_clearing).
  simpl. lra.
Defined.

(** C6. When a row is produced, the fractal dimension index is
    [2 * ln (perimeter / 4) / ln area] if [area > 1] and [perimeter > 0],
    and 0 if [area <= 1] or [perimeter <= 0]; the row holds it rounded to
    four decimals. *)
Theorem C6_fractal_dimension_index (feature : QgsFeature) (geom : QgsGeometry)
        (row : MetricsRow) :
  fst (calculate_feature_metrics feature geom) = Some row ->
  (1 < area geom -> 0 < length geom ->
   fractal_dimension (area geom) (length geom)
   = Return (2 * ln (length geom / 4) / ln (area geom)))
  /\ (area geom <= 1 \/ length geom <= 0 ->
      fractal_dimension (area geom) (length geom) = Return 0)
  /\ exists fdi,
       fractal_dimension (area geom) (length geom) = Return fdi
       /\ fractal_dimension_index row = round fdi 4.
Proof.
  intros H. apply metrics_row_inv in H as (Ha & Hp & Hrow).
  split; [|split; [|exact Hrow]].
  - intros Ha1 Hp0. now apply fractal_dimension_formula.
  - intros [Ha1|Hp0]; [lra|]. unfold fractal_dimension.
    destruct (Rlt_dec 0 (area geom)); [|reflexivity].
    destruct (Rlt_dec 0 (length geom)); [lra|reflexivity].
Qed.

(** A square plot of one hectare. *)
Definition square_plot : QgsGeometry :=
  {| type := PolygonGeometry;
     area := 10000;
     length := 400;
     bbox_width := 100;
     bbox_height := 100;
     orientedMinimumBoundingBox :=
       Some {| box_type := PolygonGeometry;
               box_vertices := [(0, 0); (100, 0); (100, 100); (0, 100); (0, 0)] |} |}.

Definition square_feature : QgsFeature :=
  {| id := 1; geometry := Some square_plot |}.

Definition square_row : MetricsRow :=
  {| feature_id := 1;
     area_ha := round (10000 / 10000) 4;
     perimeter_m := round 400 2;
     length_m := round (Rmax 100 100) 2;
     width_m := round (Rmin 100 100) 2;
     equivalent_diameter_m := round (2 * sqrt (10000 / PI)) 2;
     shape_index := round (400 / (2 * sqrt (PI * 10000))) 4;
     perimeter_area_ratio := round (400 / 10000) 6;
     compactness_index := round (4 * PI * 10000 / 400 ^ 2) 4;
     fractal_dimension_index := round (2 * ln (400 / 4) / ln 10000) 4;
     elongation_ratio :=
       round (fst (calculate_elongation_and_orientation square_plot)) 4;
     orientation_degrees :=
       round (snd (calculate_elongation_and_orientation square_plot)) 2;
     edge_density := round (400 / 10000) 6 |}.

Lemma square_row_produced :
  fst (calculate_feature_metrics square_feature square_plot) = Some square_row.
Proof.
  pose proof PI_RGT_0 as Hpi.
  assert (H1 : 0 < 10000 / PI) by (apply Rdiv_lt_0_compat; lra).
  assert (H2 : 0 < PI * 10000) by (apply Rmult_lt_0_compat; lra).
  unfold calculate_feature_metrics, feature_metrics_try.
  cbn [area length bbox_width bbox_height id square_plot square_feature].
  destruct (Rlt_dec (10000 / 10000) 0.1) as [H|_]; [exfalso; lra|].
  rewrite math_sqrt_nonneg by lra. cbn [bind].
  rewrite math_sqrt_nonneg by lra. cbn [bind].
  rewrite truediv_nonzero
    by (pose proof (sqrt_lt_R0 _ H2); lra). cbn [bind].
  rewrite truediv_nonzero by lra. cbn [bind].
  rewrite truediv_nonzero by lra. cbn [bind].
  rewrite fractal_dimension_formula by lra. cbn [bind].
  fold square_plot.
  rewrite (surjective_pairing (calculate_elongation_and_orientation square_plot)).
  reflexivity.
Qed.

Lemma C6_fractal_dimension_index_witness :
  (1 < area square_plot -> 0 < length square_plot ->
   fractal_dimension (area square_plot) (length square_plot)
   = Return (2 * ln (length square_plot / 4) / ln (area square_plot)))
  /\ (area square_plot <= 1 \/ length square_plot <= 0 ->
      fractal_dimension (area square_plot) (length square_plot) = Return 0)
  /\ exists fdi,
       fractal_dimension (area square_plot) (length square_plot) = Return fdi
       /\ fractal_dimension_index square_row = round fdi 4.
Proof.
  apply (C6_fractal_dimension_index square_feature square_plot square_row).
  exact square_row_produced.
Defined.

(** ** Elongation and orientation *)

Lemma math_atan2_range (y x : R) : - PI < math_atan2 y x <= PI.
Proof.
  pose proof PI_RGT_0 as Hpi. pose proof (atan_bound (y / x)) as Hb.
  unfold math_atan2.
  destruct (Rlt_dec 0 x) as [Hx|Hx]; [lra|].
  destruct (Rlt_dec x 0) as [Hx'|Hx'].
  - destruct (Rle_dec 0 y) as [Hy|Hy].
    + assert (y / x <= 0).
      { unfold Rdiv. pose proof (Rinv_lt_0_compat _ Hx'). nra. }
      assert (atan (y / x) <= 0).
      { destruct (Req_dec (y / x) 0) as [E|E].
        - rewrite E, atan_0. lra.
        - rewrite <- atan_0. apply Rlt_le, atan_increasing. lra. }
      lra.
    + assert (0 < y / x).
      { unfold Rdiv. pose proof (Rinv_lt_0_compat _ Hx'). nra. }
      assert (0 < atan (y / x)) by (rewrite <- atan_0; now apply atan_increasing).
      lra.
  - destruct (Rlt_dec 0 y); [lra|]. destruct (Rlt_dec y 0); lra.
Qed.

Lemma math_degrees_range (a : R) :
  - PI < a <= PI -> -180 < math_degrees a <= 180.
Proof.
  intros [Hl Hu]. pose proof PI_RGT_0 as Hpi. unfold math_degrees.
  assert (E : a * 180 / PI = 180 * (a / PI)) by (field; lra).
  rewrite E.
  assert (-1 < a / PI).
  { apply (Rmult_lt_reg_r PI); [lra|]. unfold Rdiv.
    rewrite Rmult_assoc, Rinv_l by lra. lra. }
  assert (a / PI <= 1).
  { apply (Rmult_le_reg_r PI); [lra|]. unfold Rdiv.
    rewrite Rmult_assoc, Rinv_l by lra. lra. }
  lra.
Qed.

Lemma longer_edge_range (st e : R * R) :
  -180 < snd st <= 180 -> -180 < snd (longer_edge st e) <= 180.
Proof.
  intros H. unfold longer_edge.
  destruct (Rlt_dec (fst st) (edge_length e)); [|exact H].
  cbn [snd]. apply math_degrees_range, math_atan2_range.
Qed.

Lemma orientation_loop_range (es : list (R * R)) (st : R * R) :
  -180 < snd st <= 180 -> -180 < snd (fold_left longer_edge es st) <= 180.
Proof.
  revert st. induction es as [|e es IH]; intros st H; cbn [fold_left];
    [exact H|]. apply IH, longer_edge_range, H.
Qed.

(** The loop keeps the first edge of greatest length and its angle. *)
Lemma orientation_loop_longest (es seen : list (R * R)) (st : R * R) :
  (forall e, In e seen -> edge_length e <= fst st) ->
  (fst st = 0 /\ snd st = 0)
  \/ (exists e, In e seen /\ edge_length e = fst st
                /\ snd st = math_degrees (math_atan2 (snd e) (fst e))) ->
  let st' := fold_left longer_edge es st in
  (forall e, In e (seen ++ es) -> edge_length e <= fst st')
  /\ ((fst st' = 0 /\ snd st' = 0)
      \/ exists e, In e (seen ++ es) /\ edge_length e = fst st'
                   /\ snd st' = math_degrees (math_atan2 (snd e) (fst e))).
Proof.
  revert seen st. induction es as [|e es IH]; intros seen st Hmax Hst.
  - cbn [fold_left]. rewrite app_nil_r. split; assumption.
  - cbn [fold_left].
    replace (seen ++ e :: es) with ((seen ++ [e]) ++ es)
      by (rewrite <- app_assoc; reflexivity).
    apply IH.
    + intros e' He'. apply in_app_or in He' as [He'|[<-|[]]];
        unfold longer_edge; destruct (Rlt_dec (fst st) (edge_length e));
        cbn [fst]; try specialize (Hmax _ He'); lra.
    + unfold longer_edge. destruct (Rlt_dec (fst st) (edge_length e)).
      * right. exists e. cbn [fst snd]. repeat split.
        apply in_or_app. right. now left.
      * destruct Hst as [Hst|(e0 & Hin & Hlen & Hang)]; [now left|].
        right. exists e0. repeat split; try assumption.
        apply in_or_app. now left.
Qed.

(** Lines 207-208. *)
Definition normalized (orientation_angle : R) : R :=
  if Rlt_dec orientation_angle 0 then orientation_angle + 180
  else orientation_angle.

(** The orientation returned is 0 or the normalised angle of a longest
    edge of the box's ring. *)
Lemma orientation_of_longest_edge (geom : QgsGeometry) :
  snd (calculate_elongation_and_orientation geom) = 0
  \/ exists bbox_geom e,
       orientedMinimumBoundingBox geom = Some bbox_geom
       /\ In e (edges (box_vertices bbox_geom))
       /\ (forall e', In e' (edges (box_vertices bbox_geom)) ->
                      edge_length e' <= edge_length e)
       /\ snd (calculate_elongation_and_orientation geom)
          = normalized (math_degrees (math_atan2 (snd e) (fst e))).
Proof.
  unfold calculate_elongation_and_orientation.
  destruct (orientedMinimumBoundingBox geom) as [b|]; [|now left].
  destruct (negb _); [now left|].
  destruct (len (box_vertices b) <? 4)%Z; [now left|].
  destruct (len (map edge_length (edges (box_vertices b))) <? 2)%Z; [now left|].
  destruct (len (nodup _ _) <? 2)%Z; [now left|].
  cbn [snd].
  destruct (orientation_loop_longest (edges (box_vertices b)) [] (0, 0))
    as [Hmax [[_ H0]|(e & Hin & Hlen & Hang)]].
  - intros e [].
  - left; split; reflexivity.
  - left. rewrite H0. destruct (Rlt_dec 0 0); lra.
  - right. exists b, e. cbn [app] in *. split; [reflexivity|].
    split; [exact Hin|]. split.
    + intros e' He'. rewrite Hlen. apply Hmax, He'.
    + rewrite Hang. reflexivity.
Qed.




(** The orientation before and after the final normalisation. *)
Lemma orientation_range (geom : QgsGeometry) :
  0 <= snd (calculate_elongation_and_orientation geom) <= 180.
Proof.
  unfold calculate_elongation_and_orientation.
  destruct (orientedMinimumBoundingBox geom) as [b|]; cbn [snd]; [|lra].
  destruct (negb _); cbn [snd]; [lra|].
  destruct (len (box_vertices b) <? 4)%Z; cbn [snd]; [lra|].
  destruct (len (map edge_length (edges (box_vertices b))) <? 2)%Z;
    cbn [snd]; [lra|].
  destruct (len (nodup _ _) <? 2)%Z; cbn [snd]; [lra|].
  assert (H0 : -180 < snd ((0, 0) : R * R) <= 180) by (cbn [snd]; lra).
  pose proof (orientation_loop_range (edges (box_vertices b)) (0, 0) H0) as H.
  destruct (Rlt_dec _ 0); lra.
Qed.

(** ** Evaluating the function on concrete boxes *)

Lemma round_IZR (k : Z) (n : nat) : round (IZR k) n = IZR k.
Proof.
  unfold round.
  assert (Hp : 10 ^ n <> 0) by (apply pow_nonzero; lra).
  assert (E : IZR k * 10 ^ n = IZR (k * 10 ^ Z.of_nat n)).
  { rewrite mult_IZR, <- pow_IZR. reflexivity. }
  rewrite E. unfold round_half_even. rewrite ZfloorZ.
  destruct (Rlt_dec _ (1 / 2)) as [_|H]; [|exfalso; apply H; lra].
  rewrite <- E. field. exact Hp.
Qed.

Lemma edge_length_eq (e : R * R) (l : R) :
  0 <= l -> l * l = fst e * fst e + snd e * snd e -> edge_length e = l.
Proof. intros H0 H. unfold edge_length. apply sqrt_lem_1; nra. Qed.

Lemma nodup_two_alternating (a b : R) :
  a <> b -> nodup Req_dec_T [a; b; a; b] = [a; b].
Proof.
  intros Hab. cbn [nodup].
  destruct (in_dec Req_dec_T a [b; a; b]) as [_|H];
    [|exfalso; apply H; right; now left].
  destruct (in_dec Req_dec_T b [a; b]) as [_|H];
    [|exfalso; apply H; right; now left].
  destruct (in_dec Req_dec_T a [b]) as [[H|[]]|_]; [congruence|].
  destruct (in_dec Req_dec_T b []) as [[]|_]. reflexivity.
Qed.

Lemma longer_edge_longer (st e : R * R) :
  fst st < edge_length e ->
  longer_edge st e = (edge_length e, math_degrees (math_atan2 (snd e) (fst e))).
Proof. intros H. unfold longer_edge. destruct (Rlt_dec _ _); [reflexivity|lra]. Qed.

Lemma longer_edge_shorter (st e : R * R) :
  edge_length e <= fst st -> longer_edge st e = st.
Proof. intros H. unfold longer_edge. destruct (Rlt_dec _ _); [lra|reflexivity]. Qed.


Lemma degrees_north : math_degrees (math_atan2 10 0) = 90.
Proof.
  pose proof PI_RGT_0. unfold math_atan2.
  destruct (Rlt_dec 0 0); [lra|]. destruct (Rlt_dec 0 0); [lra|].
  destruct (Rlt_dec 0 10); [|lra]. unfold math_degrees. field. lra.
Qed.

(** A strip of 1000 m by 10 m lying along the x axis; the ring of its
    oriented bounding box starts at the south-east corner, so its first
    long edge runs from east to west. *)
Definition strip : QgsGeometry :=
  {| type := PolygonGeometry;
     area := 10000;
     length := 2020;
     bbox_width := 1000;
     bbox_height := 10;
     orientedMinimumBoundingBox :=
       Some {| box_type := PolygonGeometry;
               box_vertices :=
                 [(1000, 0); (1000, 10); (0, 10); (0, 0); (1000, 0)] |} |}.

Lemma strip_edges :
  edges [(1000, 0); (1000, 10); (0, 10); (0, 0); (1000, 0)]
  = [(0, 10); (-1000, 0); (0, -10); (1000, 0)].
Proof. cbn [edges fst snd]. repeat (f_equal; try lra). Qed.


(** A box collapsed onto a vertical segment: five vertices in the ring,
    two of them distinct. *)
Definition collapsed : QgsGeometry :=
  {| type := PolygonGeometry;
     area := 0;
     length := 20;
     bbox_width := 0;
     bbox_height := 10;
     orientedMinimumBoundingBox :=
       Some {| box_type := PolygonGeometry;
               box_vertices := [(0, 0); (0, 10); (0, 10); (0, 0); (0, 0)] |} |}.

Lemma collapsed_edges :
  edges [(0, 0); (0, 10); (0, 10); (0, 0); (0, 0)]
  = [(0, 10); (0, 0); (0, -10); (0, 0)].
Proof. cbn [edges fst snd]. repeat (f_equal; try lra). Qed.

(** With fewer than four distinct vertices the orientation is still that
    of the long edge: the vertex test counts the ring's vertices. *)
Lemma collapsed_result :
  calculate_elongation_and_orientation collapsed = (1, 90).
Proof.
  unfold calculate_elongation_and_orientation.
  cbn [orientedMinimumBoundingBox collapsed box_type box_vertices
       geometry_type_eqb negb].
  change (len [(0, 0); (0, 10); (0, 10); (0, 0); (0, 0)] <? 4)%Z with false.
  cbv iota. rewrite collapsed_edges. cbn [map].
  rewrite (edge_length_eq (0, 10) 10) by (cbn [fst snd]; lra).
  rewrite (edge_length_eq (0, 0) 0) by (cbn [fst snd]; lra).
  rewrite (edge_length_eq (0, -10) 10) by (cbn [fst snd]; lra).
  change (len [10; 0; 10; 0] <? 2)%Z with false. cbv iota.
  rewrite !round_IZR, nodup_two_alternating by lra.
  change (len [10; 0] <? 2)%Z with false. cbv iota.
  unfold sorted. cbn [fold_right insert_sorted].
  destruct (Rle_dec 10 0); [lra|]. cbn [nth].
  destruct (Rlt_dec 0 0); [lra|].
  cbn [fold_left].
  rewrite (longer_edge_longer (0, 0) (0, 10))
    by (rewrite (edge_length_eq (0, 10) 10); cbn [fst snd]; lra).
  rewrite (edge_length_eq (0, 10) 10) by (cbn [fst snd]; lra).
  cbn [fst snd]. rewrite degrees_north.
  rewrite (longer_edge_shorter (10, 90) (0, 0))
    by (rewrite (edge_length_eq (0, 0) 0); cbn [fst snd]; lra).
  rewrite (longer_edge_shorter (10, 90) (0, -10))
    by (rewrite (edge_length_eq (0, -10) 10); cbn [fst snd]; lra).
  rewrite (longer_edge_shorter (10, 90) (0, 0))
    by (rewrite (edge_length_eq (0, 0) 0); cbn [fst snd]; lra).
  cbn [snd]. destruct (Rlt_dec 90 0); [lra|reflexivity].
Qed.


(** ** The claim about orientation *)







(** The strip again, with the ring of its box started at the south-west
    corner: the first long edge now runs from west to east. *)
Definition strip_from_south_west : QgsGeometry :=
  {| type := PolygonGeometry;
     area := 10000;
     length := 2020;
     bbox_width := 1000;
     bbox_height := 10;
     orientedMinimumBoundingBox :=
       Some {| box_type := PolygonGeometry;
               box_vertices :=
                 [(0, 0); (1000, 0); (1000, 10); (0, 10); (0, 0)] |} |}.

Lemma degrees_east : math_degrees (math_atan2 0 1000) = 0.
Proof.
  pose proof PI_RGT_0. unfold math_atan2.
  destruct (Rlt_dec 0 1000); [|lra].
  replace (0 / 1000) with 0 by (field; lra).
  rewrite atan_0. unfold math_degrees. field. lra.
Qed.

(** The same rectangle, the same axis, and an orientation of 0 instead
    of 180: the result depends on the vertex the ring starts at. *)
Lemma strip_from_south_west_result :
  calculate_elongation_and_orientation strip_from_south_west = (1000 / 10, 0).
Proof.
  unfold calculate_elongation_and_orientation.
  cbn [orientedMinimumBoundingBox strip_from_south_west box_type box_vertices
       geometry_type_eqb negb].
  change (len [(0, 0); (1000, 0); (1000, 10); (0, 10); (0, 0)] <? 4)%Z
    with false. cbv iota.
  assert (E : edges [(0, 0); (1000, 0); (1000, 10); (0, 10); (0, 0)]
              = [(1000, 0); (0, 10); (-1000, 0); (0, -10)]).
  { cbn [edges fst snd]. repeat (f_equal; try lra). }
  rewrite E. cbn [map].
  rewrite (edge_length_eq (0, 10) 10) by (cbn [fst snd]; lra).
  rewrite (edge_length_eq (-1000, 0) 1000) by (cbn [fst snd]; lra).
  rewrite (edge_length_eq (0, -10) 10) by (cbn [fst snd]; lra).
  rewrite (edge_length_eq (1000, 0) 1000) by (cbn [fst snd]; lra).
  change (len [1000; 10; 1000; 10] <? 2)%Z with false. cbv iota.
  rewrite !round_IZR, nodup_two_alternating by lra.
  change (len [1000; 10] <? 2)%Z with false. cbv iota.
  unfold sorted. cbn [fold_right insert_sorted].
  destruct (Rle_dec 1000 10); [lra|]. cbn [nth].
  destruct (Rlt_dec 0 10); [|lra].
  cbn [fold_left].
  rewrite (longer_edge_longer (0, 0) (1000, 0))
    by (rewrite (edge_length_eq (1000, 0) 1000); cbn [fst snd]; lra).
  rewrite (edge_length_eq (1000, 0) 1000) by (cbn [fst snd]; lra).
  cbn [fst snd]. rewrite degrees_east.
  rewrite (longer_edge_shorter (1000, 0) (0, 10))
    by (rewrite (edge_length_eq (0, 10) 10); cbn [fst snd]; lra).
  rewrite (longer_edge_shorter (1000, 0) (-1000, 0))
    by (rewrite (edge_length_eq (-1000, 0) 1000); cbn [fst snd]; lra).
  rewrite (longer_edge_shorter (1000, 0) (0, -10))
    by (rewrite (edge_length_eq (0, -10) 10); cbn [fst snd]; lra).
  cbn [snd]. destruct (Rlt_dec 0 0); [lra|reflexivity].
Qed.



End ShapeFacts.

(* ------------------------------------------------------------------ *)
(** * The two extraction paths of harvest_prob_extract.py *)

Module ExtractFacts.
Import Py Qgs HarvestProbExtract.

(** ** Reading a band into an array *)

(** The array [read_band] returns when it returns. *)
Definition band_array (layer : QgsRasterLayer) : ndarray :=
  {| nrows := height layer; ncols := width layer; item := block layer 1 |}.

(** A band whose bytes are a [height x width] array of 4-byte items: a
    band of four bytes a pixel, or one without pixels. *)
Definition readable (layer : QgsRasterLayer) : Prop :=
  (width layer * height layer = 0 \/ dataTypeSize layer 1 = 4)%Z.

(** [read_band] returns the array of a readable band and raises
    [ValueError] on every other. *)
Lemma read_band_cases (layer : QgsRasterLayer) :
  (readable layer /\ read_band layer = Return (band_array layer))
  \/ (~ readable layer /\ read_band layer = Raise ValueError).
Proof.
  unfold readable, read_band, frombuffer_float32, reshape, band_array.
  set (n := (width layer * height layer)%Z).
  set (d := dataTypeSize layer 1).
  destruct (Z.eq_dec n 0) as [Hn|Hn].
  { left. split; [now left|]. rewrite Hn. cbn [Z.mul Z.modulo Z.eqb bind].
    change (0 mod 4 =? 0)%Z with true. cbn [bind].
    change (0 / 4)%Z with 0%Z.
    replace (0 =? height layer * width layer)%Z with true; [reflexivity|].
    symmetry. apply Z.eqb_eq. unfold n in Hn. lia. }
  destruct (Z.eq_dec d 4) as [Hd|Hd].
  { left. split; [now right|]. rewrite Hd.
    rewrite Z.mod_mul by lia. cbn [Z.eqb bind].
    rewrite Z.div_mul by lia.
    replace (n =? height layer * width layer)%Z with true; [reflexivity|].
    symmetry. apply Z.eqb_eq. unfold n. lia. }
  right. split; [intros [H|H]; contradiction|].
  destruct (n * d mod 4 =? 0)%Z eqn:Em; cbn [bind]; [|reflexivity].
  destruct (n * d / 4 =? height layer * width layer)%Z eqn:Es; [|reflexivity].
  exfalso. apply Z.eqb_eq in Em, Es.
  pose proof (Z.div_mod (n * d) 4) as D. unfold n in *. nia.
Qed.

Lemma read_band_readable (layer : QgsRasterLayer) :
  readable layer -> read_band layer = Return (band_array layer).
Proof.
  intros H. destruct (read_band_cases layer) as [[_ E]|[N _]];
    [exact E|contradiction].
Qed.

Lemma read_band_unreadable (layer : QgsRasterLayer) :
  ~ readable layer -> read_band layer = Raise ValueError.
Proof.
  intros H. destruct (read_band_cases layer) as [[R _]|[_ E]];
    [contradiction|exact E].
Qed.

(** On the three aligned rasters the provider's sample at the cell centre
    is the value the numpy array holds for that cell. *)
Lemma one_cell_sample_is_block :
  fst (sample harvest_1x1 {| x := 5; y := 5 |} 1) = PyFloat (block harvest_1x1 1 0 0)
  /\ fst (sample agb_1x1 {| x := 5; y := 5 |} 1) = PyFloat (block agb_1x1 1 0 0)
  /\ fst (sample harvest_prob_1x1 {| x := 5; y := 5 |} 1)
     = PyFloat (block harvest_prob_1x1 1 0 0).
Proof. repeat split. Qed.

(** ** When the two paths do agree

    The per-pixel path samples each layer at the centre of the mask's
    pixel and drops a pixel whose value equals the layer's no-data value;
    the numpy path indexes each layer's array by the mask's row and column
    and drops a pixel whose value is NaN.  They write the same rows when
    sampling at a centre reads the array cell of the same index and the two
    filters agree on the masked pixels. *)

Section Agreement.
Variable agb_layer harvest_layer harvest_prob_layer : QgsRasterLayer.

(** Centre of the mask's pixel [(row, col)]. *)
Definition center (sx sy : Q) (row col : Z) : QgsPointXY :=
  {| x := xMinimum (extent harvest_layer) + (inject_Z col + 0.5) * sx;
     y := yMaximum (extent harvest_layer) - (inject_Z row + 0.5) * sy |}.

Definition in_mask (row col : Z) : Prop :=
  (0 <= row < height harvest_layer)%Z /\ (0 <= col < width harvest_layer)%Z.

(** The pixel sizes both paths compute from the mask layer. *)
Definition mask_pixel_sizes (sx sy : Q) : Prop :=
  truediv (rect_width (extent harvest_layer)) (inject_Z (width harvest_layer))
  = Return sx
  /\ truediv (rect_height (extent harvest_layer)) (inject_Z (height harvest_layer))
     = Return sy.

(** Sampling a layer at a mask pixel's centre reads the layer's array at
    the mask pixel's index. *)
Definition aligned (layer : QgsRasterLayer) : Prop :=
  (height harvest_layer <= height layer)%Z
  /\ (width harvest_layer <= width layer)%Z
  /\ forall sx sy row col,
       mask_pixel_sizes sx sy ->
       in_mask row col ->
       fst (sample layer (center sx sy row col) 1)
       = PyFloat (block layer 1 row col).

(** On the masked pixels, differing from the no-data values is the same
    as not being NaN. *)
Definition filters_agree : Prop :=
  forall row col,
    in_mask row col ->
    float_eq (block harvest_layer 1 row col) (Fin 1) = true ->
    negb (float_eq (block agb_layer 1 row col) (sourceNoDataValue agb_layer 1))
    && negb (float_eq (block harvest_prob_layer 1 row col)
                      (sourceNoDataValue harvest_prob_layer 1))
    = negb (isnan (block agb_layer 1 row col)
            || isnan (block harvest_prob_layer 1 row col)).

Hypothesis harvest_aligned : aligned harvest_layer.
Hypothesis agb_aligned : aligned agb_layer.
Hypothesis harvest_prob_aligned : aligned harvest_prob_layer.
Hypothesis same_filter : filters_agree.
Hypothesis harvest_readable : readable harvest_layer.
Hypothesis agb_readable : readable agb_layer.
Hypothesis harvest_prob_readable : readable harvest_prob_layer.

Lemma getitem_in_range (layer : QgsRasterLayer) (row col : Z) :
  aligned layer -> in_mask row col ->
  getitem (band_array layer) row col = Return (block layer 1 row col).
Proof.
  intros (Hh & Hw & _) [Hr Hc]. unfold getitem, band_array; simpl.
  replace (row <? height layer)%Z with true by (symmetry; apply Z.ltb_lt; lia).
  replace (col <? width layer)%Z with true by (symmetry; apply Z.ltb_lt; lia).
  reflexivity.
Qed.

(** One mask pixel: the numpy loop over the pixel's entry of
    [np.where], if any, does what the per-pixel loop body does. *)
Lemma pixel_agreement (sx sy : Q) (row col : Z) (csv_data : list csv_row) :
  mask_pixel_sizes sx sy ->
  in_mask row col ->
  fold_left (mask_pixel harvest_layer (band_array agb_layer)
                        (band_array harvest_prob_layer) sx sy)
            (if float_eq (block harvest_layer 1 row col) (Fin 1)
             then [(row, col)] else [])
            (Return csv_data)
  = Return (sample_pixel agb_layer harvest_layer harvest_prob_layer
                         sx sy row csv_data col).
Proof.
  intros Hs Hin. unfold sample_pixel.
  destruct harvest_aligned as (_ & _ & Hh).
  destruct agb_aligned as (_ & _ & Ha).
  destruct harvest_prob_aligned as (_ & _ & Hp).
  fold (center sx sy row col).
  rewrite (Hh sx sy row col Hs Hin), (Ha sx sy row col Hs Hin),
    (Hp sx sy row col Hs Hin).
  cbn [equals_one not_None_and_ne as_float].
  destruct (float_eq (block harvest_layer 1 row col) (Fin 1)) eqn:Hm;
    [|reflexivity].
  cbn [fold_left mask_pixel bind].
  rewrite (getitem_in_range agb_layer row col agb_aligned Hin). cbn [bind].
  rewrite (getitem_in_range harvest_prob_layer row col harvest_prob_aligned Hin).
  cbn [bind]. rewrite (same_filter row col Hin Hm).
  destruct (negb _); reflexivity.
Qed.

Lemma row_agreement (sx sy : Q) (row : Z) (cols : list Z) (csv_data : list csv_row) :
  mask_pixel_sizes sx sy ->
  (0 <= row < height harvest_layer)%Z ->
  (forall col, In col cols -> (0 <= col < width harvest_layer)%Z) ->
  fold_left (mask_pixel harvest_layer (band_array agb_layer)
                        (band_array harvest_prob_layer) sx sy)
            (flat_map (fun col =>
                         if float_eq (block harvest_layer 1 row col) (Fin 1)
                         then [(row, col)] else []) cols)
            (Return csv_data)
  = Return (fold_left (sample_pixel agb_layer harvest_layer harvest_prob_layer
                                    sx sy row) cols csv_data).
Proof.
  intros Hs Hrow. revert csv_data.
  induction cols as [|col cols IH]; intros csv_data Hcols; [reflexivity|].
  cbn [flat_map fold_left]. rewrite fold_left_app.
  rewrite pixel_agreement;
    [|exact Hs|split; [exact Hrow|apply Hcols; now left]].
  apply IH. intros c Hc. apply Hcols. now right.
Qed.

Lemma rows_agreement (sx sy : Q) (rows : list Z) (csv_data : list csv_row) :
  mask_pixel_sizes sx sy ->
  (forall row, In row rows -> (0 <= row < height harvest_layer)%Z) ->
  fold_left (mask_pixel harvest_layer (band_array agb_layer)
                        (band_array harvest_prob_layer) sx sy)
            (flat_map (fun row =>
                         flat_map (fun col =>
                                     if float_eq (block harvest_layer 1 row col)
                                                 (Fin 1)
                                     then [(row, col)] else [])
                                  (range 0 (width harvest_layer))) rows)
            (Return csv_data)
  = Return (fold_left
              (fun csv_data row =>
                 fold_left (sample_pixel agb_layer harvest_layer
                                         harvest_prob_layer sx sy row)
                           (range 0 (width harvest_layer)) csv_data)
              rows csv_data).
Proof.
  intros Hs. revert csv_data.
  induction rows as [|row rows IH]; intros csv_data Hrows; [reflexivity|].
  cbn [flat_map fold_left]. rewrite fold_left_app.
  rewrite row_agreement.
  - apply IH. intros r Hr. apply Hrows. now right.
  - exact Hs.
  - apply Hrows. now left.
  - intros col Hc. apply SamplerFacts.range_In in Hc. lia.
Qed.

(** Under these conditions the two functions return the same rows, or
    raise the same exception. *)
Lemma paths_agree_when_aligned :
  extract_raster_values_to_csv_numpy agb_layer harvest_layer harvest_prob_layer
  = extract_raster_values_to_csv agb_layer harvest_layer harvest_prob_layer.
Proof.
  unfold extract_raster_values_to_csv_numpy, extract_raster_values_to_csv.
  rewrite (read_band_readable harvest_layer harvest_readable),
    (read_band_readable agb_layer agb_readable),
    (read_band_readable harvest_prob_layer harvest_prob_readable).
  cbn [bind].
  destruct (truediv _ (inject_Z (width harvest_layer))) as [sx|e] eqn:Hx;
    [|reflexivity].
  cbn [bind].
  destruct (truediv _ (inject_Z (height harvest_layer))) as [sy|e] eqn:Hy;
    [|reflexivity].
  cbn [bind]. unfold where_equals_one.
  cbn [band_array nrows ncols item].
  apply rows_agreement; [split; assumption|].
  intros row Hr. apply SamplerFacts.range_In in Hr. lia.
Qed.

End Agreement.

(** The conditions hold, for instance, for the three 1 x 1 rasters once
    the biomass cell holds a measurement. *)
Definition agb_measured_1x1 : QgsRasterLayer :=
  cell_raster one_cell 1 1 (Fin 65535) (fun _ _ => Fin 120).

Lemma one_cell_aligned (nodata : pyfloat) (cells : Z -> Z -> pyfloat) :
  aligned harvest_1x1 (cell_raster one_cell 1 1 nodata cells).
Proof.
  split; [simpl; lia|]. split; [simpl; lia|].
  intros sx sy row col [Hx Hy] [Hr Hc].
  simpl in Hr, Hc. assert (row = 0%Z) by lia. assert (col = 0%Z) by lia. subst.
  vm_compute in Hx, Hy. inversion Hx; inversion Hy; subst. reflexivity.
Qed.

Lemma cell_raster_readable extent width height nodata cells :
  readable (cell_raster extent width height nodata cells).
Proof. right. reflexivity. Qed.

Lemma measured_paths_agree :
  extract_raster_values_to_csv_numpy agb_measured_1x1 harvest_1x1 harvest_prob_1x1
  = extract_raster_values_to_csv agb_measured_1x1 harvest_1x1 harvest_prob_1x1.
Proof.
  apply paths_agree_when_aligned;
    try apply one_cell_aligned; try apply cell_raster_readable.
  intros row col [Hr Hc] _. simpl in Hr, Hc.
  assert (row = 0%Z) by lia. assert (col = 0%Z) by lia. subst. reflexivity.
Qed.

(** ** Where they do not *)

(** C8 fails on the code. For three aligned 1 x 1 rasters whose mask
    cell is 1 and whose biomass cell holds the declared no-data value
    65535, the per-pixel path writes the header only, whereas the numpy
    path, which filters NaN and nothing else, writes the pixel. *)
Theorem C8_paths_differ_on_no_data :
  extract_raster_values_to_csv agb_1x1 harvest_1x1 harvest_prob_1x1
  = Return [Header]
  /\ exists x y,
       extract_raster_values_to_csv_numpy agb_1x1 harvest_1x1 harvest_prob_1x1
       = Return [Header; Record_ x y (Fin 65535) (Fin 0.5)]
       /\ x == 5 /\ y == 5.
Proof.
  split; [vm_compute; reflexivity|].
  eexists; eexists. split; [vm_compute; reflexivity|].
  split; reflexivity.
Qed.

(** The same rasters with a NaN biomass cell: now the per-pixel path
    writes the pixel (NaN differs from every no-data value) and the numpy
    path drops it. *)
Definition agb_nan_1x1 : QgsRasterLayer :=
  cell_raster one_cell 1 1 (Fin 65535) (fun _ _ => NaN).

Lemma paths_differ_on_nan :
  extract_raster_values_to_csv_numpy agb_nan_1x1 harvest_1x1 harvest_prob_1x1
  = Return [Header]
  /\ exists x y,
       extract_raster_values_to_csv agb_nan_1x1 harvest_1x1 harvest_prob_1x1
       = Return [Header; Record_ x y NaN (Fin 0.5)].
Proof.
  split; [vm_compute; reflexivity|].
  eexists; eexists. vm_compute; reflexivity.
Qed.

End ExtractFacts.

(* ------------------------------------------------------------------ *)
(** * More on the zonal sampler: errors, extent, coverage *)

Module SamplerMore.
Import Py Qgs HarvestBiomassStats SamplerFacts.

(** ** Division *)










(** ** Where the sampled points lie *)

Lemma pixel_sizes_value (raster_layer : QgsRasterLayer) (sx sy : Q) :
  well_formed raster_layer ->
  pixel_sizes raster_layer = Return (sx, sy) ->
  0 < sx /\ 0 < sy
  /\ sx * inject_Z (width raster_layer)
     == xMaximum (extent raster_layer) - xMinimum (extent raster_layer)
  /\ sy * inject_Z (height raster_layer)
     == yMaximum (extent raster_layer) - yMinimum (extent raster_layer).
Proof.
  intros (Hx & Hy & Hw & Hh) Hs. unfold pixel_sizes in Hs.
  pose proof (inject_Z_pos _ Hw) as Qw. pose proof (inject_Z_pos _ Hh) as Qh.
  rewrite (truediv_pos _ _ Qw) in Hs; cbn [bind] in Hs.
  rewrite (truediv_pos _ _ Qh) in Hs; cbn [bind] in Hs.
  inversion Hs; subst; clear Hs.
  split; [apply Qlt_shift_div_l; [assumption|lra]|].
  split; [apply Qlt_shift_div_l; [assumption|lra]|].
  split; field; lra.
Qed.

Lemma bbox_index_range_clamped raster_layer polygon_geom sx sy rg :
  bbox_index_range raster_layer polygon_geom sx sy = Return rg ->
  (0 <= min_col rg)%Z /\ (max_col rg <= width raster_layer - 1)%Z
  /\ (0 <= min_row rg)%Z /\ (max_row rg <= height raster_layer - 1)%Z.
Proof.
  unfold bbox_index_range, truediv.
  destruct (Qeq_bool sx 0); cbn [bind]; [discriminate|].
  destruct (Qeq_bool sy 0); cbn [bind]; [discriminate|].
  intros H; inversion H; subst; clear H. cbn. lia.
Qed.

(** The centre of a pixel of the grid lies strictly inside the extent. *)
Lemma pixel_center_in_extent raster_layer sx sy row col :
  well_formed raster_layer ->
  pixel_sizes raster_layer = Return (sx, sy) ->
  (0 <= row < height raster_layer)%Z ->
  (0 <= col < width raster_layer)%Z ->
  let p := pixel_center raster_layer sx sy row col in
  xMinimum (extent raster_layer) < x p < xMaximum (extent raster_layer)
  /\ yMinimum (extent raster_layer) < y p < yMaximum (extent raster_layer).
Proof.
  intros Hwf Hs Hrow Hcol.
  destruct (pixel_sizes_value _ _ _ Hwf Hs) as (Hsx & Hsy & Ex & Ey).
  unfold pixel_center; cbn [x y].
  assert (Hc0 : 0 <= inject_Z col)
    by (change 0 with (inject_Z 0); rewrite <- Zle_Qle; lia).
  assert (Hc1 : inject_Z col + 1 <= inject_Z (width raster_layer)).
  { change 1 with (inject_Z 1). rewrite <- inject_Z_plus, <- Zle_Qle. lia. }
  assert (Hr0 : 0 <= inject_Z row)
    by (change 0 with (inject_Z 0); rewrite <- Zle_Qle; lia).
  assert (Hr1 : inject_Z row + 1 <= inject_Z (height raster_layer)).
  { change 1 with (inject_Z 1). rewrite <- inject_Z_plus, <- Zle_Qle. lia. }
  assert (Px : 0 < (inject_Z col + 0.5) * sx)
    by (apply Qmult_lt_0_compat; lra).
  assert (Py : 0 < (inject_Z row + 0.5) * sy)
    by (apply Qmult_lt_0_compat; lra).
  assert (Ux : (inject_Z col + 0.5) * sx < sx * inject_Z (width raster_layer)).
  { rewrite (Qmult_comm sx). apply Qmult_lt_compat_r; lra. }
  assert (Uy : (inject_Z row + 0.5) * sy < sy * inject_Z (height raster_layer)).
  { rewrite (Qmult_comm sy). apply Qmult_lt_compat_r; lra. }
  repeat split; lra.
Qed.

(** X2. On a raster with positive pixel sizes every pixel the loops visit
    is a pixel of the grid, and the point handed to [contains] and
    [sample] lies strictly inside the raster's extent. *)
Theorem examined_pixels_inside_extent raster_layer polygon_geom sx sy rg row col :
  well_formed raster_layer ->
  pixel_sizes raster_layer = Return (sx, sy) ->
  bbox_index_range raster_layer polygon_geom sx sy = Return rg ->
  In (row, col) (examined rg) ->
  let p := pixel_center raster_layer sx sy row col in
  (0 <= row < height raster_layer)%Z /\ (0 <= col < width raster_layer)%Z
  /\ xMinimum (extent raster_layer) < x p < xMaximum (extent raster_layer)
  /\ yMinimum (extent raster_layer) < y p < yMaximum (extent raster_layer).
Proof.
  intros Hwf Hs Hr Hin p.
  apply bbox_index_range_clamped in Hr as (H1 & H2 & H3 & H4).
  apply examined_In in Hin as [Hrow Hcol].
  assert (Rr : (0 <= row < height raster_layer)%Z) by lia.
  assert (Rc : (0 <= col < width raster_layer)%Z) by lia.
  split; [exact Rr|]. split; [exact Rc|].
  exact (pixel_center_in_extent raster_layer sx sy row col Hwf Hs Rr Rc).
Qed.

Definition whole_grid : index_range :=
  {| min_col := 0; max_col := 9; min_row := 0; max_row := 9 |}.

Lemma examined_pixels_inside_extent_witness :
  let p := pixel_center example_raster (100 / 10) (100 / 10) 3 4 in
  (0 <= 3 < height example_raster)%Z /\ (0 <= 4 < width example_raster)%Z
  /\ xMinimum (extent example_raster) < x p < xMaximum (extent example_raster)
  /\ yMinimum (extent example_raster) < y p < yMaximum (extent example_raster).
Proof.
  apply (examined_pixels_inside_extent example_raster example_polygon
           (100 / 10) (100 / 10) whole_grid 3 4).
  - exact example_raster_well_formed.
  - vm_compute. reflexivity.
  - vm_compute. reflexivity.
  - apply examined_In. cbn. lia.
Defined.

(** ** A polygon away from the raster *)




(** ** Complete and partial coverage *)

Lemma contributions_length raster_layer polygon_geom sx sy (cells : list (Z * Z)) :
  (forall row col, In (row, col) cells ->
     length (contribution raster_layer polygon_geom sx sy row col) = 1%nat) ->
  length (flat_map (fun rc => contribution raster_layer polygon_geom sx sy
                                           (fst rc) (snd rc)) cells)
  = length cells.
Proof.
  induction cells as [|[row col] cells IH]; intros H; [reflexivity|].
  cbn [flat_map fst snd]. rewrite length_app, (H row col) by now left.
  cbn [length]. rewrite IH; [reflexivity|].
  intros r c Hin. apply H. now right.
Qed.

(** X4. When the index range is not empty and every pixel of it has its
    centre inside the polygon and delivers a valid sample, the sampler
    returns as many values as pixels and a coverage of 100. *)
Theorem full_coverage_is_100 raster_layer polygon_geom pixel_area_ha sx sy rg :
  pixel_sizes raster_layer = Return (sx, sy) ->
  bbox_index_range raster_layer polygon_geom sx sy = Return rg ->
  (0 < cells_examined rg)%Z ->
  (forall row col,
     In (row, col) (examined rg) ->
     let p := pixel_center raster_layer sx sy row col in
     contains polygon_geom p = true
     /\ exists v, valid_sample (fst (sample raster_layer p 1))
                               (snd (sample raster_layer p 1)) v) ->
  exists r,
    extract_raster_values_in_polygon raster_layer polygon_geom pixel_area_ha
    = (Some r, [])
    /\ pixel_count r = cells_examined rg
    /\ coverage_pct r == 100.
Proof.
  intros Hs Hr Hpos Hall.
  unfold extract_raster_values_in_polygon, extract_try.
  rewrite Hs; cbn [bind fst snd]. rewrite Hr; cbn [bind].
  rewrite scan_pixels_spec. unfold summarize. cbn [valid_values total_pixels].
  assert (L : len (flat_map (fun rc => contribution raster_layer polygon_geom
                                         sx sy (fst rc) (snd rc)) (examined rg))
              = cells_examined rg).
  { rewrite <- examined_length. unfold len. f_equal.
    apply contributions_length. intros row col Hin.
    destruct (Hall row col Hin) as [Hc [v Hv]].
    destruct (sample raster_layer (pixel_center raster_layer sx sy row col) 1)
      as [value success] eqn:Hsm.
    destruct (contribution_inside raster_layer polygon_geom sx sy row col
                value success Hc Hsm) as [H1 _].
    cbn [fst snd] in Hv. apply H1 in Hv. now rewrite Hv. }
  rewrite L, examined_length.
  replace (cells_examined rg =? 0)%Z with false by (symmetry; apply Z.eqb_neq; lia).
  replace (cells_examined rg >? 0)%Z with true by (symmetry; apply Z.gtb_lt; lia).
  eexists. split; [reflexivity|]. cbn [pixel_count coverage_pct].
  split; [reflexivity|].
  pose proof (inject_Z_pos _ Hpos). field. lra.
Qed.

(** One cell of 100 m holding a measurement. *)
Definition single_cell_raster : QgsRasterLayer :=
  cell_raster example_extent 1 1 (Fin 65535) (fun _ _ => Fin 7).

Definition single_cell : index_range :=
  {| min_col := 0; max_col := 0; min_row := 0; max_row := 0 |}.

Lemma full_coverage_is_100_witness :
  exists r,
    extract_raster_values_in_polygon single_cell_raster example_polygon 0.01
    = (Some r, [])
    /\ pixel_count r = cells_examined single_cell
    /\ coverage_pct r == 100.
Proof.
  apply (full_coverage_is_100 single_cell_raster example_polygon 0.01
           (100 / 1) (100 / 1) single_cell).
  - vm_compute. reflexivity.
  - vm_compute. reflexivity.
  - vm_compute. reflexivity.
  - intros row col Hin. apply examined_In in Hin. cbn in Hin.
    assert (row = 0%Z) by lia. assert (col = 0%Z) by lia. subst.
    split; [vm_compute; reflexivity|].
    exists (Fin 7). repeat split.
Defined.

Lemma contribution_cases raster_layer polygon_geom sx sy row col :
  let p := pixel_center raster_layer sx sy row col in
  (contribution raster_layer polygon_geom sx sy row col = []
   /\ (contains polygon_geom p = true ->
       ~ exists v, valid_sample (fst (sample raster_layer p 1))
                                (snd (sample raster_layer p 1)) v))
  \/ exists v,
       contribution raster_layer polygon_geom sx sy row col = [v]
       /\ contains polygon_geom p = true
       /\ valid_sample (fst (sample raster_layer p 1))
                       (snd (sample raster_layer p 1)) v.
Proof.
  intros p.
  destruct (contains polygon_geom p) eqn:Hc.
  - destruct (sample raster_layer p 1) as [value success] eqn:Hs.
    destruct (contribution_inside raster_layer polygon_geom sx sy row col
                value success Hc Hs) as [H1 H0].
    destruct (contribution raster_layer polygon_geom sx sy row col)
      as [|v [|w t]] eqn:E.
    + left. split; [reflexivity|]. intros _. now apply H0.
    + right. exists v. split; [reflexivity|]. split; [reflexivity|].
      now apply H1.
    + exfalso.
      pose proof (contribution_short raster_layer polygon_geom sx sy row col) as L.
      rewrite E in L. cbn in L. lia.
  - left. split; [|discriminate]. unfold contribution. fold p. now rewrite Hc.
Qed.

(** X5. The values of a returned result are, in the order of the scan
    (row by row of the clamped index range, column by column within a
    row), the valid samples of the pixels whose centre is inside the
    polygon: each examined pixel gives its sample once when the centre is
    inside and the sample is valid, and nothing otherwise. *)
Theorem values_are_the_valid_inside_samples
        raster_layer polygon_geom pixel_area_ha r :
  fst (extract_raster_values_in_polygon raster_layer polygon_geom pixel_area_ha)
  = Some r ->
  exists sx sy rg (gives : Z -> Z -> list pyfloat),
    pixel_sizes raster_layer = Return (sx, sy)
    /\ bbox_index_range raster_layer polygon_geom sx sy = Return rg
    /\ values r
       = flat_map
           (fun row =>
              flat_map (fun col => gives row col)
                       (range (min_col rg) (max_col rg + 1)))
           (range (min_row rg) (max_row rg + 1))
    /\ forall row col,
         let p := pixel_center raster_layer sx sy row col in
         (exists v,
             gives row col = [v]
             /\ contains polygon_geom p = true
             /\ valid_sample (fst (sample raster_layer p 1))
                             (snd (sample raster_layer p 1)) v)
         \/ (gives row col = []
             /\ (contains polygon_geom p = true ->
                 ~ exists v, valid_sample (fst (sample raster_layer p 1))
                                          (snd (sample raster_layer p 1)) v)).
Proof.
  intros H. apply extract_Some_inv in H as (sx & sy & rg & Hs & Hr & Hsum).
  exists sx, sy, rg, (contribution raster_layer polygon_geom sx sy).
  split; [exact Hs|]. split; [exact Hr|].
  apply summarize_Some_inv in Hsum as (_ & -> & _).
  rewrite scan_pixels_spec. cbn [valid_values]. split.
  - unfold examined.
    assert (Inner : forall row cols,
               flat_map (fun rc => contribution raster_layer polygon_geom sx sy
                                                (fst rc) (snd rc))
                        (map (pair row) cols)
               = flat_map (fun col => contribution raster_layer polygon_geom
                                                   sx sy row col) cols).
    { intros row cols. induction cols as [|col cols IHc]; [reflexivity|].
      cbn [map flat_map fst snd]. now rewrite IHc. }
    induction (range (min_row rg) (max_row rg + 1)) as [|row rows IH];
      [reflexivity|].
    cbn [flat_map]. now rewrite flat_map_app, IH, Inner.
  - intros row col. cbn zeta.
    destruct (contribution_cases raster_layer polygon_geom sx sy row col)
      as [[E Hno]|(v & E & Hc & Hv)].
    + right. split; assumption.
    + left. exists v. split; [exact E|]. split; [exact Hc|exact Hv].
Qed.

Lemma values_are_the_valid_inside_samples_witness :
  exists sx sy rg (gives : Z -> Z -> list pyfloat),
    pixel_sizes example_raster = Return (sx, sy)
    /\ bbox_index_range example_raster example_polygon sx sy = Return rg
    /\ values example_result
       = flat_map
           (fun row =>
              flat_map (fun col => gives row col)
                       (range (min_col rg) (max_col rg + 1)))
           (range (min_row rg) (max_row rg + 1))
    /\ forall row col,
         let p := pixel_center example_raster sx sy row col in
         (exists v,
             gives row col = [v]
             /\ contains example_polygon p = true
             /\ valid_sample (fst (sample example_raster p 1))
                             (snd (sample example_raster p 1)) v)
         \/ (gives row col = []
             /\ (contains example_polygon p = true ->
                 ~ exists v, valid_sample (fst (sample example_raster p 1))
                                          (snd (sample example_raster p 1)) v)).
Proof.
  apply (values_are_the_valid_inside_samples example_raster example_polygon 0.01).
  vm_compute. reflexivity.
Defined.

(** ** Less data, less coverage *)

(** X6. Two rasters on the same grid, the second valid only where the
    first is: when the sampler returns a result on the second it returns
    one on the first, with at least as many values and at least the
    coverage. *)
Theorem coverage_grows_with_valid_pixels
        raster_1 raster_2 polygon_geom pixel_area_ha r2 :
  extent raster_1 = extent raster_2 ->
  width raster_1 = width raster_2 ->
  height raster_1 = height raster_2 ->
  (forall p v,
     valid_sample (fst (sample raster_2 p 1)) (snd (sample raster_2 p 1)) v ->
     exists w,
       valid_sample (fst (sample raster_1 p 1)) (snd (sample raster_1 p 1)) w) ->
  fst (extract_raster_values_in_polygon raster_2 polygon_geom pixel_area_ha)
  = Some r2 ->
  exists r1,
    fst (extract_raster_values_in_polygon raster_1 polygon_geom pixel_area_ha)
    = Some r1
    /\ (pixel_count r2 <= pixel_count r1)%Z
    /\ coverage_pct r2 <= coverage_pct r1.
Proof.
  intros He Hw Hh Hvalid H2.
  apply extract_Some_inv in H2 as (sx & sy & rg & Hs & Hr & Hsum).
  assert (Hs1 : pixel_sizes raster_1 = Return (sx, sy))
    by (unfold pixel_sizes in *; now rewrite He, Hw, Hh).
  assert (Hr1 : bbox_index_range raster_1 polygon_geom sx sy = Return rg)
    by (unfold bbox_index_range in *; now rewrite He, Hw, Hh).
  assert (Hcell : forall row col,
            (length (contribution raster_2 polygon_geom sx sy row col)
             <= length (contribution raster_1 polygon_geom sx sy row col))%nat).
  { intros row col.
    destruct (contribution_cases raster_2 polygon_geom sx sy row col)
      as [[-> _]|(v & -> & Hc & Hv)]; [cbn; lia|].
    assert (Hp : pixel_center raster_1 sx sy row col
                 = pixel_center raster_2 sx sy row col)
      by (unfold pixel_center; now rewrite He).
    destruct (Hvalid _ _ Hv) as [w Hw1]. rewrite <- Hp in Hw1, Hc.
    destruct (contribution_cases raster_1 polygon_geom sx sy row col)
      as [[_ Hno]|(u & -> & _)]; [|cbn; lia].
    exfalso. apply (Hno Hc). now exists w. }
  assert (Hlen : forall cells : list (Z * Z),
            (length (flat_map (fun rc => contribution raster_2 polygon_geom sx sy
                                           (fst rc) (snd rc)) cells)
             <= length (flat_map (fun rc => contribution raster_1 polygon_geom
                                              sx sy (fst rc) (snd rc)) cells))%nat).
  { induction cells as [|[row col] cells IH]; [cbn; lia|].
    cbn [flat_map fst snd]. rewrite !length_app.
    pose proof (Hcell row col). lia. }
  apply summarize_Some_inv in Hsum as (Hne & Hv2 & Hn2 & Hc2).
  rewrite scan_pixels_spec in *. cbn [valid_values total_pixels] in *.
  set (c2 := flat_map _ (examined rg)) in *.
  specialize (Hlen (examined rg)). fold c2 in Hlen.
  set (c1 := flat_map (fun rc => contribution raster_1 polygon_geom sx sy
                                   (fst rc) (snd rc)) (examined rg)) in *.
  pose proof (len_pos _ Hne) as P2.
  assert (P12 : (len c2 <= len c1)%Z) by (unfold len; lia).
  pose proof (collected_at_most_examined raster_1 polygon_geom sx sy
                                         (examined rg)) as Hle.
  fold c1 in Hle.
  assert (Pt : (0 < len (examined rg))%Z) by (unfold len in *; lia).
  unfold extract_raster_values_in_polygon, extract_try.
  rewrite Hs1; cbn [bind fst snd]. rewrite Hr1; cbn [bind].
  rewrite scan_pixels_spec. fold c1. unfold summarize.
  cbn [valid_values total_pixels].
  replace (len c1 =? 0)%Z with false by (symmetry; apply Z.eqb_neq; lia).
  eexists. split; [reflexivity|]. cbn [pixel_count coverage_pct].
  rewrite Hn2, Hc2. split; [exact P12|].
  replace (len (examined rg) >? 0)%Z with true by (symmetry; apply Z.gtb_lt; lia).
  pose proof (inject_Z_pos _ Pt) as Qt.
  assert (Q12 : inject_Z (len c2) <= inject_Z (len c1))
    by (rewrite <- Zle_Qle; exact P12).
  apply Qmult_le_compat_r; [|discriminate].
  apply Qle_shift_div_l; [exact Qt|].
  unfold Qdiv. rewrite <- Qmult_assoc, (Qmult_comm (/ _)), Qmult_inv_r by lra.
  lra.
Qed.

(** The scenario's grid with a measurement in every cell. *)
Definition uniform_raster : QgsRasterLayer :=
  cell_raster example_extent 10 10 (Fin 65535) (fun _ _ => Fin 5).

Lemma coverage_grows_with_valid_pixels_witness :
  exists r1,
    fst (extract_raster_values_in_polygon uniform_raster example_polygon 0.01)
    = Some r1
    /\ (pixel_count example_result <= pixel_count r1)%Z
    /\ coverage_pct example_result <= coverage_pct r1.
Proof.
  apply (coverage_grows_with_valid_pixels uniform_raster example_raster
           example_polygon 0.01 example_result).
  - reflexivity.
  - reflexivity.
  - reflexivity.
  - intros p v Hv. unfold uniform_raster, example_raster, cell_raster in *.
    cbn [sample] in *. unfold cell_sample in *.
    destruct (Qle_bool (xMinimum example_extent) (x p)
              && Qle_bool (x p) (xMaximum example_extent)
              && Qle_bool (yMinimum example_extent) (y p)
              && Qle_bool (y p) (yMaximum example_extent)).
    + exists (Fin 5). repeat split.
    + destruct Hv as [Hs _]. discriminate.
  - exact example_result_returned.
Defined.

End SamplerMore.

(* ------------------------------------------------------------------ *)
(** * The feature loop of extract_biomass_statistics *)

Module CallerFacts.
Import Py Qgs HarvestBiomassStats SamplerFacts.

(** A message that reports a skipped feature: the warning of line 123 or
    the error of line 163. *)
Definition reports_skip (m : message) : bool :=
  match m with
  | Warning_no_valid_biomass_data _ | Error_processing_feature _ _ => true
  | _ => false
  end.

(** A returned dictionary counts at least one pixel and has a coverage in
    (0, 100]. *)
Lemma returned_result_bounds raster_layer polygon_geom pixel_area_ha r :
  fst (extract_raster_values_in_polygon raster_layer polygon_geom pixel_area_ha)
  = Some r ->
  pixel_count r = len (values r) /\ (1 <= pixel_count r)%Z
  /\ 0 < coverage_pct r /\ coverage_pct r <= 100.
Proof.
  intros H. apply extract_Some_inv in H as (sx & sy & rg & _ & _ & Hsum).
  apply summarize_Some_inv in Hsum as (Hne & Hv & Hn & Hc).
  rewrite scan_pixels_spec in *. cbn [valid_values total_pixels] in *.
  pose proof (len_pos _ Hne) as Hpos.
  pose proof (collected_at_most_examined raster_layer polygon_geom sx sy
                                         (examined rg)) as Hle.
  rewrite Hv, Hn. split; [reflexivity|]. split; [lia|].
  rewrite Hc. set (n := len (flat_map _ _)) in *. set (t := len (examined rg)).
  assert (Hnt : (n <= t)%Z) by (unfold n, t, len; lia).
  assert (Ht : (0 < t)%Z) by lia.
  replace (t >? 0)%Z with true by (symmetry; apply Z.gtb_lt; exact Ht).
  pose proof (inject_Z_pos _ Hpos) as Qn. pose proof (inject_Z_pos _ Ht) as Qt.
  assert (Qnt : inject_Z n <= inject_Z t) by (rewrite <- Zle_Qle; exact Hnt).
  split.
  - apply Qmult_lt_0_compat; [|reflexivity].
    apply Qlt_shift_div_l; [exact Qt|]. lra.
  - assert (Hd : inject_Z n / inject_Z t <= 1)
      by (apply Qle_shift_div_r; [exact Qt|]; lra).
    lra.
Qed.

Lemma sampler_messages_are_not_skips raster_layer polygon_geom pixel_area_ha :
  filter reports_skip
         (snd (extract_raster_values_in_polygon raster_layer polygon_geom
                                                pixel_area_ha)) = [].
Proof.
  unfold extract_raster_values_in_polygon.
  destruct (extract_try raster_layer polygon_geom); reflexivity.
Qed.

Section Loop.
Variable np_median np_std np_min np_max : list pyfloat -> pyfloat.
Variable np_percentile : list pyfloat -> Q -> pyfloat.
Variable transform : option (QgsGeometry -> exc QgsGeometry).
Variable biomass_layer : QgsRasterLayer.
Variable pixel_area_ha : Q.

Let step :=
  process_feature np_median np_std np_min np_max np_percentile transform
                  biomass_layer pixel_area_ha.

(** The dictionary the sampler returns for a feature, if its geometry
    transforms and the sampler returns one. *)
Definition sampled (feature : QgsFeature) : option SampleResult :=
  match transformed transform feature with
  | Raise _ => None
  | Return geom =>
      fst (extract_raster_values_in_polygon biomass_layer geom pixel_area_ha)
  end.

(** The row built from a feature and its dictionary (lines 130-145). *)
Definition row_of (feature : QgsFeature) (stats : SampleResult) : StatRow :=
  {| patch_id := attribute_id feature;
     feature_id := id feature;
     mean_biomass := np_mean (values stats);
     median_biomass := np_median (values stats);
     std_biomass := np_std (values stats);
     min_biomass := np_min (values stats);
     max_biomass := np_max (values stats);
     p25_biomass := np_percentile (values stats) 25;
     p75_biomass := np_percentile (values stats) 75;
     p95_biomass := np_percentile (values stats) 95;
     total_biomass := float_scale (np_sum (values stats)) pixel_area_ha;
     row_pixel_count := len (values stats);
     effective_area_ha := inject_Z (len (values stats)) * pixel_area_ha;
     data_coverage_pct := coverage_pct stats |}.

(** One pass of the loop body: a row and no skip report, or a skip report
    and no row. *)
Lemma process_feature_step (feature_count : Z) (st : run) (i : Z)
      (feature : QgsFeature) :
  let st' := step feature_count st (i, feature) in
  match sampled feature with
  | Some stats =>
      results st' = results st ++ [row_of feature stats]
      /\ filter reports_skip (printed st') = filter reports_skip (printed st)
  | None =>
      results st' = results st
      /\ exists m, reports_skip m = true
                   /\ filter reports_skip (printed st')
                      = filter reports_skip (printed st) ++ [m]
  end.
Proof.
  unfold step, process_feature, sampled, transformed.
  set (progress := if (i mod 50 =? 0)%Z
                   then [Processing_feature (i + 1) feature_count] else []).
  assert (Hp : filter reports_skip progress = [])
    by (unfold progress; destruct (i mod 50 =? 0)%Z; reflexivity).
  destruct (match transform with
            | Some t => t (geometry feature)
            | None => Return (geometry feature)
            end) as [geom|e].
  - pose proof (sampler_messages_are_not_skips biomass_layer geom pixel_area_ha)
      as Ho.
    pose proof (returned_result_bounds biomass_layer geom pixel_area_ha) as Hb.
    destruct (extract_raster_values_in_polygon biomass_layer geom pixel_area_ha)
      as [[stats|] out]; cbn [fst snd] in *.
    + destruct (Hb stats eq_refl) as (_ & Hn & _).
      replace (pixel_count stats =? 0)%Z with false
        by (symmetry; apply Z.eqb_neq; lia).
      cbn [results printed]. split; [reflexivity|].
      rewrite !filter_app, Hp, Ho, !app_nil_r. reflexivity.
    + cbn [results printed]. split; [reflexivity|].
      exists (Warning_no_valid_biomass_data (id feature)).
      split; [reflexivity|].
      rewrite !filter_app, Hp, Ho. reflexivity.
  - cbn [results printed]. split; [reflexivity|].
    exists (Error_processing_feature (id feature) e). split; [reflexivity|].
    rewrite !filter_app, Hp. reflexivity.
Qed.

Lemma loop_rows_and_skips (feature_count : Z) (items : list (Z * QgsFeature))
      (st : run) :
  let st' := fold_left (step feature_count) items st in
  results st'
  = results st
    ++ flat_map (fun item => match sampled (snd item) with
                             | Some stats => [row_of (snd item) stats]
                             | None => []
                             end) items
  /\ (length (results st') + length (filter reports_skip (printed st'))
      = length (results st) + length (filter reports_skip (printed st))
        + length items)%nat.
Proof.
  revert st. induction items as [|[i feature] items IH]; intros st.
  - cbn. rewrite app_nil_r. split; [reflexivity|lia].
  - cbn [fold_left flat_map snd].
    destruct (IH (step feature_count st (i, feature))) as [IH1 IH2].
    pose proof (process_feature_step feature_count st i feature) as Hstep.
    cbv zeta in Hstep, IH1, IH2 |- *.
    destruct (sampled feature) as [stats|].
    + destruct Hstep as [H1 H2]. split.
      * rewrite IH1, H1, <- app_assoc. reflexivity.
      * rewrite IH2, H1, H2, length_app. cbn [length]. lia.
    + destruct Hstep as [H1 (m & _ & H2)]. split.
      * rewrite IH1, H1. reflexivity.
      * rewrite IH2, H1, H2, length_app. cbn [length]. lia.
Qed.

Lemma enumerate_snd {A : Type} (l : list A) : map snd (enumerate l) = l.
Proof.
  unfold enumerate.
  assert (H : forall (ks : list Z) (l : list A),
             length ks = length l -> map snd (combine ks l) = l).
  { induction ks as [|k ks IH]; intros [|a t] E; try discriminate;
      [reflexivity|]. cbn. f_equal. apply IH. now inversion E. }
  apply H. rewrite range_length. unfold len. lia.
Qed.

(** X7. Every feature of the layer ends either as one row of [results]
    or as one printed skip report (the no-data warning or the processing
    error), never both and never neither. *)
Theorem every_feature_is_a_row_or_a_report (features : list QgsFeature) :
  let out := process_features np_median np_std np_min np_max np_percentile
                              transform biomass_layer pixel_area_ha features in
  (length (results out) + length (filter reports_skip (printed out))
   = length features)%nat.
Proof.
  cbv zeta. unfold process_features.
  destruct (loop_rows_and_skips (len features) (enumerate features)
                                {| results := []; printed := [] |}) as [_ H].
  cbv zeta in H. unfold step in H. rewrite H. cbn [results printed filter length].
  rewrite <- (length_map snd (enumerate features)), enumerate_snd. reflexivity.
Qed.

(** X8. The rows of [results] are, in the order of the layer, the rows
    of the features for which the sampler returned a dictionary; a row
    depends on its own feature only, not on its position or on the
    features before it. *)
Theorem rows_follow_the_features (features : list QgsFeature) :
  results (process_features np_median np_std np_min np_max np_percentile
                            transform biomass_layer pixel_area_ha features)
  = flat_map (fun feature => match sampled feature with
                             | Some stats => [row_of feature stats]
                             | None => []
                             end) features.
Proof.
  unfold process_features.
  destruct (loop_rows_and_skips (len features) (enumerate features)
                                {| results := []; printed := [] |}) as [H _].
  cbv zeta in H. unfold step in H. rewrite H. cbn [results app].
  rewrite <- (enumerate_snd features) at 2.
  generalize (enumerate features). intros items.
  induction items as [|item items IH]; [reflexivity|].
  cbn [flat_map map]. now rewrite IH.
Qed.

(** X9. Every row of [results] belongs to a feature of the layer, carries
    its identifiers, counts at least one pixel, and reports a coverage in
    (0, 100] and an effective area of pixel count times pixel area. *)
Theorem rows_are_well_formed (features : list QgsFeature) (row : StatRow) :
  In row (results (process_features np_median np_std np_min np_max np_percentile
                                    transform biomass_layer pixel_area_ha
                                    features)) ->
  exists feature stats,
    In feature features
    /\ sampled feature = Some stats
    /\ feature_id row = id feature
    /\ patch_id row = attribute_id feature
    /\ row_pixel_count row = pixel_count stats
    /\ (1 <= row_pixel_count row)%Z
    /\ data_coverage_pct row = coverage_pct stats
    /\ 0 < data_coverage_pct row /\ data_coverage_pct row <= 100
    /\ effective_area_ha row = inject_Z (row_pixel_count row) * pixel_area_ha
    /\ mean_biomass row = np_mean (values stats).
Proof.
  unfold process_features.
  destruct (loop_rows_and_skips (len features) (enumerate features)
                                {| results := []; printed := [] |}) as [E _].
  cbv zeta in E. unfold step in E. rewrite E. cbn [results app]. intros H.
  apply in_flat_map in H as ([i feature] & Hitem & Hrow). cbn [snd] in Hrow.
  assert (Hin : In feature features).
  { rewrite <- (enumerate_snd features).
    apply in_map_iff. exists (i, feature). split; [reflexivity|exact Hitem]. }
  destruct (sampled feature) as [stats|] eqn:Hs; [|destruct Hrow].
  destruct Hrow as [<-|[]]. exists feature, stats.
  assert (Hb : pixel_count stats = len (values stats)
               /\ (1 <= pixel_count stats)%Z
               /\ 0 < coverage_pct stats /\ coverage_pct stats <= 100).
  { unfold sampled in Hs.
    destruct (transformed transform feature) as [geom|]; [|discriminate].
    exact (returned_result_bounds biomass_layer geom pixel_area_ha stats Hs). }
  destruct Hb as (Hn & H1 & H0 & H100).
  cbn [row_of feature_id patch_id row_pixel_count data_coverage_pct
       effective_area_ha mean_biomass].
  rewrite <- Hn. repeat split; assumption.
Qed.

End Loop.

(** A layer of two patches: one over the whole scenario grid, one beyond
    it. *)
Definition grid_patch : QgsFeature :=
  {| id := 42; attribute_id := Some 1%Z; geometry := example_polygon |}.

Definition far_patch : QgsFeature :=
  {| id := 43; attribute_id := None; geometry := outside_polygon |}.

Lemma rows_are_well_formed_witness :
  exists feature stats,
    In feature [grid_patch; far_patch]
    /\ sampled None example_raster 0.01 feature = Some stats
    /\ feature_id (row_of np_mean np_mean np_mean np_mean
                          (fun values _ => np_mean values) 0.01
                          grid_patch example_result) = id feature
    /\ patch_id (row_of np_mean np_mean np_mean np_mean
                        (fun values _ => np_mean values) 0.01
                        grid_patch example_result) = attribute_id feature
    /\ row_pixel_count (row_of np_mean np_mean np_mean np_mean
                               (fun values _ => np_mean values) 0.01
                               grid_patch example_result) = pixel_count stats
    /\ (1 <= row_pixel_count (row_of np_mean np_mean np_mean np_mean
                                     (fun values _ => np_mean values) 0.01
                                     grid_patch example_result))%Z
    /\ data_coverage_pct (row_of np_mean np_mean np_mean np_mean
                                 (fun values _ => np_mean values) 0.01
                                 grid_patch example_result) = coverage_pct stats
    /\ 0 < data_coverage_pct (row_of np_mean np_mean np_mean np_mean
                                     (fun values _ => np_mean values) 0.01
                                     grid_patch example_result)
    /\ data_coverage_pct (row_of np_mean np_mean np_mean np_mean
                                 (fun values _ => np_mean values) 0.01
                                 grid_patch example_result) <= 100
    /\ effective_area_ha (row_of np_mean np_mean np_mean np_mean
                                 (fun values _ => np_mean values) 0.01
                                 grid_patch example_result)
       = inject_Z (row_pixel_count (row_of np_mean np_mean np_mean np_mean
                                           (fun values _ => np_mean values) 0.01
                                           grid_patch example_result)) * 0.01
    /\ mean_biomass (row_of np_mean np_mean np_mean np_mean
                            (fun values _ => np_mean values) 0.01
                            grid_patch example_result)
       = np_mean (values stats).
Proof.
  apply (rows_are_well_formed np_mean np_mean np_mean np_mean
           (fun values _ => np_mean values) None example_raster 0.01
           [grid_patch; far_patch]).
  vm_compute. left. reflexivity.
Defined.

End CallerFacts.

(* ------------------------------------------------------------------ *)
(** * More on the two extraction paths: what is written, what is raised *)

Module ExtractMore.
Import Py Qgs HarvestProbExtract SamplerFacts.

(** ** The per-pixel path *)

Section PerPixel.
Variable agb_layer harvest_layer harvest_prob_layer : QgsRasterLayer.
Variable sx sy : Q.

(** Centre of the mask's pixel [(row, col)] (lines 75-76). *)
Definition mask_center (row col : Z) : QgsPointXY :=
  {| x := xMinimum (extent harvest_layer) + (inject_Z col + 0.5) * sx;
     y := yMaximum (extent harvest_layer) - (inject_Z row + 0.5) * sy |}.

(** A record the per-pixel path may write for the pixel [(row, col)]. *)
Definition sampled_record (row col : Z) (r : csv_row) : Prop :=
  let p := mask_center row col in
  exists agb_value harvest_prob_value,
    r = Record_ (x p) (y p) agb_value harvest_prob_value
    /\ equals_one (fst (sample harvest_layer p 1)) = true
    /\ fst (sample agb_layer p 1) = PyFloat agb_value
    /\ float_eq agb_value (sourceNoDataValue agb_layer 1) = false
    /\ fst (sample harvest_prob_layer p 1) = PyFloat harvest_prob_value
    /\ float_eq harvest_prob_value (sourceNoDataValue harvest_prob_layer 1)
       = false.

Lemma sample_pixel_appends (row col : Z) (csv_data : list csv_row) :
  exists added,
    sample_pixel agb_layer harvest_layer harvest_prob_layer sx sy row csv_data col
    = csv_data ++ added
    /\ (length added <= 1)%nat
    /\ Forall (sampled_record row col) added.
Proof.
  unfold sample_pixel. fold (mask_center row col).
  destruct (equals_one (fst (sample harvest_layer (mask_center row col) 1)))
    eqn:Hm.
  2:{ exists []. rewrite app_nil_r. repeat split; [cbn; lia|constructor]. }
  destruct (fst (sample agb_layer (mask_center row col) 1)) as [|a] eqn:Ha;
    cbn [not_None_and_ne andb].
  { exists []. rewrite app_nil_r. repeat split; [cbn; lia|constructor]. }
  destruct (fst (sample harvest_prob_layer (mask_center row col) 1))
    as [|q] eqn:Hp; cbn [not_None_and_ne].
  { exists []. rewrite app_nil_r, andb_false_r.
    repeat split; [cbn; lia|constructor]. }
  destruct (float_eq a (sourceNoDataValue agb_layer 1)) eqn:Ea; cbn [negb andb].
  { exists []. rewrite app_nil_r. repeat split; [cbn; lia|constructor]. }
  destruct (float_eq q (sourceNoDataValue harvest_prob_layer 1)) eqn:Eq;
    cbn [negb].
  { exists []. rewrite app_nil_r. repeat split; [cbn; lia|constructor]. }
  eexists. split; [reflexivity|]. split; [cbn; lia|].
  constructor; [|constructor]. cbn [as_float].
  exists a, q. cbv zeta. rewrite Ha, Hp. repeat split; assumption.
Qed.

(** The rows after the loops: what was there, then at most one record per
    visited pixel. *)
Lemma per_pixel_loops (rows cols : list Z) (csv_data : list csv_row) :
  exists added,
    fold_left
      (fun csv_data row =>
         fold_left (sample_pixel agb_layer harvest_layer harvest_prob_layer
                                 sx sy row) cols csv_data)
      rows csv_data
    = csv_data ++ added
    /\ (length added <= length rows * length cols)%nat
    /\ Forall (fun r => exists row col,
                          In row rows /\ In col cols /\ sampled_record row col r)
              added.
Proof.
  assert (Inner : forall row cols csv_data,
            exists added,
              fold_left (sample_pixel agb_layer harvest_layer harvest_prob_layer
                                      sx sy row) cols csv_data
              = csv_data ++ added
              /\ (length added <= length cols)%nat
              /\ Forall (fun r => exists col, In col cols
                                              /\ sampled_record row col r) added).
  { intros row cs. induction cs as [|col cs IH]; intros acc.
    - exists []. rewrite app_nil_r. repeat split; [cbn; lia|constructor].
    - cbn [fold_left].
      destruct (sample_pixel_appends row col acc) as (a1 & -> & L1 & F1).
      destruct (IH (acc ++ a1)) as (a2 & -> & L2 & F2).
      exists (a1 ++ a2). rewrite app_assoc. split; [reflexivity|].
      split; [rewrite length_app; cbn [length]; lia|].
      apply Forall_app. split.
      + eapply Forall_impl; [|exact F1]. intros r Hr. exists col.
        split; [now left|exact Hr].
      + eapply Forall_impl; [|exact F2]. intros r (c & Hc & Hr). exists c.
        split; [now right|exact Hr]. }
  revert csv_data. induction rows as [|row rows IH]; intros acc.
  - exists []. rewrite app_nil_r. repeat split; [cbn; lia|constructor].
  - cbn [fold_left].
    destruct (Inner row cols acc) as (a1 & -> & L1 & F1).
    destruct (IH (acc ++ a1)) as (a2 & -> & L2 & F2).
    exists (a1 ++ a2). rewrite app_assoc. split; [reflexivity|].
    split; [rewrite length_app; cbn [length]; lia|].
    apply Forall_app. split.
    + eapply Forall_impl; [|exact F1]. intros r (c & Hc & Hr). exists row, c.
      repeat split; [now left|exact Hc|exact Hr].
    + eapply Forall_impl; [|exact F2]. intros r (r0 & c & Hr0 & Hc & Hr).
      exists r0, c. repeat split; [now right|exact Hc|exact Hr].
Qed.

End PerPixel.

Lemma mask_sizes_inv (harvest_layer : QgsRasterLayer) :
  (exists sx sy,
     truediv (rect_width (extent harvest_layer)) (inject_Z (width harvest_layer))
     = Return sx
     /\ truediv (rect_height (extent harvest_layer))
                (inject_Z (height harvest_layer)) = Return sy
     /\ width harvest_layer <> 0%Z /\ height harvest_layer <> 0%Z)
  \/ ((width harvest_layer = 0%Z \/ height harvest_layer = 0%Z)
      /\ (truediv (rect_width (extent harvest_layer))
                  (inject_Z (width harvest_layer)) = Raise ZeroDivisionError
          \/ exists sx,
               truediv (rect_width (extent harvest_layer))
                       (inject_Z (width harvest_layer)) = Return sx
               /\ truediv (rect_height (extent harvest_layer))
                          (inject_Z (height harvest_layer))
                  = Raise ZeroDivisionError)).
Proof.
  unfold truediv.
  destruct (Qeq_bool (inject_Z (width harvest_layer)) 0) eqn:Ew.
  { right. apply Qeq_bool_eq in Ew. unfold Qeq in Ew; cbn in Ew.
    split; [left; lia|left; reflexivity]. }
  destruct (Qeq_bool (inject_Z (height harvest_layer)) 0) eqn:Eh.
  { right. apply Qeq_bool_eq in Eh. unfold Qeq in Eh; cbn in Eh.
    split; [right; lia|right; eexists; split; reflexivity]. }
  left. eexists; eexists. split; [reflexivity|]. split; [reflexivity|].
  apply Qeq_bool_neq in Ew, Eh. unfold Qeq in Ew, Eh; cbn in Ew, Eh.
  split; lia.
Qed.

(** X10. What the per-pixel path hands to the CSV writer is the header
    followed by at most one record per pixel of the mask; every record is
    the centre of a mask pixel whose sampled mask value is 1, with the
    sampled biomass and probability, neither of them [None] or equal to
    its layer's no-data value. *)
Theorem per_pixel_rows agb_layer harvest_layer harvest_prob_layer rows :
  extract_raster_values_to_csv agb_layer harvest_layer harvest_prob_layer
  = Return rows ->
  exists sx sy data,
    truediv (rect_width (extent harvest_layer)) (inject_Z (width harvest_layer))
    = Return sx
    /\ truediv (rect_height (extent harvest_layer))
               (inject_Z (height harvest_layer)) = Return sy
    /\ rows = Header :: data
    /\ (len data
        <= Z.max 0 (height harvest_layer) * Z.max 0 (width harvest_layer))%Z
    /\ Forall (fun r =>
                 exists row col,
                   (0 <= row < height harvest_layer)%Z
                   /\ (0 <= col < width harvest_layer)%Z
                   /\ sampled_record agb_layer harvest_layer harvest_prob_layer
                                     sx sy row col r)
              data.
Proof.
  unfold extract_raster_values_to_csv.
  destruct (truediv _ (inject_Z (width harvest_layer))) as [sx|] eqn:Hx;
    cbn [bind]; [|discriminate].
  destruct (truediv _ (inject_Z (height harvest_layer))) as [sy|] eqn:Hy;
    cbn [bind]; [|discriminate].
  intros H; inversion H; subst; clear H.
  destruct (per_pixel_loops agb_layer harvest_layer harvest_prob_layer sx sy
              (range 0 (height harvest_layer)) (range 0 (width harvest_layer))
              [Header]) as (data & -> & L & F).
  exists sx, sy, data. repeat split.
  - rewrite !range_length in L. unfold len.
    assert (E : Z.of_nat (Z.to_nat (height harvest_layer - 0)
                          * Z.to_nat (width harvest_layer - 0))
                = (Z.max 0 (height harvest_layer)
                   * Z.max 0 (width harvest_layer))%Z)
      by (rewrite Nat2Z.inj_mul; f_equal; lia).
    rewrite <- E. apply Nat2Z.inj_le. exact L.
  - eapply Forall_impl; [|exact F]. intros r (row & col & Hr & Hc & Hrec).
    apply range_In in Hr, Hc. exists row, col. repeat split; try lia. exact Hrec.
Qed.

(** ** The numpy path *)

Section Numpy.
Variable agb_layer harvest_layer harvest_prob_layer : QgsRasterLayer.
Variable sx sy : Q.

(** The index [(row, col)] exists in the layer's array. *)
Definition inside_array (layer : QgsRasterLayer) (row col : Z) : bool :=
  ((row <? height layer) && (col <? width layer))%Z.

(** A record the numpy path may write for the index [(row, col)]. *)
Definition array_record (row col : Z) (r : csv_row) : Prop :=
  let p := mask_center harvest_layer sx sy row col in
  r = Record_ (x p) (y p) (block agb_layer 1 row col)
              (block harvest_prob_layer 1 row col)
  /\ isnan (block agb_layer 1 row col) = false
  /\ isnan (block harvest_prob_layer 1 row col) = false.

Let body :=
  mask_pixel harvest_layer (ExtractFacts.band_array agb_layer) (ExtractFacts.band_array harvest_prob_layer)
             sx sy.

Lemma raised_stays_raised (cells : list (Z * Z)) (e : exception) :
  fold_left body cells (Raise e) = Raise e.
Proof. induction cells as [|c cells IH]; [reflexivity|exact IH]. Qed.

Lemma mask_pixel_inside (row col : Z) (csv_data : list csv_row) :
  inside_array agb_layer row col && inside_array harvest_prob_layer row col
  = true ->
  exists added,
    body (Return csv_data) (row, col) = Return (csv_data ++ added)
    /\ (length added <= 1)%nat
    /\ Forall (array_record row col) added.
Proof.
  intros H. apply andb_true_iff in H as [Ha Hp].
  unfold body, mask_pixel, getitem, ExtractFacts.band_array. cbn [bind nrows ncols item].
  unfold inside_array in Ha, Hp. rewrite Ha, Hp. cbn [bind].
  destruct (isnan (block agb_layer 1 row col)) eqn:Na; cbn [orb negb].
  { exists []. rewrite app_nil_r. repeat split; [cbn; lia|constructor]. }
  destruct (isnan (block harvest_prob_layer 1 row col)) eqn:Np; cbn [negb].
  { exists []. rewrite app_nil_r. repeat split; [cbn; lia|constructor]. }
  eexists. split; [reflexivity|]. split; [cbn; lia|].
  constructor; [|constructor]. repeat split; assumption.
Qed.

Lemma mask_pixel_outside (row col : Z) (csv_data : list csv_row) :
  inside_array agb_layer row col && inside_array harvest_prob_layer row col
  = false ->
  body (Return csv_data) (row, col) = Raise IndexError.
Proof.
  intros H. unfold body, mask_pixel, getitem, ExtractFacts.band_array.
  cbn [bind nrows ncols item]. unfold inside_array in H.
  destruct ((row <? height agb_layer) && (col <? width agb_layer))%Z;
    cbn [bind]; [|reflexivity].
  cbn [andb] in H. rewrite H. reflexivity.
Qed.

(** The loop over the masked indices: it returns when every index exists
    in both arrays and raises [IndexError] otherwise. *)
Lemma numpy_loop (cells : list (Z * Z)) (csv_data : list csv_row) :
  (forallb (fun rc => inside_array agb_layer (fst rc) (snd rc)
                      && inside_array harvest_prob_layer (fst rc) (snd rc))
           cells = true
   /\ exists added,
        fold_left body cells (Return csv_data) = Return (csv_data ++ added)
        /\ (length added <= length cells)%nat
        /\ Forall (fun r => exists row col, In (row, col) cells
                                            /\ array_record row col r) added)
  \/ (forallb (fun rc => inside_array agb_layer (fst rc) (snd rc)
                         && inside_array harvest_prob_layer (fst rc) (snd rc))
              cells = false
      /\ fold_left body cells (Return csv_data) = Raise IndexError).
Proof.
  revert csv_data. induction cells as [|[row col] cells IH]; intros acc.
  - left. split; [reflexivity|]. exists []. rewrite app_nil_r.
    repeat split; [cbn; lia|constructor].
  - cbn [forallb fold_left fst snd].
    destruct (inside_array agb_layer row col
              && inside_array harvest_prob_layer row col) eqn:Hin.
    + destruct (mask_pixel_inside row col acc Hin) as (a1 & -> & L1 & F1).
      destruct (IH (acc ++ a1)) as [(Hall & a2 & -> & L2 & F2)|(Hall & ->)].
      * left. split; [exact Hall|]. exists (a1 ++ a2). rewrite app_assoc.
        split; [reflexivity|].
        split; [rewrite length_app; cbn [length]; lia|].
        apply Forall_app. split.
        -- eapply Forall_impl; [|exact F1]. intros r Hr. exists row, col.
           split; [now left|exact Hr].
        -- eapply Forall_impl; [|exact F2]. intros r (r0 & c & Hc & Hr).
           exists r0, c. split; [now right|exact Hr].
      * right. split; [exact Hall|reflexivity].
    + right. split; [reflexivity|].
      rewrite (mask_pixel_outside row col acc Hin). apply raised_stays_raised.
Qed.

End Numpy.

Lemma where_equals_one_In (layer : QgsRasterLayer) (row col : Z) :
  In (row, col) (where_equals_one (ExtractFacts.band_array layer)) <->
  (0 <= row < height layer)%Z /\ (0 <= col < width layer)%Z
  /\ float_eq (block layer 1 row col) (Fin 1) = true.
Proof.
  unfold where_equals_one, ExtractFacts.band_array. cbn [nrows ncols item].
  rewrite in_flat_map. split.
  - intros (r & Hr & Hin). apply in_flat_map in Hin as (c & Hc & Hin).
    apply range_In in Hr, Hc.
    destruct (float_eq (block layer 1 r c) (Fin 1)) eqn:E; [|destruct Hin].
    destruct Hin as [Heq|[]]. inversion Heq; subst. repeat split; try lia.
    exact E.
  - intros (Hr & Hc & E). exists row. split; [apply range_In; lia|].
    apply in_flat_map. exists col. split; [apply range_In; lia|].
    rewrite E. now left.
Qed.

(** The rows written for the three 1 x 1 rasters with a measured biomass. *)
Definition measured_rows : list csv_row :=
  Eval vm_compute in
    match extract_raster_values_to_csv ExtractFacts.agb_measured_1x1 harvest_1x1
                                       harvest_prob_1x1 with
    | Return rows => rows
    | Raise _ => []
    end.

Lemma per_pixel_rows_witness :
  exists sx sy data,
    truediv (rect_width (extent harvest_1x1)) (inject_Z (width harvest_1x1))
    = Return sx
    /\ truediv (rect_height (extent harvest_1x1)) (inject_Z (height harvest_1x1))
       = Return sy
    /\ measured_rows = Header :: data
    /\ (len data <= Z.max 0 (height harvest_1x1) * Z.max 0 (width harvest_1x1))%Z
    /\ Forall (fun r =>
                 exists row col,
                   (0 <= row < height harvest_1x1)%Z
                   /\ (0 <= col < width harvest_1x1)%Z
                   /\ sampled_record ExtractFacts.agb_measured_1x1 harvest_1x1
                                     harvest_prob_1x1 sx sy row col r)
              data.
Proof.
  apply (per_pixel_rows ExtractFacts.agb_measured_1x1 harvest_1x1
                        harvest_prob_1x1 measured_rows).
  vm_compute. reflexivity.
Defined.

(** X11. What the numpy path hands to the CSV writer is the header
    followed by at most one record per pixel of the mask; every record is
    the centre of a pixel whose mask cell is 1, with the biomass and
    probability cells of the same index, neither of them NaN. *)
Theorem numpy_rows agb_layer harvest_layer harvest_prob_layer rows :
  extract_raster_values_to_csv_numpy agb_layer harvest_layer harvest_prob_layer
  = Return rows ->
  exists sx sy data,
    truediv (rect_width (extent harvest_layer)) (inject_Z (width harvest_layer))
    = Return sx
    /\ truediv (rect_height (extent harvest_layer))
               (inject_Z (height harvest_layer)) = Return sy
    /\ rows = Header :: data
    /\ (len data
        <= Z.max 0 (height harvest_layer) * Z.max 0 (width harvest_layer))%Z
    /\ Forall (fun r =>
                 exists row col,
                   (0 <= row < height harvest_layer)%Z
                   /\ (0 <= col < width harvest_layer)%Z
                   /\ float_eq (block harvest_layer 1 row col) (Fin 1) = true
                   /\ array_record agb_layer harvest_layer harvest_prob_layer
                                   sx sy row col r)
              data.
Proof.
  unfold extract_raster_values_to_csv_numpy.
  destruct (ExtractFacts.read_band_cases harvest_layer) as [[_ ->]|[_ ->]];
    cbn [bind]; [|discriminate].
  destruct (ExtractFacts.read_band_cases agb_layer) as [[_ ->]|[_ ->]];
    cbn [bind]; [|discriminate].
  destruct (ExtractFacts.read_band_cases harvest_prob_layer) as [[_ ->]|[_ ->]];
    cbn [bind]; [|discriminate].
  destruct (truediv _ (inject_Z (width harvest_layer))) as [sx|] eqn:Hx;
    cbn [bind]; [|discriminate].
  destruct (truediv _ (inject_Z (height harvest_layer))) as [sy|] eqn:Hy;
    cbn [bind]; [|discriminate].
  destruct (numpy_loop agb_layer harvest_layer harvest_prob_layer sx sy
              (where_equals_one (ExtractFacts.band_array harvest_layer)) [Header])
    as [(_ & data & -> & L & F)|(_ & ->)]; [|discriminate].
  intros H; inversion H; subst; clear H.
  exists sx, sy, data. repeat split.
  - assert (W : (length (where_equals_one (ExtractFacts.band_array harvest_layer))
                 <= Z.to_nat (height harvest_layer - 0)
                    * Z.to_nat (width harvest_layer - 0))%nat).
    { unfold where_equals_one, ExtractFacts.band_array. cbn [nrows ncols item].
      rewrite <- !range_length.
      generalize (range 0 (width harvest_layer)). intros cols.
      induction (range 0 (height harvest_layer)) as [|r rs IH]; [cbn; lia|].
      cbn [flat_map length]. rewrite length_app.
      assert (C : (length (flat_map
                             (fun col =>
                                if float_eq (block harvest_layer 1 r col) (Fin 1)
                                then [(r, col)] else []) cols)
                   <= length cols)%nat).
      { clear. induction cols as [|c cs IHc]; [cbn; lia|].
        cbn [flat_map length]. rewrite length_app.
        destruct (float_eq _ _); cbn [length]; lia. }
      lia. }
    assert (E : Z.of_nat (Z.to_nat (height harvest_layer - 0)
                          * Z.to_nat (width harvest_layer - 0))
                = (Z.max 0 (height harvest_layer)
                   * Z.max 0 (width harvest_layer))%Z)
      by (rewrite Nat2Z.inj_mul; f_equal; lia).
    unfold len. rewrite <- E. apply Nat2Z.inj_le. lia.
  - eapply Forall_impl; [|exact F]. intros r (row & col & Hin & Hrec).
    apply where_equals_one_In in Hin as (Hr & Hc & Hm).
    exists row, col. repeat split; try lia; try exact Hm; apply Hrec.
Qed.

Definition measured_rows_numpy : list csv_row :=
  Eval vm_compute in
    match extract_raster_values_to_csv_numpy ExtractFacts.agb_measured_1x1
                                             harvest_1x1 harvest_prob_1x1 with
    | Return rows => rows
    | Raise _ => []
    end.

Lemma numpy_rows_witness :
  exists sx sy data,
    truediv (rect_width (extent harvest_1x1)) (inject_Z (width harvest_1x1))
    = Return sx
    /\ truediv (rect_height (extent harvest_1x1)) (inject_Z (height harvest_1x1))
       = Return sy
    /\ measured_rows_numpy = Header :: data
    /\ (len data <= Z.max 0 (height harvest_1x1) * Z.max 0 (width harvest_1x1))%Z
    /\ Forall (fun r =>
                 exists row col,
                   (0 <= row < height harvest_1x1)%Z
                   /\ (0 <= col < width harvest_1x1)%Z
                   /\ float_eq (block harvest_1x1 1 row col) (Fin 1) = true
                   /\ array_record ExtractFacts.agb_measured_1x1 harvest_1x1
                                   harvest_prob_1x1 sx sy row col r)
              data.
Proof.
  apply (numpy_rows ExtractFacts.agb_measured_1x1 harvest_1x1 harvest_prob_1x1
                    measured_rows_numpy).
  vm_compute. reflexivity.
Defined.

(** ** When the two paths write the same rows *)

(** X22. Take three layers whose bands can be read as float32 arrays
    (four bytes a pixel, or no pixels).  When sampling any of them at the
    centre of a mask pixel reads that layer's array at the pixel's index,
    and on the pixels whose mask is 1 a value differs from the no-data
    values exactly when it is not NaN, the numpy path returns what the
    per-pixel path returns: the same rows in the same order, or the same
    exception. *)
Theorem aligned_paths_write_the_same agb_layer harvest_layer harvest_prob_layer :
  ExtractFacts.readable harvest_layer ->
  ExtractFacts.readable agb_layer ->
  ExtractFacts.readable harvest_prob_layer ->
  ExtractFacts.aligned harvest_layer harvest_layer ->
  ExtractFacts.aligned harvest_layer agb_layer ->
  ExtractFacts.aligned harvest_layer harvest_prob_layer ->
  ExtractFacts.filters_agree agb_layer harvest_layer harvest_prob_layer ->
  extract_raster_values_to_csv_numpy agb_layer harvest_layer harvest_prob_layer
  = extract_raster_values_to_csv agb_layer harvest_layer harvest_prob_layer.
Proof.
  intros Rh Ra Rp Hh Ha Hp Hf.
  unfold extract_raster_values_to_csv_numpy, extract_raster_values_to_csv.
  rewrite (ExtractFacts.read_band_readable harvest_layer Rh),
    (ExtractFacts.read_band_readable agb_layer Ra),
    (ExtractFacts.read_band_readable harvest_prob_layer Rp).
  cbn [bind].
  destruct (truediv _ (inject_Z (width harvest_layer))) as [sx|e] eqn:Hx;
    [|reflexivity].
  cbn [bind].
  destruct (truediv _ (inject_Z (height harvest_layer))) as [sy|e] eqn:Hy;
    [|reflexivity].
  cbn [bind]. unfold where_equals_one.
  cbn [ExtractFacts.band_array nrows ncols item].
  apply (ExtractFacts.rows_agreement agb_layer harvest_layer harvest_prob_layer
           Hh Ha Hp Hf sx sy).
  - split; assumption.
  - intros row Hr. apply range_In in Hr. lia.
Qed.

(** Three rasters of two rows and two columns over the same 20 m square:
    the mask is 1 on the diagonal, the biomass is NaN in a cell off the
    diagonal, and no cell holds a declared no-data value. *)
Definition four_cells : QgsRectangle :=
  {| xMinimum := 0; yMinimum := 0; xMaximum := 20; yMaximum := 20 |}.

Definition harvest_2x2 : QgsRasterLayer :=
  cell_raster four_cells 2 2 (Fin 255)
              (fun row col => if (row =? col)%Z then Fin 1 else Fin 0).
Definition agb_2x2 : QgsRasterLayer :=
  cell_raster four_cells 2 2 (Fin 65535)
              (fun row col => if ((row =? 0) && (col =? 1))%Z then NaN
                              else Fin (inject_Z (100 + 10 * row + col))).
Definition harvest_prob_2x2 : QgsRasterLayer :=
  cell_raster four_cells 2 2 (Fin 255) (fun _ _ => Fin 0.5).

Lemma four_cells_aligned (nodata : pyfloat) (cells : Z -> Z -> pyfloat) :
  ExtractFacts.aligned harvest_2x2 (cell_raster four_cells 2 2 nodata cells).
Proof.
  split; [simpl; lia|]. split; [simpl; lia|].
  intros sx sy row col [Hx Hy] [Hr Hc]. simpl in Hr, Hc.
  vm_compute in Hx, Hy. inversion Hx; inversion Hy; subst.
  assert (Er : row = 0%Z \/ row = 1%Z) by lia.
  assert (Ec : col = 0%Z \/ col = 1%Z) by lia.
  destruct Er as [-> | ->], Ec as [-> | ->]; reflexivity.
Qed.

Lemma aligned_paths_write_the_same_witness :
  extract_raster_values_to_csv_numpy agb_2x2 harvest_2x2 harvest_prob_2x2
  = extract_raster_values_to_csv agb_2x2 harvest_2x2 harvest_prob_2x2.
Proof.
  apply (aligned_paths_write_the_same agb_2x2 harvest_2x2 harvest_prob_2x2).
  - apply ExtractFacts.cell_raster_readable.
  - apply ExtractFacts.cell_raster_readable.
  - apply ExtractFacts.cell_raster_readable.
  - apply four_cells_aligned.
  - apply four_cells_aligned.
  - apply four_cells_aligned.
  - intros row col [Hr Hc] Hm. simpl in Hr, Hc.
    assert (Er : row = 0%Z \/ row = 1%Z) by lia.
    assert (Ec : col = 0%Z \/ col = 1%Z) by lia.
    destruct Er as [-> | ->], Ec as [-> | ->];
      first [reflexivity | vm_compute in Hm; discriminate].
Defined.

(** ** What the two paths raise *)

(** The three reads of lines 149-151: all three arrays, or the
    [ValueError] of the first band that cannot be read. *)
Definition all_readable (agb_layer harvest_layer harvest_prob_layer
                         : QgsRasterLayer) : Prop :=
  ExtractFacts.readable harvest_layer /\ ExtractFacts.readable agb_layer
  /\ ExtractFacts.readable harvest_prob_layer.

Lemma numpy_reads agb_layer harvest_layer harvest_prob_layer :
  (all_readable agb_layer harvest_layer harvest_prob_layer
   /\ extract_raster_values_to_csv_numpy agb_layer harvest_layer
                                         harvest_prob_layer
      = (pixel_size_x <- truediv (rect_width (extent harvest_layer))
                                 (inject_Z (width harvest_layer)) ;;
         pixel_size_y <- truediv (rect_height (extent harvest_layer))
                                 (inject_Z (height harvest_layer)) ;;
         fold_left
           (mask_pixel harvest_layer (ExtractFacts.band_array agb_layer)
                       (ExtractFacts.band_array harvest_prob_layer)
                       pixel_size_x pixel_size_y)
           (where_equals_one (ExtractFacts.band_array harvest_layer))
           (Return [Header])))
  \/ (~ all_readable agb_layer harvest_layer harvest_prob_layer
      /\ extract_raster_values_to_csv_numpy agb_layer harvest_layer
                                            harvest_prob_layer
         = Raise ValueError).
Proof.
  unfold extract_raster_values_to_csv_numpy, all_readable.
  destruct (ExtractFacts.read_band_cases harvest_layer) as [[Rh ->]|[Rh ->]];
    cbn [bind]; [|right; split; [tauto|reflexivity]].
  destruct (ExtractFacts.read_band_cases agb_layer) as [[Ra ->]|[Ra ->]];
    cbn [bind]; [|right; split; [tauto|reflexivity]].
  destruct (ExtractFacts.read_band_cases harvest_prob_layer)
    as [[Rp ->]|[Rp ->]];
    cbn [bind]; [|right; split; [tauto|reflexivity]].
  left. split; [tauto|reflexivity].
Qed.

(** X12. Neither function catches what it raises.  The per-pixel path
    raises exactly when the mask layer has no columns or no rows, and
    then [ZeroDivisionError].  The numpy path first reads the three bands
    as float32 arrays: it raises [ValueError] exactly when one of them
    has pixels that are not four bytes wide, whatever the mask's size,
    and [ZeroDivisionError] exactly when the three bands can be read and
    the mask has no columns or no rows. *)
Theorem empty_mask_raises agb_layer harvest_layer harvest_prob_layer :
  (forall e,
     extract_raster_values_to_csv agb_layer harvest_layer harvest_prob_layer
     = Raise e
     <-> e = ZeroDivisionError
         /\ (width harvest_layer = 0%Z \/ height harvest_layer = 0%Z))
  /\ (extract_raster_values_to_csv_numpy agb_layer harvest_layer
                                         harvest_prob_layer
      = Raise ValueError
      <-> ~ all_readable agb_layer harvest_layer harvest_prob_layer)
  /\ (extract_raster_values_to_csv_numpy agb_layer harvest_layer
                                         harvest_prob_layer
      = Raise ZeroDivisionError
      <-> all_readable agb_layer harvest_layer harvest_prob_layer
          /\ (width harvest_layer = 0%Z \/ height harvest_layer = 0%Z)).
Proof.
  split.
  { unfold extract_raster_values_to_csv.
    destruct (mask_sizes_inv harvest_layer)
      as [(sx & sy & -> & -> & Hw & Hh)|[Hz [->|(sx & -> & ->)]]]; cbn [bind].
    - intros e. split; [discriminate|]. intros [_ [H|H]]; contradiction.
    - intros e. split; [intros H; inversion H; auto|intros [-> _]; reflexivity].
    - intros e. split; [intros H; inversion H; auto|intros [-> _]; reflexivity]. }
  destruct (numpy_reads agb_layer harvest_layer harvest_prob_layer)
    as [[R ->]|[R ->]].
  2:{ split; [tauto|]. split; [discriminate|tauto]. }
  destruct (mask_sizes_inv harvest_layer)
    as [(sx & sy & -> & -> & Hw & Hh)|[Hz [->|(sx & -> & ->)]]]; cbn [bind].
  - destruct (numpy_loop agb_layer harvest_layer harvest_prob_layer sx sy
                (where_equals_one (ExtractFacts.band_array harvest_layer))
                [Header])
      as [(_ & data & -> & _)|(_ & ->)].
    + split; [split; [discriminate|tauto]|].
      split; [discriminate|]. intros [_ [H|H]]; contradiction.
    + split; [split; [discriminate|tauto]|].
      split; [discriminate|]. intros [_ [H|H]]; contradiction.
  - split; [split; [discriminate|tauto]|]. split; auto.
  - split; [split; [discriminate|tauto]|]. split; auto.
Qed.

(** The measured biomass raster stored as 16-bit integers: two bytes a
    pixel.  The per-pixel path writes its row; the numpy path stops at
    line 150. *)
Definition agb_uint16_1x1 : QgsRasterLayer :=
  {| extent := extent ExtractFacts.agb_measured_1x1;
     width := width ExtractFacts.agb_measured_1x1;
     height := height ExtractFacts.agb_measured_1x1;
     sample := sample ExtractFacts.agb_measured_1x1;
     sourceNoDataValue := sourceNoDataValue ExtractFacts.agb_measured_1x1;
     dataTypeSize := fun _ => 2%Z;
     block := block ExtractFacts.agb_measured_1x1 |}.

Lemma two_byte_band_stops_numpy_path :
  extract_raster_values_to_csv_numpy agb_uint16_1x1 harvest_1x1 harvest_prob_1x1
  = Raise ValueError
  /\ extract_raster_values_to_csv agb_uint16_1x1 harvest_1x1 harvest_prob_1x1
     = Return measured_rows.
Proof. split; vm_compute; reflexivity. Qed.

(** X13. The numpy path raises [IndexError], which nothing catches,
    exactly when the three bands can be read as float32 arrays, the mask
    has columns and rows, and one of its cells equal to 1 has an index
    that the biomass or the probability array lacks. *)
Theorem numpy_index_error agb_layer harvest_layer harvest_prob_layer :
  extract_raster_values_to_csv_numpy agb_layer harvest_layer harvest_prob_layer
  = Raise IndexError
  <-> all_readable agb_layer harvest_layer harvest_prob_layer
      /\ width harvest_layer <> 0%Z /\ height harvest_layer <> 0%Z
      /\ exists row col,
           (0 <= row < height harvest_layer)%Z
           /\ (0 <= col < width harvest_layer)%Z
           /\ float_eq (block harvest_layer 1 row col) (Fin 1) = true
           /\ inside_array agb_layer row col
              && inside_array harvest_prob_layer row col = false.
Proof.
  destruct (numpy_reads agb_layer harvest_layer harvest_prob_layer)
    as [[R ->]|[R ->]].
  2:{ split; [discriminate|tauto]. }
  destruct (mask_sizes_inv harvest_layer)
    as [(sx & sy & -> & -> & Hw & Hh)|[Hz [->|(sx & -> & ->)]]]; cbn [bind].
  2,3: split; [discriminate|intros (_ & Hw & Hh & _); destruct Hz; contradiction].
  destruct (numpy_loop agb_layer harvest_layer harvest_prob_layer sx sy
              (where_equals_one (ExtractFacts.band_array harvest_layer)) [Header])
    as [(Hall & data & -> & _)|(Hall & ->)].
  - split; [discriminate|].
    intros (_ & _ & _ & row & col & Hr & Hc & Hm & Hout).
    exfalso. rewrite forallb_forall in Hall.
    specialize (Hall (row, col)). cbn [fst snd] in Hall.
    rewrite Hall in Hout; [discriminate|].
    apply where_equals_one_In. repeat split; try lia. exact Hm.
  - split; [|reflexivity]. intros _. split; [exact R|].
    split; [exact Hw|]. split; [exact Hh|].
    assert (Hex : exists rc,
               In rc (where_equals_one (ExtractFacts.band_array harvest_layer))
               /\ inside_array agb_layer (fst rc) (snd rc)
                  && inside_array harvest_prob_layer (fst rc) (snd rc)
                  = false).
    { clear -Hall.
      induction (where_equals_one (ExtractFacts.band_array harvest_layer))
        as [|c cells IH]; [discriminate|].
      cbn [forallb] in Hall. apply andb_false_iff in Hall as [H|H].
      - exists c. split; [now left|exact H].
      - destruct (IH H) as (rc & Hin & Hrc). exists rc. split; [now right|exact Hrc]. }
    destruct Hex as ([row col] & Hin & Hout).
    apply where_equals_one_In in Hin as (Hr & Hc & Hm).
    exists row, col. repeat split; try lia; assumption.
Qed.

End ExtractMore.

(* ------------------------------------------------------------------ *)
(** * More on the shape metrics: rows, rounding, elongation *)

Module ShapeMore.
Import Py ShapeMetrics ShapeFacts.
Local Open Scope R_scope.

(** ** [round] *)

Lemma round_half_even_near (v : R) :
  - (1 / 2) <= IZR (round_half_even v) - v <= 1 / 2.
Proof.
  unfold round_half_even. pose proof (Zfloor_bound v) as [Hl Hu].
  destruct (Rlt_dec (v - IZR (Zfloor v)) (1 / 2)) as [H|H].
  - lra.
  - destruct (Rlt_dec (1 / 2) (v - IZR (Zfloor v))) as [H'|H'];
      [|destruct (Z.even (Zfloor v))];
      try rewrite plus_IZR; lra.
Qed.

Lemma round_half_even_monotone (u v : R) :
  u <= v -> (round_half_even u <= round_half_even v)%Z.
Proof.
  intros Huv. pose proof (Zfloor_le u v Huv) as Hf.
  pose proof (Zfloor_bound u) as [Hul Huu].
  pose proof (Zfloor_bound v) as [Hvl Hvu].
  assert (Lu : (Zfloor u <= round_half_even u <= Zfloor u + 1)%Z).
  { unfold round_half_even.
    destruct (Rlt_dec _ _); [lia|]. destruct (Rlt_dec _ _); [lia|].
    destruct (Z.even _); lia. }
  assert (Lv : (Zfloor v <= round_half_even v <= Zfloor v + 1)%Z).
  { unfold round_half_even.
    destruct (Rlt_dec _ _); [lia|]. destruct (Rlt_dec _ _); [lia|].
    destruct (Z.even _); lia. }
  destruct (Z.eq_dec (Zfloor u) (Zfloor v)) as [E|E]; [|lia].
  unfold round_half_even. rewrite <- E.
  destruct (Rlt_dec (u - IZR (Zfloor u)) (1 / 2)) as [A|A];
    destruct (Rlt_dec (v - IZR (Zfloor u)) (1 / 2)) as [B|B];
    try destruct (Rlt_dec (1 / 2) (u - IZR (Zfloor u))) as [A'|A'];
    try destruct (Rlt_dec (1 / 2) (v - IZR (Zfloor u))) as [B'|B'];
    try destruct (Z.even (Zfloor u)); try lia; exfalso; lra.
Qed.

Lemma pow10_pos (n : nat) : 0 < 10 ^ n.
Proof. apply pow_lt. lra. Qed.

(** Rounding to [n] decimals moves a number by at most half a unit of the
    last decimal. *)
Lemma round_near (v : R) (n : nat) : Rabs (round v n - v) <= / (2 * 10 ^ n).
Proof.
  pose proof (pow10_pos n) as Hp. unfold round.
  pose proof (round_half_even_near (v * 10 ^ n)) as H.
  apply Rabs_le.
  assert (E : forall z, z / 10 ^ n - v = (z - v * 10 ^ n) / 10 ^ n)
    by (intros z; field; lra).
  rewrite E.
  assert (I : / (2 * 10 ^ n) = (1 / 2) / 10 ^ n) by (field; lra).
  rewrite I. unfold Rdiv at 1 3 4.
  pose proof (Rinv_0_lt_compat _ Hp) as Hi.
  split; [|apply Rmult_le_compat_r; lra].
  replace (- (1 / 2 * / 10 ^ n)) with ((- (1 / 2)) * / 10 ^ n) by ring.
  apply Rmult_le_compat_r; lra.
Qed.

Lemma round_monotone (u v : R) (n : nat) : u <= v -> round u n <= round v n.
Proof.
  intros H. pose proof (pow10_pos n) as Hp. unfold round, Rdiv.
  apply Rmult_le_compat_r; [apply Rlt_le, Rinv_0_lt_compat, Hp|].
  apply IZR_le, round_half_even_monotone. apply Rmult_le_compat_r; lra.
Qed.

(** ** The row of a polygon, in closed form *)

(** The row the formulas of lines 83-134 give, each field rounded as the
    function rounds it. *)
Definition formula_row (feature : QgsFeature) (geom : QgsGeometry) : MetricsRow :=
  let a := area geom in
  let p := length geom in
  {| feature_id := id feature;
     area_ha := round (a / 10000) 4;
     perimeter_m := round p 2;
     length_m := round (Rmax (bbox_width geom) (bbox_height geom)) 2;
     width_m := round (Rmin (bbox_width geom) (bbox_height geom)) 2;
     equivalent_diameter_m := round (2 * sqrt (a / PI)) 2;
     shape_index := round (p / (2 * sqrt (PI * a))) 4;
     perimeter_area_ratio := round (p / a) 6;
     compactness_index := round (4 * PI * a / p ^ 2) 4;
     fractal_dimension_index :=
       round (if Rlt_dec 0 p then 2 * ln (p / 4) / ln a else 0) 4;
     elongation_ratio := round (fst (calculate_elongation_and_orientation geom)) 4;
     orientation_degrees :=
       round (snd (calculate_elongation_and_orientation geom)) 2;
     edge_density := round (p / a) 6 |}.

Lemma large_polygon_row (feature : QgsFeature) (geom : QgsGeometry) :
  1000 <= area geom -> length geom <> 0 ->
  calculate_feature_metrics feature geom = (Some (formula_row feature geom), []).
Proof.
  intros Ha Hp. pose proof PI_RGT_0 as Hpi.
  assert (H1 : 0 < area geom / PI) by (apply Rdiv_lt_0_compat; lra).
  assert (H2 : 0 < PI * area geom) by (apply Rmult_lt_0_compat; lra).
  unfold calculate_feature_metrics, feature_metrics_try.
  destruct (Rlt_dec (area geom / 10000) 0.1) as [H|_]; [exfalso; lra|].
  rewrite math_sqrt_nonneg by lra. cbn [bind].
  rewrite math_sqrt_nonneg by lra. cbn [bind].
  rewrite truediv_nonzero by (pose proof (sqrt_lt_R0 _ H2); lra). cbn [bind].
  rewrite truediv_nonzero by lra. cbn [bind].
  rewrite truediv_nonzero by (apply pow_nonzero; exact Hp). cbn [bind].
  assert (F : fractal_dimension (area geom) (length geom)
              = Return (if Rlt_dec 0 (length geom)
                        then 2 * ln (length geom / 4) / ln (area geom) else 0)).
  { destruct (Rlt_dec 0 (length geom)) as [Hl|Hl].
    - apply fractal_dimension_formula; lra.
    - unfold fractal_dimension. destruct (Rlt_dec 0 (area geom)); [|lra].
      destruct (Rlt_dec 0 (length geom)); [lra|reflexivity]. }
  rewrite F. cbn [bind].
  rewrite (surjective_pairing (calculate_elongation_and_orientation geom)).
  reflexivity.
Qed.

Lemma zero_perimeter_raises (feature : QgsFeature) (geom : QgsGeometry) :
  1000 <= area geom -> length geom = 0 ->
  calculate_feature_metrics feature geom
  = (None, [Error_calculating_metrics (id feature) ZeroDivisionError]).
Proof.
  intros Ha Hp. pose proof PI_RGT_0 as Hpi.
  assert (H1 : 0 < area geom / PI) by (apply Rdiv_lt_0_compat; lra).
  assert (H2 : 0 < PI * area geom) by (apply Rmult_lt_0_compat; lra).
  unfold calculate_feature_metrics, feature_metrics_try.
  destruct (Rlt_dec (area geom / 10000) 0.1) as [H|_]; [exfalso; lra|].
  rewrite math_sqrt_nonneg by lra. cbn [bind].
  rewrite math_sqrt_nonneg by lra. cbn [bind].
  rewrite truediv_nonzero by (pose proof (sqrt_lt_R0 _ H2); lra). cbn [bind].
  rewrite truediv_nonzero by lra. cbn [bind].
  unfold truediv at 1. rewrite Hp.
  destruct (Req_dec_T (0 ^ 2) 0) as [_|H]; [reflexivity|].
  exfalso. apply H. cbn. lra.
Qed.

Lemma small_polygon_skipped (feature : QgsFeature) (geom : QgsGeometry) :
  area geom < 1000 -> calculate_feature_metrics feature geom = (None, []).
Proof.
  intros Ha. unfold calculate_feature_metrics, feature_metrics_try.
  destruct (Rlt_dec (area geom / 10000) 0.1) as [_|H]; [reflexivity|].
  exfalso. apply H. lra.
Qed.

(** X14. With an area of at least 0.1 ha the function returns a row
    exactly when the perimeter is not zero, and the row then holds the
    rounded formulas; with a zero perimeter the division of line 106
    raises, the handler prints the error and the function returns [None]. *)
Theorem large_polygon_row_or_error (feature : QgsFeature) (geom : QgsGeometry) :
  1000 <= area geom ->
  (length geom <> 0 ->
   calculate_feature_metrics feature geom
   = (Some (formula_row feature geom), []))
  /\ (length geom = 0 ->
      calculate_feature_metrics feature geom
      = (None, [Error_calculating_metrics (id feature) ZeroDivisionError])).
Proof.
  intros Ha. split; intros Hp.
  - now apply large_polygon_row.
  - now apply zero_perimeter_raises.
Qed.

(** A hectare with no boundary length. *)
Definition boundless_plot : QgsGeometry :=
  {| type := PolygonGeometry;
     area := 10000;
     length := 0;
     bbox_width := 100;
     bbox_height := 100;
     orientedMinimumBoundingBox := None |}.

Lemma large_polygon_row_or_error_witness :
  calculate_feature_metrics square_feature square_plot
  = (Some (formula_row square_feature square_plot), [])
  /\ calculate_feature_metrics square_feature boundless_plot
     = (None, [Error_calculating_metrics (id square_feature) ZeroDivisionError]).
Proof.
  split.
  - apply (large_polygon_row_or_error square_feature square_plot).
    + cbn. lra.
    + cbn. lra.
  - apply (large_polygon_row_or_error square_feature boundless_plot).
    + cbn. lra.
    + reflexivity.
Defined.

Lemma returned_row_is_formula_row (feature : QgsFeature) (geom : QgsGeometry)
      (row : MetricsRow) :
  fst (calculate_feature_metrics feature geom) = Some row ->
  1000 <= area geom /\ length geom <> 0 /\ row = formula_row feature geom.
Proof.
  intros H. destruct (metrics_row_inv feature geom row H) as (Ha & Hp & _).
  split; [exact Ha|]. split; [exact Hp|].
  rewrite (large_polygon_row feature geom Ha Hp) in H. cbn in H. congruence.
Qed.

(** X15. Every field of a returned row lies within half a unit of its
    last decimal of the exact quantity: area in hectares, perimeter, the
    longer and the shorter side of the bounding box, the equivalent
    diameter [2 sqrt(A/pi)], the shape index [P / (2 sqrt(pi A))], the
    perimeter-area ratio and the compactness [4 pi A / P^2]. *)
Theorem row_fields_within_rounding (feature : QgsFeature) (geom : QgsGeometry)
        (row : MetricsRow) :
  fst (calculate_feature_metrics feature geom) = Some row ->
  let a := area geom in
  let p := length geom in
  feature_id row = id feature
  /\ Rabs (area_ha row - a / 10000) <= / (2 * 10 ^ 4)
  /\ Rabs (perimeter_m row - p) <= / (2 * 10 ^ 2)
  /\ Rabs (length_m row - Rmax (bbox_width geom) (bbox_height geom))
     <= / (2 * 10 ^ 2)
  /\ Rabs (width_m row - Rmin (bbox_width geom) (bbox_height geom))
     <= / (2 * 10 ^ 2)
  /\ Rabs (equivalent_diameter_m row - 2 * sqrt (a / PI)) <= / (2 * 10 ^ 2)
  /\ Rabs (shape_index row - p / (2 * sqrt (PI * a))) <= / (2 * 10 ^ 4)
  /\ Rabs (perimeter_area_ratio row - p / a) <= / (2 * 10 ^ 6)
  /\ Rabs (compactness_index row - 4 * PI * a / p ^ 2) <= / (2 * 10 ^ 4).
Proof.
  intros H a p.
  destruct (returned_row_is_formula_row feature geom row H) as (_ & _ & ->).
  unfold formula_row. cbv zeta.
  cbn [feature_id area_ha perimeter_m length_m width_m equivalent_diameter_m
       shape_index perimeter_area_ratio compactness_index].
  split; [reflexivity|]. repeat split; apply round_near.
Qed.

Lemma row_fields_within_rounding_witness :
  let a := area square_plot in
  let p := length square_plot in
  feature_id square_row = id square_feature
  /\ Rabs (area_ha square_row - a / 10000) <= / (2 * 10 ^ 4)
  /\ Rabs (perimeter_m square_row - p) <= / (2 * 10 ^ 2)
  /\ Rabs (length_m square_row
           - Rmax (bbox_width square_plot) (bbox_height square_plot))
     <= / (2 * 10 ^ 2)
  /\ Rabs (width_m square_row
           - Rmin (bbox_width square_plot) (bbox_height square_plot))
     <= / (2 * 10 ^ 2)
  /\ Rabs (equivalent_diameter_m square_row - 2 * sqrt (a / PI))
     <= / (2 * 10 ^ 2)
  /\ Rabs (shape_index square_row - p / (2 * sqrt (PI * a))) <= / (2 * 10 ^ 4)
  /\ Rabs (perimeter_area_ratio square_row - p / a) <= / (2 * 10 ^ 6)
  /\ Rabs (compactness_index square_row - 4 * PI * a / p ^ 2) <= / (2 * 10 ^ 4).
Proof.
  apply (row_fields_within_rounding square_feature square_plot square_row).
  exact square_row_produced.
Defined.

(** ** Sorting and the elongation ratio *)

Fixpoint ascending (l : list R) : Prop :=
  match l with
  | a :: (b :: _) as rest => a <= b /\ ascending rest
  | _ => True
  end.

Lemma insert_sorted_ascending (a : R) (l : list R) :
  ascending l -> ascending (insert_sorted a l).
Proof.
  induction l as [|b t IH]; intros H; [exact I|].
  cbn [insert_sorted]. destruct (Rle_dec a b) as [Hab|Hab].
  - split; assumption.
  - destruct t as [|c t'].
    + cbn. split; [lra|exact I].
    + destruct H as [Hbc Ht]. specialize (IH Ht).
      cbn [insert_sorted] in IH |- *.
      destruct (Rle_dec a c); split; try lra; assumption.
Qed.

Lemma sorted_ascending (l : list R) : ascending (sorted l).
Proof.
  induction l as [|a l IH]; [exact I|]. now apply insert_sorted_ascending.
Qed.

Lemma insert_sorted_length (a : R) (l : list R) :
  List.length (insert_sorted a l) = S (List.length l).
Proof.
  induction l as [|b t IH]; [reflexivity|]. cbn [insert_sorted].
  destruct (Rle_dec a b); cbn [List.length]; [reflexivity|now rewrite IH].
Qed.

Lemma sorted_length (l : list R) : List.length (sorted l) = List.length l.
Proof.
  induction l as [|a l IH]; [reflexivity|].
  unfold sorted in *. cbn [fold_right]. now rewrite insert_sorted_length, IH.
Qed.

(** The elongation ratio is the quotient of two sorted lengths, or 1. *)
Lemma elongation_at_least_1 (geom : QgsGeometry) :
  1 <= fst (calculate_elongation_and_orientation geom).
Proof.
  unfold calculate_elongation_and_orientation.
  destruct (orientedMinimumBoundingBox geom) as [b|]; cbn [fst]; [|lra].
  destruct (negb _); cbn [fst]; [lra|].
  destruct (len (box_vertices b) <? 4)%Z; cbn [fst]; [lra|].
  destruct (len (map edge_length (edges (box_vertices b))) <? 2)%Z;
    cbn [fst]; [lra|].
  set (u := nodup Req_dec_T _).
  destruct (len u <? 2)%Z eqn:Hu; cbn [fst]; [lra|].
  apply Z.ltb_ge in Hu. unfold len in Hu.
  pose proof (sorted_ascending u) as Hs. pose proof (sorted_length u) as Hl.
  destruct (sorted u) as [|x [|y t]]; cbn [List.length] in Hl; try lia.
  cbn [nth]. destruct Hs as [Hxy _].
  destruct (Rlt_dec 0 x) as [Hx|_]; [|lra].
  apply (Rmult_le_reg_r x); [exact Hx|].
  unfold Rdiv. rewrite Rmult_assoc, Rinv_l by lra. lra.
Qed.

Lemma round_decimal (k : Z) (n : nat) :
  round (IZR k / 10 ^ n) n = IZR k / 10 ^ n.
Proof.
  pose proof (pow10_pos n) as Hp. unfold round.
  replace (IZR k / 10 ^ n * 10 ^ n) with (IZR k) by (field; lra).
  unfold round_half_even. rewrite ZfloorZ.
  destruct (Rlt_dec (IZR k - IZR k) (1 / 2)) as [_|H]; [reflexivity|].
  exfalso. apply H. lra.
Qed.

(** X16. A returned row is coherent: the area is at least 0.1 ha, the
    width does not exceed the length, the elongation ratio is at least 1,
    the orientation lies in [0, 180], and the edge density repeats the
    perimeter-area ratio. *)
Theorem row_is_coherent (feature : QgsFeature) (geom : QgsGeometry)
        (row : MetricsRow) :
  fst (calculate_feature_metrics feature geom) = Some row ->
  0.1 <= area_ha row
  /\ width_m row <= length_m row
  /\ 1 <= elongation_ratio row
  /\ 0 <= orientation_degrees row <= 180
  /\ edge_density row = perimeter_area_ratio row.
Proof.
  intros H.
  destruct (returned_row_is_formula_row feature geom row H) as (Ha & _ & ->).
  unfold formula_row. cbv zeta.
  cbn [area_ha width_m length_m elongation_ratio orientation_degrees
       edge_density perimeter_area_ratio].
  split.
  { replace 0.1 with (IZR 1000 / 10 ^ 4) by (cbn; lra).
    rewrite <- (round_decimal 1000 4). apply round_monotone. cbn. lra. }
  split.
  { apply round_monotone.
    apply Rle_trans with (bbox_width geom); [apply Rmin_l|apply Rmax_l]. }
  split.
  { rewrite <- (round_IZR 1 4). apply round_monotone, elongation_at_least_1. }
  split; [|reflexivity].
  pose proof (orientation_range geom) as [H0 H180]. split.
  - rewrite <- (round_IZR 0 2). now apply round_monotone.
  - rewrite <- (round_IZR 180 2). now apply round_monotone.
Qed.

Lemma row_is_coherent_witness :
  0.1 <= area_ha square_row
  /\ width_m square_row <= length_m square_row
  /\ 1 <= elongation_ratio square_row
  /\ 0 <= orientation_degrees square_row <= 180
  /\ edge_density square_row = perimeter_area_ratio square_row.
Proof.
  apply (row_is_coherent square_feature square_plot square_row).
  exact square_row_produced.
Defined.

(** ** The feature loop *)

(** What the loop does with one feature: nothing for a missing or
    non-polygon geometry or a polygon under 0.1 ha, an error message for
    a larger polygon without perimeter, a row otherwise. *)
Definition rows_of (feature : QgsFeature) : list MetricsRow :=
  match geometry feature with
  | None => []
  | Some geom =>
      if negb (geometry_type_eqb (type geom) PolygonGeometry) then []
      else if Rlt_dec (area geom) 1000 then []
      else if Req_dec_T (length geom) 0 then []
      else [formula_row feature geom]
  end.

Definition errors_of (feature : QgsFeature) : list message :=
  match geometry feature with
  | None => []
  | Some geom =>
      if negb (geometry_type_eqb (type geom) PolygonGeometry) then []
      else if Rlt_dec (area geom) 1000 then []
      else if Req_dec_T (length geom) 0
           then [Error_calculating_metrics (id feature) ZeroDivisionError]
           else []
  end.

Lemma write_feature_appends (out : output) (feature : QgsFeature) :
  write_feature out feature
  = {| written := written out ++ rows_of feature;
       printed := printed out ++ errors_of feature |}.
Proof.
  unfold write_feature, rows_of, errors_of.
  destruct (geometry feature) as [geom|];
    [|rewrite !app_nil_r; now destruct out].
  destruct (negb _); [rewrite !app_nil_r; now destruct out|].
  destruct (Rlt_dec (area geom) 1000) as [Ha|Ha].
  - rewrite (small_polygon_skipped feature geom Ha), !app_nil_r.
    now destruct out.
  - destruct (Req_dec_T (length geom) 0) as [Hp|Hp].
    + rewrite (zero_perimeter_raises feature geom) by lra.
      now rewrite app_nil_r.
    + rewrite (large_polygon_row feature geom) by lra.
      now rewrite app_nil_r.
Qed.

(** X17. The rows written by the loop of [calculate_shape_metrics] are,
    in the order of the layer, the formula rows of the polygon features
    of at least 0.1 ha with a perimeter; the only messages are the errors
    of the larger polygons without perimeter; so there are never more
    rows than features. *)
Theorem written_rows_follow_features (features : list QgsFeature) :
  written (calculate_shape_metrics features) = flat_map rows_of features
  /\ printed (calculate_shape_metrics features) = flat_map errors_of features
  /\ (List.length (written (calculate_shape_metrics features))
      <= List.length features)%nat.
Proof.
  unfold calculate_shape_metrics.
  assert (G : forall out,
            fold_left write_feature features out
            = {| written := written out ++ flat_map rows_of features;
                 printed := printed out ++ flat_map errors_of features |}).
  { induction features as [|f fs IH]; intros out.
    - cbn. rewrite !app_nil_r. now destruct out.
    - cbn [fold_left flat_map]. rewrite IH, write_feature_appends.
      cbn [written printed]. now rewrite <- !app_assoc. }
  rewrite G. cbn [written printed app].
  split; [reflexivity|]. split; [reflexivity|].
  clear G. induction features as [|f fs IH]; [cbn; lia|].
  cbn [flat_map]. rewrite length_app. cbn [List.length].
  assert (L : (List.length (rows_of f) <= 1)%nat).
  { unfold rows_of. destruct (geometry f) as [g|]; [|cbn; lia].
    destruct (negb _); [cbn; lia|]. destruct (Rlt_dec _ _); [cbn; lia|].
    destruct (Req_dec_T _ _); cbn; lia. }
  lia.
Qed.

(** ** The elongation of a rectangle *)

Lemma edges_length (vertices : list (R * R)) :
  List.length (edges vertices) = (List.length vertices - 1)%nat.
Proof.
  induction vertices as [|a [|b t] IH]; [reflexivity|reflexivity|].
  cbn [edges List.length] in *. rewrite IH. lia.
Qed.

Lemma insert_sorted_In (a x : R) (l : list R) :
  In x (insert_sorted a l) <-> x = a \/ In x l.
Proof.
  induction l as [|b t IH]; cbn [insert_sorted].
  - cbn. intuition.
  - destruct (Rle_dec a b); cbn [In]; [intuition|]. rewrite IH. intuition.
Qed.

Lemma sorted_In (x : R) (l : list R) : In x (sorted l) <-> In x l.
Proof.
  induction l as [|a l IH]; [reflexivity|].
  unfold sorted in *. cbn [fold_right]. rewrite insert_sorted_In, IH.
  cbn [In]. intuition.
Qed.

(** The sorted duplicate-free list of numbers that take exactly the two
    values [m < M]. *)
Lemma sorted_two_values (l : list R) (m M : R) :
  m < M -> In m l -> In M l -> (forall x, In x l -> x = m \/ x = M) ->
  sorted (nodup Req_dec_T l) = [m; M].
Proof.
  intros HmM Hm HM Hall. set (u := nodup Req_dec_T l).
  assert (Hnd : NoDup u) by apply NoDup_nodup.
  assert (Hu : forall x, In x u <-> In x l) by (intros x; apply nodup_In).
  assert (L2 : List.length u = 2%nat).
  { apply Nat.le_antisymm.
    - apply (NoDup_incl_length Hnd (l' := [m; M])).
      intros x Hx. apply Hu, Hall in Hx. cbn. intuition.
    - assert (N : NoDup [m; M]).
      { constructor; [cbn; intros [E|[]]; lra|]. constructor; [easy|constructor]. }
      apply (NoDup_incl_length N). intros x [<-|[<-|[]]]; now apply Hu. }
  pose proof (sorted_ascending u) as Hs. pose proof (sorted_length u) as Hl.
  assert (Hin : forall x, In x (sorted u) <-> In x l)
    by (intros x; rewrite sorted_In; apply Hu).
  destruct (sorted u) as [|x [|y [|z t]]]; cbn [List.length] in Hl; try lia.
  destruct Hs as [Hxy _].
  assert (Ex : x = m \/ x = M) by (apply Hall, Hin; now left).
  assert (Ey : y = m \/ y = M) by (apply Hall, Hin; right; now left).
  apply Hin in Hm, HM. cbn [In] in Hm, HM.
  assert (x = m) by (destruct Ex, Ey, Hm as [|[|[]]], HM as [|[|[]]]; lra).
  assert (y = M) by (destruct Ex, Ey, Hm as [|[|[]]], HM as [|[|[]]]; lra).
  now subst.
Qed.

(** X18. For a bounding box whose ring has at least four vertices and
    whose sides, rounded to two decimals, take exactly two values
    [0 < m < M], the elongation ratio is [M / m]: the longer side over
    the shorter one. *)
Theorem elongation_of_a_rectangle (geom : QgsGeometry) (bbox_geom : BoxGeometry)
        (m M : R) :
  orientedMinimumBoundingBox geom = Some bbox_geom ->
  box_type bbox_geom = PolygonGeometry ->
  (4 <= List.length (box_vertices bbox_geom))%nat ->
  0 < m < M ->
  (forall side, In side (map edge_length (edges (box_vertices bbox_geom))) ->
                round side 2 = m \/ round side 2 = M) ->
  (exists side, In side (map edge_length (edges (box_vertices bbox_geom)))
                /\ round side 2 = m) ->
  (exists side, In side (map edge_length (edges (box_vertices bbox_geom)))
                /\ round side 2 = M) ->
  fst (calculate_elongation_and_orientation geom) = M / m.
Proof.
  intros Hb Ht Hv [Hm0 HmM] Hall (s1 & Hs1 & E1) (s2 & Hs2 & E2).
  unfold calculate_elongation_and_orientation. rewrite Hb, Ht.
  cbn [geometry_type_eqb negb].
  replace (len (box_vertices bbox_geom) <? 4)%Z with false
    by (symmetry; apply Z.ltb_ge; unfold len; lia).
  replace (len (map edge_length (edges (box_vertices bbox_geom))) <? 2)%Z
    with false
    by (symmetry; apply Z.ltb_ge; unfold len;
        rewrite length_map, edges_length; lia).
  rewrite (sorted_two_values _ m M HmM).
  - assert (N : nodup Req_dec_T
                  (map (fun length => round length 2)
                       (map edge_length (edges (box_vertices bbox_geom))))
                <> []).
    { intros E. assert (Hin : In m (nodup Req_dec_T
                  (map (fun length => round length 2)
                       (map edge_length (edges (box_vertices bbox_geom)))))).
      { apply nodup_In, in_map_iff. exists s1. split; assumption. }
      rewrite E in Hin. destruct Hin. }
    destruct (len (nodup Req_dec_T _) <? 2)%Z eqn:Hlen.
    + exfalso. apply Z.ltb_lt in Hlen. unfold len in Hlen.
      assert (N2 : NoDup [m; M]).
      { constructor; [cbn; intros [E|[]]; lra|].
        constructor; [easy|constructor]. }
      pose proof (NoDup_incl_length N2
                    (l' := nodup Req_dec_T
                             (map (fun length => round length 2)
                                  (map edge_length
                                       (edges (box_vertices bbox_geom)))))) as L.
      cbn [List.length] in L.
      assert (2 <= List.length
                     (nodup Req_dec_T
                        (map (fun length => round length 2)
                             (map edge_length
                                  (edges (box_vertices bbox_geom))))))%nat.
      { apply L. intros x [<-|[<-|[]]]; apply nodup_In, in_map_iff;
          [exists s1|exists s2]; split; assumption. }
      lia.
    + cbn [fst nth]. destruct (Rlt_dec 0 m); [reflexivity|lra].
  - apply in_map_iff. exists s1. split; assumption.
  - apply in_map_iff. exists s2. split; assumption.
  - intros x Hx. apply in_map_iff in Hx as (side & <- & Hside). now apply Hall.
Qed.

Lemma strip_side_lengths :
  map edge_length (edges (box_vertices
                            {| box_type := PolygonGeometry;
                               box_vertices :=
                                 [(1000, 0); (1000, 10); (0, 10); (0, 0);
                                  (1000, 0)] |}))
  = [10; 1000; 10; 1000].
Proof.
  cbn [box_vertices]. rewrite strip_edges. cbn [map].
  rewrite (edge_length_eq (0, 10) 10) by (cbn [fst snd]; lra).
  rewrite (edge_length_eq (-1000, 0) 1000) by (cbn [fst snd]; lra).
  rewrite (edge_length_eq (0, -10) 10) by (cbn [fst snd]; lra).
  rewrite (edge_length_eq (1000, 0) 1000) by (cbn [fst snd]; lra).
  reflexivity.
Qed.

Lemma elongation_of_a_rectangle_witness :
  fst (calculate_elongation_and_orientation strip) = 1000 / 10.
Proof.
  apply (elongation_of_a_rectangle strip
           {| box_type := PolygonGeometry;
              box_vertices :=
                [(1000, 0); (1000, 10); (0, 10); (0, 0); (1000, 0)] |}
           10 1000).
  - reflexivity.
  - reflexivity.
  - cbn. lia.
  - lra.
  - rewrite strip_side_lengths. intros side Hs. cbn [In] in Hs.
    destruct Hs as [<-|[<-|[<-|[<-|[]]]]]; rewrite round_IZR; auto.
  - exists 10. rewrite strip_side_lengths. split; [now left|apply round_IZR].
  - exists 1000. rewrite strip_side_lengths.
    split; [right; now left|apply round_IZR].
Defined.

End ShapeMore.

(* ------------------------------------------------------------------ *)
(** * From project to file: lookup, missing layers, the exported count *)

Module ProjectFacts.
Import Py Qgs HarvestProbExtract HarvestProbMain.
Import Stdlib.Strings.String.

(** ** The lookup *)

(** The raster a project entry offers under the name [name], if any. *)
Definition named_raster (name : string) (layer : map_layer)
  : option QgsRasterLayer :=
  match layer with
  | RasterLayer n r => if (n =? name)%string then Some r else None
  | OtherLayer _ => None
  end.

(** [r] is the last raster called [name] in the project. *)
Definition is_last_named (name : string) (r : QgsRasterLayer)
           (project : list map_layer) : Prop :=
  exists before after,
    project = (before ++ RasterLayer name r :: after)%list
    /\ forall layer, In layer after -> named_raster name layer = None.

Fixpoint last_named (name : string) (project : list map_layer)
  : option QgsRasterLayer :=
  match project with
  | [] => None
  | layer :: rest =>
      match last_named name rest with
      | Some r => Some r
      | None => named_raster name layer
      end
  end.

Definition or_else {A : Type} (a b : option A) : option A :=
  match a with
  | Some _ => a
  | None => b
  end.

Lemma last_named_None (name : string) (project : list map_layer) :
  last_named name project = None
  <-> forall layer, In layer project -> named_raster name layer = None.
Proof.
  induction project as [|layer rest IH]; cbn [last_named].
  - split; [intros _ l []|reflexivity].
  - destruct (last_named name rest) as [r|].
    + split; [discriminate|]. intros H. exfalso.
      assert (E : Some r = None); [|discriminate].
      apply IH. intros l Hl. apply H. now right.
    + split.
      * intros E l [<-|Hl]; [exact E|]. now apply (proj1 IH eq_refl).
      * intros H. apply H. now left.
Qed.

Lemma last_named_Some (name : string) (project : list map_layer)
      (r : QgsRasterLayer) :
  last_named name project = Some r <-> is_last_named name r project.
Proof.
  induction project as [|layer rest IH]; cbn [last_named].
  - split; [discriminate|]. intros (b & a & E & _). now destruct b.
  - destruct (last_named name rest) as [r'|] eqn:L.
    + split.
      * intros E. destruct (proj1 IH E) as (b & a & -> & Ha).
        exists (layer :: b), a. split; [reflexivity|exact Ha].
      * intros (b & a & E & Ha). destruct b as [|x b]; cbn in E.
        -- exfalso. inversion E; subst.
           apply last_named_None in Ha. congruence.
        -- inversion E; subst. apply IH. exists b, a.
           split; [reflexivity|exact Ha].
    + split.
      * intros E. destruct layer as [n r0|n]; cbn in E; [|discriminate].
        destruct (n =? name)%string eqn:En; [|discriminate].
        apply String.eqb_eq in En. inversion E; subst.
        exists [], rest. split; [reflexivity|].
        now apply last_named_None.
      * intros (b & a & E & Ha). destruct b as [|x b]; cbn in E.
        -- inversion E; subst. cbn. now rewrite String.eqb_refl.
        -- exfalso. inversion E; subst.
           assert (Hr : None = Some r); [|discriminate].
           apply IH. exists b, a. split; [reflexivity|exact Ha].
Qed.

Lemma note_layer_slots (found : layers) (layer : map_layer) :
  note_layer found layer
  = {| agb_layer := or_else (named_raster "AGB_Masked" layer) (agb_layer found);
       harvest_layer :=
         or_else (named_raster "Harvest_10m" layer) (harvest_layer found);
       harvest_prob_layer :=
         or_else (named_raster "harvest_prob_10m" layer)
                 (harvest_prob_layer found) |}.
Proof.
  destruct layer as [n r|n]; cbn [note_layer named_raster or_else];
    [|now destruct found].
  destruct (n =? "AGB_Masked")%string eqn:E1.
  { apply String.eqb_eq in E1. subst. reflexivity. }
  destruct (n =? "harvest_prob_10m")%string eqn:E2.
  { apply String.eqb_eq in E2. subst. reflexivity. }
  destruct (n =? "Harvest_10m")%string eqn:E3; cbn [or_else];
    [reflexivity|now destruct found].
Qed.

Lemma lookup_loop (project : list map_layer) (found : layers) :
  fold_left note_layer project found
  = {| agb_layer := or_else (last_named "AGB_Masked" project) (agb_layer found);
       harvest_layer :=
         or_else (last_named "Harvest_10m" project) (harvest_layer found);
       harvest_prob_layer :=
         or_else (last_named "harvest_prob_10m" project)
                 (harvest_prob_layer found) |}.
Proof.
  revert found. induction project as [|layer rest IH]; intros found.
  - now destruct found.
  - cbn [fold_left last_named]. rewrite IH, note_layer_slots.
    cbn [agb_layer harvest_layer harvest_prob_layer].
    f_equal;
      match goal with
      | |- context [last_named ?n rest] => destruct (last_named n rest)
      end; reflexivity.
Qed.

Lemma find_layers_last_named (project : list map_layer) :
  find_layers project
  = {| agb_layer := last_named "AGB_Masked" project;
       harvest_layer := last_named "Harvest_10m" project;
       harvest_prob_layer := last_named "harvest_prob_10m" project |}.
Proof.
  unfold find_layers. rewrite lookup_loop.
  cbn [agb_layer harvest_layer harvest_prob_layer].
  f_equal;
    match goal with
    | |- context [last_named ?n project] => destruct (last_named n project)
    end; reflexivity.
Qed.

(** X19. Each of the three layers the lookup finds is the last raster
    layer of the project carrying its name: a later raster of the same
    name replaces an earlier one, and a layer of another class is never
    taken, whatever its name. *)
Theorem lookup_finds_the_last_raster (project : list map_layer)
        (r : QgsRasterLayer) :
  (agb_layer (find_layers project) = Some r
   <-> is_last_named "AGB_Masked" r project)
  /\ (harvest_layer (find_layers project) = Some r
      <-> is_last_named "Harvest_10m" r project)
  /\ (harvest_prob_layer (find_layers project) = Some r
      <-> is_last_named "harvest_prob_10m" r project).
Proof.
  rewrite find_layers_last_named.
  cbn [agb_layer harvest_layer harvest_prob_layer].
  repeat split; apply last_named_Some.
Qed.

(** ** Missing layers *)

(** The project holds no raster layer called [name]. *)
Definition no_raster_named (name : string) (project : list map_layer) : Prop :=
  forall layer, In layer project -> named_raster name layer = None.

(** One message, no file, no exception. *)
Definition only_prints (m : message) : outcome :=
  {| printed := [m]; file := None; raised := None |}.

Lemma found_or_missing (name : string) (project : list map_layer) :
  (last_named name project = None /\ no_raster_named name project)
  \/ (exists r, last_named name project = Some r
                 /\ ~ no_raster_named name project).
Proof.
  destruct (last_named name project) as [r|] eqn:L.
  - right. exists r. split; [reflexivity|]. unfold no_raster_named. intros H.
    apply last_named_None in H. congruence.
  - left. split; [reflexivity|]. unfold no_raster_named.
    now apply last_named_None.
Qed.

(** X20. When a raster layer is missing from the project nothing is
    written and nothing raised.  The per-pixel function names the first
    missing one in the order AGB_Masked, Harvest_10m, harvest_prob_10m and
    prints nothing else; the numpy function prints its one generic line. *)
Theorem missing_layer_is_reported (writable : bool) (project : list map_layer) :
  (no_raster_named "AGB_Masked" project ->
   run_extract_raster_values_to_csv writable project
   = only_prints AGB_Masked_layer_not_found)
  /\ (~ no_raster_named "AGB_Masked" project ->
      no_raster_named "Harvest_10m" project ->
      run_extract_raster_values_to_csv writable project
      = only_prints Harvest_10m_layer_not_found)
  /\ (~ no_raster_named "AGB_Masked" project ->
      ~ no_raster_named "Harvest_10m" project ->
      no_raster_named "harvest_prob_10m" project ->
      run_extract_raster_values_to_csv writable project
      = only_prints harvest_prob_10m_layer_not_found)
  /\ (no_raster_named "AGB_Masked" project
      \/ no_raster_named "Harvest_10m" project
      \/ no_raster_named "harvest_prob_10m" project ->
      run_extract_raster_values_to_csv_numpy true writable project
      = only_prints One_or_more_layers_not_found).
Proof.
  unfold run_extract_raster_values_to_csv,
    run_extract_raster_values_to_csv_numpy.
  rewrite find_layers_last_named.
  cbn [agb_layer harvest_layer harvest_prob_layer negb].
  assert (S : forall name r, last_named name project = Some r ->
                             ~ no_raster_named name project).
  { intros name r E N. unfold no_raster_named in N.
    apply last_named_None in N. congruence. }
  assert (N : forall name, last_named name project = None ->
                           no_raster_named name project).
  { intros name E. unfold no_raster_named. now apply last_named_None. }
  destruct (last_named "AGB_Masked" project) as [a|] eqn:Ea;
    [apply S in Ea|apply N in Ea];
    (destruct (last_named "Harvest_10m" project) as [h|] eqn:Eh;
     [apply S in Eh|apply N in Eh]);
    (destruct (last_named "harvest_prob_10m" project) as [q|] eqn:Ep;
     [apply S in Ep|apply N in Ep]);
    repeat split; intros; try reflexivity; exfalso; tauto.
Qed.

(** A project with the mask and the probability rasters, and a vector
    layer that carries the biomass layer's name. *)
Definition project_without_biomass : list map_layer :=
  [RasterLayer "Harvest_10m" harvest_1x1;
   OtherLayer "AGB_Masked";
   RasterLayer "harvest_prob_10m" harvest_prob_1x1].

Lemma missing_layer_is_reported_witness :
  run_extract_raster_values_to_csv true project_without_biomass
  = only_prints AGB_Masked_layer_not_found
  /\ run_extract_raster_values_to_csv_numpy true true project_without_biomass
     = only_prints One_or_more_layers_not_found.
Proof.
  assert (N : no_raster_named "AGB_Masked" project_without_biomass).
  { intros layer Hl. cbn [In project_without_biomass] in Hl.
    destruct Hl as [<-|[<-|[<-|[]]]]; reflexivity. }
  destruct (missing_layer_is_reported true project_without_biomass)
    as (H1 & _ & _ & H4).
  split; [apply H1; exact N|apply H4; left; exact N].
Defined.

(** ** The exported count *)

Lemma per_pixel_rows_begin_with_header agb harvest harvest_prob rows :
  extract_raster_values_to_csv agb harvest harvest_prob = Return rows ->
  exists data, rows = Header :: data.
Proof.
  unfold extract_raster_values_to_csv.
  destruct (truediv _ (inject_Z (width harvest))) as [sx|]; cbn [bind];
    [|discriminate].
  destruct (truediv _ (inject_Z (height harvest))) as [sy|]; cbn [bind];
    [|discriminate].
  intros H; inversion H; subst; clear H.
  destruct (ExtractMore.per_pixel_loops agb harvest harvest_prob sx sy
              (range 0 (height harvest)) (range 0 (width harvest)) [Header])
    as (data & -> & _).
  now exists data.
Qed.

Lemma numpy_rows_begin_with_header agb harvest harvest_prob rows :
  extract_raster_values_to_csv_numpy agb harvest harvest_prob = Return rows ->
  exists data, rows = Header :: data.
Proof.
  destruct (ExtractMore.numpy_reads agb harvest harvest_prob)
    as [[_ ->]|[_ ->]]; [|discriminate].
  destruct (truediv _ (inject_Z (width harvest))) as [sx|]; cbn [bind];
    [|discriminate].
  destruct (truediv _ (inject_Z (height harvest))) as [sy|]; cbn [bind];
    [|discriminate].
  destruct (ExtractMore.numpy_loop agb harvest harvest_prob sx sy
              (where_equals_one (ExtractFacts.band_array harvest)) [Header])
    as [(_ & data & -> & _)|(_ & ->)]; [|discriminate].
  intros H; inversion H; subst. now exists data.
Qed.

Lemma write_csv_file (writable : bool) (so_far : list message)
      (csv_data rows data : list csv_row) :
  csv_data = Header :: data ->
  file (write_csv writable so_far csv_data) = Some rows ->
  rows = Header :: data
  /\ printed (write_csv writable so_far csv_data)
     = so_far ++ [Successfully_exported (len data)]
  /\ raised (write_csv writable so_far csv_data) = None.
Proof.
  intros -> H. unfold write_csv in *. destruct writable; cbn in H;
    [|discriminate].
  inversion H; subst. cbn [printed raised]. repeat split.
  do 3 f_equal. unfold len. cbn [List.length]. lia.
Qed.

(** X21. Whenever either function writes a file, the file is the header
    followed by the records, the last line printed reports exactly the
    number of records, and nothing was raised. *)
Theorem exported_count_is_the_record_count
        (numpy_importable writable : bool) (project : list map_layer)
        (rows : list csv_row) :
  (file (run_extract_raster_values_to_csv writable project) = Some rows ->
   exists so_far data,
     rows = Header :: data
     /\ printed (run_extract_raster_values_to_csv writable project)
        = so_far ++ [Successfully_exported (len data)]
     /\ raised (run_extract_raster_values_to_csv writable project) = None)
  /\ (file (run_extract_raster_values_to_csv_numpy numpy_importable writable
                                                  project) = Some rows ->
      exists so_far data,
        rows = Header :: data
        /\ printed (run_extract_raster_values_to_csv_numpy numpy_importable
                                                          writable project)
           = so_far ++ [Successfully_exported (len data)]
        /\ raised (run_extract_raster_values_to_csv_numpy numpy_importable
                                                         writable project)
           = None).
Proof.
  assert (P : file (run_extract_raster_values_to_csv writable project)
              = Some rows ->
              exists so_far data,
                rows = Header :: data
                /\ printed (run_extract_raster_values_to_csv writable project)
                   = so_far ++ [Successfully_exported (len data)]
                /\ raised (run_extract_raster_values_to_csv writable project)
                   = None).
  { unfold run_extract_raster_values_to_csv.
    destruct (agb_layer (find_layers project)) as [a|]; [|discriminate].
    destruct (harvest_layer (find_layers project)) as [h|]; [|discriminate].
    destruct (harvest_prob_layer (find_layers project)) as [q|]; [|discriminate].
    destruct (extract_raster_values_to_csv a h q) as [csv_data|e] eqn:E;
      [|discriminate].
    destruct (per_pixel_rows_begin_with_header a h q csv_data E) as [data Hd].
    intros H. eexists; exists data. exact (write_csv_file _ _ _ _ _ Hd H). }
  split; [exact P|].
  unfold run_extract_raster_values_to_csv_numpy.
  destruct numpy_importable; cbn [negb].
  - destruct (agb_layer (find_layers project)) as [a|]; [|discriminate].
    destruct (harvest_layer (find_layers project)) as [h|]; [|discriminate].
    destruct (harvest_prob_layer (find_layers project)) as [q|]; [|discriminate].
    destruct (extract_raster_values_to_csv_numpy a h q) as [csv_data|e] eqn:E;
      [|discriminate].
    destruct (numpy_rows_begin_with_header a h q csv_data E) as [data Hd].
    intros H. eexists; exists data. exact (write_csv_file _ _ _ _ _ Hd H).
  - cbn [file printed raised]. intros H.
    destruct (P H) as (so_far & data & Hr & Hp & Hx).
    exists (NumPy_not_available :: so_far), data.
    rewrite Hp. repeat split; assumption.
Qed.

(** The three 1 x 1 rasters with a measured biomass, and a road layer. *)
Definition measured_project : list map_layer :=
  [RasterLayer "AGB_Masked" ExtractFacts.agb_measured_1x1;
   OtherLayer "roads";
   RasterLayer "Harvest_10m" harvest_1x1;
   RasterLayer "harvest_prob_10m" harvest_prob_1x1].

Lemma exported_count_is_the_record_count_witness :
  (exists so_far data,
     ExtractMore.measured_rows = Header :: data
     /\ printed (run_extract_raster_values_to_csv true measured_project)
        = so_far ++ [Successfully_exported (len data)]
     /\ raised (run_extract_raster_values_to_csv true measured_project) = None)
  /\ (exists so_far data,
        ExtractMore.measured_rows_numpy = Header :: data
        /\ printed (run_extract_raster_values_to_csv_numpy true true
                                                          measured_project)
           = so_far ++ [Successfully_exported (len data)]
        /\ raised (run_extract_raster_values_to_csv_numpy true true
                                                         measured_project)
           = None).
Proof.
  split.
  - apply (exported_count_is_the_record_count true true measured_project
                                              ExtractMore.measured_rows).
    vm_compute. reflexivity.
  - apply (exported_count_is_the_record_count true true measured_project
                                              ExtractMore.measured_rows_numpy).
    vm_compute. reflexivity.
Defined.

End ProjectFacts.

(* ------------------------------------------------------------------ *)
(** * The shape script: what it prints, writes and stores *)

Module LayerFacts.
Import Stdlib.Strings.String.
Import Py ShapeMetrics ShapeFacts ShapeMore ShapeMetricsMain.
Local Open Scope R_scope.
Ltac lra := Lra.lra.

(** ** The CSV path *)

Lemma geometry_type_eqb_eq (a b : geometry_type) :
  geometry_type_eqb a b = true <-> a = b.
Proof. destruct a, b; cbn; split; intros H; try reflexivity; discriminate. Qed.

Lemma loop_output (features : list QgsFeature) :
  calculate_shape_metrics features
  = {| written := flat_map rows_of features;
       printed := flat_map errors_of features |}.
Proof.
  unfold calculate_shape_metrics.
  assert (G : forall out,
            fold_left write_feature features out
            = {| written := written out ++ flat_map rows_of features;
                 printed := printed out ++ flat_map errors_of features |}).
  { induction features as [|f fs IH]; intros out.
    - cbn. rewrite !app_nil_r. now destruct out.
    - cbn [fold_left flat_map]. rewrite IH, write_feature_appends.
      cbn [written printed]. now rewrite <- !app_assoc. }
  now rewrite G.
Qed.

(** A feature the CSV path writes a row for. *)
Definition measurable (feature : QgsFeature) : Prop :=
  exists geom, geometry feature = Some geom
               /\ type geom = PolygonGeometry
               /\ 1000 <= area geom
               /\ length geom <> 0.

(** A feature that raises in either path: a polygon of at least 0.1 ha
    without perimeter. *)
Definition boundless (feature : QgsFeature) : Prop :=
  exists geom, geometry feature = Some geom
               /\ type geom = PolygonGeometry
               /\ 1000 <= area geom
               /\ length geom = 0.

Lemma rows_of_cases (feature : QgsFeature) :
  (measurable feature /\ exists row, rows_of feature = [row])
  \/ (~ measurable feature /\ rows_of feature = []).
Proof.
  unfold rows_of, measurable.
  destruct (geometry feature) as [geom|].
  2:{ right. split; [|reflexivity]. intros (g & E & _). discriminate. }
  destruct (geometry_type_eqb (type geom) PolygonGeometry) eqn:Ht; cbn [negb].
  2:{ right. split; [|reflexivity]. intros (g & E & T & _).
      injection E as <-. apply geometry_type_eqb_eq in T. congruence. }
  apply geometry_type_eqb_eq in Ht.
  destruct (Rlt_dec (area geom) 1000) as [Ha|Ha].
  { right. split; [|reflexivity]. intros (g & E & _ & A & _).
    injection E as <-. lra. }
  destruct (Req_dec_T (length geom) 0) as [Hp|Hp].
  { right. split; [|reflexivity]. intros (g & E & _ & _ & P).
    injection E as <-. contradiction. }
  left. split; [|eexists; reflexivity].
  exists geom. repeat split; try assumption. lra.
Qed.

Lemma errors_of_cases (feature : QgsFeature) :
  (boundless feature
   /\ errors_of feature
      = [Error_calculating_metrics (id feature) ZeroDivisionError])
  \/ (~ boundless feature /\ errors_of feature = []).
Proof.
  unfold errors_of, boundless.
  destruct (geometry feature) as [geom|].
  2:{ right. split; [|reflexivity]. intros (g & E & _). discriminate. }
  destruct (geometry_type_eqb (type geom) PolygonGeometry) eqn:Ht; cbn [negb].
  2:{ right. split; [|reflexivity]. intros (g & E & T & _).
      injection E as <-. apply geometry_type_eqb_eq in T. congruence. }
  apply geometry_type_eqb_eq in Ht.
  destruct (Rlt_dec (area geom) 1000) as [Ha|Ha].
  { right. split; [|reflexivity]. intros (g & E & _ & A & _).
    injection E as <-. lra. }
  destruct (Req_dec_T (length geom) 0) as [Hp|Hp].
  { left. split; [|reflexivity].
    exists geom. repeat split; try assumption. lra. }
  right. split; [|reflexivity]. intros (g & E & _ & _ & P).
  injection E as <-. contradiction.
Qed.

(** X23. With a vector layer selected and a writable file, the file holds
    the header and then the rows of the measurable features; the console
    shows the errors of the features without perimeter, the export line
    and [Processed n features] with [n] the feature count of the layer.
    That count is never below the number of rows written, and equals it
    exactly when every feature of the layer is a polygon of at least
    0.1 ha with a perimeter. *)
Theorem processed_count_is_the_feature_count (features : list QgsFeature) :
  let r := run_calculate_shape_metrics true (Some (VectorLayer features)) in
  let rows := flat_map rows_of features in
  csv_file r = Some (Headers :: map Metrics rows)
  /\ printed_lines r
     = map Feature_message (flat_map errors_of features)
       ++ [Shape_metrics_exported; Processed_features (len features)]
  /\ (len rows <= len features)%Z
  /\ (len rows = len features <-> Forall measurable features).
Proof.
  cbn zeta. unfold run_calculate_shape_metrics. rewrite loop_output.
  cbn [written printed csv_file printed_lines].
  split; [reflexivity|]. split; [reflexivity|].
  unfold len.
  assert (G : (List.length (flat_map rows_of features)
               <= List.length features)%nat
              /\ (List.length (flat_map rows_of features)
                  = List.length features
                  <-> Forall measurable features)).
  { induction features as [|f fs [IH1 IH2]].
    - cbn. split; [lia|]. split; [constructor|reflexivity].
    - cbn [flat_map]. rewrite length_app. cbn [List.length].
      destruct (rows_of_cases f) as [[M [row E]]|[M E]]; rewrite E;
        cbn [List.length].
      + split; [lia|]. split.
        * intros H. constructor; [exact M|]. apply IH2. lia.
        * intros H. inversion H; subst. apply IH2 in H3. lia.
      + split; [lia|]. split.
        * intros H. exfalso. lia.
        * intros H. inversion H; subst. contradiction. }
  destruct G as [G1 G2]. split; [lia|].
  rewrite <- G2. split; intros H; lia.
Qed.

(** ** The layer path *)

(** The six values the layer path stores for a polygon. *)
Definition formula_metrics (geom : QgsGeometry) : layer_metrics :=
  let a := area geom in
  let p := length geom in
  {| stored_area_ha := a / 10000;
     stored_perimeter_m := p;
     stored_shape_index := p / (2 * sqrt (PI * a));
     stored_compactness := 4 * PI * a / p ^ 2;
     stored_elongation := fst (calculate_elongation_and_orientation geom);
     stored_orientation := snd (calculate_elongation_and_orientation geom) |}.

Lemma polygon_metrics_large (geom : QgsGeometry) :
  1000 <= area geom -> length geom <> 0 ->
  polygon_metrics geom = Return (Some (formula_metrics geom)).
Proof.
  intros Ha Hp. pose proof PI_RGT_0 as Hpi.
  assert (H2 : 0 < PI * area geom) by (apply Rmult_lt_0_compat; lra).
  unfold polygon_metrics.
  destruct (Rle_dec 0.1 (area geom / 10000)) as [_|H]; [|exfalso; lra].
  rewrite math_sqrt_nonneg by lra. cbn [bind].
  rewrite truediv_nonzero by (pose proof (sqrt_lt_R0 _ H2); lra). cbn [bind].
  rewrite truediv_nonzero by (apply pow_nonzero; exact Hp). cbn [bind].
  rewrite (surjective_pairing (calculate_elongation_and_orientation geom)).
  reflexivity.
Qed.

Lemma polygon_metrics_boundless (geom : QgsGeometry) :
  1000 <= area geom -> length geom = 0 ->
  polygon_metrics geom = Raise ZeroDivisionError.
Proof.
  intros Ha Hp. pose proof PI_RGT_0 as Hpi.
  assert (H2 : 0 < PI * area geom) by (apply Rmult_lt_0_compat; lra).
  unfold polygon_metrics.
  destruct (Rle_dec 0.1 (area geom / 10000)) as [_|H]; [|exfalso; lra].
  rewrite math_sqrt_nonneg by lra. cbn [bind].
  rewrite truediv_nonzero by (pose proof (sqrt_lt_R0 _ H2); lra). cbn [bind].
  unfold truediv. rewrite Hp.
  destruct (Req_dec_T (0 ^ 2) 0) as [_|H]; [reflexivity|].
  exfalso. apply H. cbn. lra.
Qed.

Lemma polygon_metrics_small (geom : QgsGeometry) :
  area geom < 1000 -> polygon_metrics geom = Return None.
Proof.
  intros Ha. unfold polygon_metrics.
  destruct (Rle_dec 0.1 (area geom / 10000)) as [H|_]; [exfalso; lra|].
  reflexivity.
Qed.

(** X25. Where the CSV path writes a row for a polygon, the layer path
    computes six values for it, and the row's area, perimeter, shape
    index, compactness, elongation and orientation are those values
    rounded to 4, 2, 4, 4, 4 and 2 decimals: the layer receives the
    unrounded numbers. *)
Theorem csv_row_rounds_the_layer_values (feature : QgsFeature)
        (geom : QgsGeometry) (row : MetricsRow) :
  fst (calculate_feature_metrics feature geom) = Some row ->
  exists m,
    polygon_metrics geom = Return (Some m)
    /\ area_ha row = round (stored_area_ha m) 4
    /\ perimeter_m row = round (stored_perimeter_m m) 2
    /\ shape_index row = round (stored_shape_index m) 4
    /\ compactness_index row = round (stored_compactness m) 4
    /\ elongation_ratio row = round (stored_elongation m) 4
    /\ orientation_degrees row = round (stored_orientation m) 2.
Proof.
  intros H. apply returned_row_is_formula_row in H as (Ha & Hp & ->).
  exists (formula_metrics geom).
  split; [now apply polygon_metrics_large|].
  repeat split.
Qed.

Lemma csv_row_rounds_the_layer_values_witness :
  exists m,
    polygon_metrics square_plot = Return (Some m)
    /\ area_ha square_row = round (stored_area_ha m) 4
    /\ perimeter_m square_row = round (stored_perimeter_m m) 2
    /\ shape_index square_row = round (stored_shape_index m) 4
    /\ compactness_index square_row = round (stored_compactness m) 4
    /\ elongation_ratio square_row = round (stored_elongation m) 4
    /\ orientation_degrees square_row = round (stored_orientation m) 2.
Proof.
  apply (csv_row_rounds_the_layer_values square_feature square_plot square_row).
  rewrite square_row_produced. reflexivity.
Defined.

Lemma update_feature_cases (t : attribute_table) (feature : QgsFeature) :
  (boundless feature
   /\ update_feature (Return t) feature = Raise ZeroDivisionError)
  \/ (~ boundless feature
      /\ exists geom, geometry feature = Some geom
                      /\ type geom = PolygonGeometry
                      /\ 1000 <= area geom
                      /\ update_feature (Return t) feature
                         = Return (store_metrics t (id feature)
                                                 (formula_metrics geom)))
  \/ (~ boundless feature /\ ~ measurable feature
      /\ update_feature (Return t) feature = Return t).
Proof.
  unfold update_feature, boundless, measurable. cbn [bind].
  destruct (geometry feature) as [geom|].
  2:{ right. right. split; [|split; [|reflexivity]];
      intros (g & E & _); discriminate. }
  destruct (geometry_type_eqb (type geom) PolygonGeometry) eqn:Ht; cbn [negb].
  2:{ right. right. split; [|split; [|reflexivity]];
      intros (g & E & T & _); injection E as <-;
      apply geometry_type_eqb_eq in T; congruence. }
  apply geometry_type_eqb_eq in Ht.
  destruct (Rlt_dec (area geom) 1000) as [Ha|Ha].
  { right. right. rewrite (polygon_metrics_small geom Ha). cbn [bind].
    split; [|split; [|reflexivity]];
      intros (g & E & _ & A & _); injection E as <-; lra. }
  destruct (Req_dec_T (length geom) 0) as [Hp|Hp].
  { left. rewrite (polygon_metrics_boundless geom) by lra.
    split; [|reflexivity]. exists geom. repeat split; try assumption. lra. }
  right. left. rewrite (polygon_metrics_large geom) by lra. cbn [bind].
  split.
  - intros (g & E & _ & _ & P). injection E as <-. contradiction.
  - exists geom. repeat split; try assumption. lra.
Qed.

Lemma update_after_raise (features : list QgsFeature) (e : exception) :
  fold_left update_feature features (Raise e) = Raise e.
Proof. induction features as [|f fs IH]; [reflexivity|exact IH]. Qed.

(** X26. The layer path has no handler: [add_metrics_to_layer] ends in an
    exception, before [commitChanges] and its final line, exactly when
    the layer holds a polygon of at least 0.1 ha without perimeter, and
    the exception is then the [ZeroDivisionError] of line 262.  These are
    the very features for which the CSV path prints an error and goes on. *)
Theorem layer_update_aborts_on_zero_perimeter (features : list QgsFeature)
        (t : attribute_table) :
  (forall e, add_metrics_to_layer (Some (VectorLayer features)) t = Raise e
             <-> e = ZeroDivisionError /\ Exists boundless features)
  /\ (Exists boundless features
      <-> printed (calculate_shape_metrics features) <> []).
Proof.
  split.
  - intros e. unfold add_metrics_to_layer.
    generalize (fold_left add_field fields_to_add t). clear t.
    induction features as [|f fs IH]; intros t.
    + cbn. split; [discriminate|]. intros [_ H]. inversion H.
    + cbn [fold_left].
      destruct (update_feature_cases t f)
        as [[B E]|[(NB & g & _ & _ & _ & E)|(NB & _ & E)]]; rewrite E.
      * rewrite update_after_raise. cbn [bind]. split.
        -- intros H. injection H as <-. split; [reflexivity|].
           now constructor.
        -- intros [-> _]. reflexivity.
      * rewrite IH. split; intros [He H]; (split; [exact He|]).
        -- now apply Exists_cons_tl.
        -- inversion H; subst; [contradiction|assumption].
      * rewrite IH. split; intros [He H]; (split; [exact He|]).
        -- now apply Exists_cons_tl.
        -- inversion H; subst; [contradiction|assumption].
  - rewrite loop_output. cbn [printed].
    induction features as [|f fs IH].
    + cbn. split; intros H; [inversion H|now contradiction H].
    + cbn [flat_map].
      destruct (errors_of_cases f) as [[B E]|[NB E]]; rewrite E.
      * split; [discriminate|]. intros _. now constructor.
      * cbn [app]. rewrite <- IH. split; intros H.
        -- inversion H; subst; [contradiction|assumption].
        -- now apply Exists_cons_tl.
Qed.

(** ** The fields of the layer *)

Lemma indexOf_range (l : list string) (name : string) :
  (-1 <= indexOf l name < len l)%Z.
Proof.
  unfold len. induction l as [|f rest IH]; cbn [indexOf List.length]; [lia|].
  destruct (f =? name)%string; [lia|].
  destruct (indexOf rest name =? -1)%Z eqn:E; lia.
Qed.

Lemma indexOf_absent (l : list string) (name : string) :
  indexOf l name = (-1)%Z <-> ~ In name l.
Proof.
  induction l as [|f rest IH]; cbn [indexOf In]; [tauto|].
  destruct (f =? name)%string eqn:E.
  - apply String.eqb_eq in E. split; [discriminate|]. intros H.
    exfalso. apply H. now left.
  - apply String.eqb_neq in E.
    pose proof (indexOf_range rest name) as R.
    destruct (indexOf rest name =? -1)%Z eqn:E1.
    + apply Z.eqb_eq in E1. split; [|reflexivity].
      intros _ [H|H]; [contradiction|]. now apply IH.
    + apply Z.eqb_neq in E1. split; [lia|].
      intros H. exfalso. apply E1, IH. tauto.
Qed.

Lemma indexOf_present (l : list string) (name : string) :
  In name l -> (0 <= indexOf l name < len l)%Z.
Proof.
  intros H. pose proof (indexOf_range l name) as R.
  destruct (Z.eq_dec (indexOf l name) (-1)) as [E|E]; [|lia].
  apply indexOf_absent in E. contradiction.
Qed.



Lemma indexOf_app (l extra : list string) (name : string) :
  In name l -> indexOf (l ++ extra) name = indexOf l name.
Proof.
  induction l as [|f rest IH]; cbn [indexOf In app]; [tauto|]. intros H.
  destruct (f =? name)%string eqn:E; [reflexivity|].
  apply String.eqb_neq in E. destruct H as [H|H]; [contradiction|].
  now rewrite IH.
Qed.

Lemma add_field_fields (t : attribute_table) (name : string) :
  attribute (add_field t name) = attribute t
  /\ ((In name (fields t) /\ add_field t name = t)
      \/ (~ In name (fields t)
          /\ fields (add_field t name) = (fields t ++ [name])%list)).
Proof.
  unfold add_field.
  destruct (indexOf (fields t) name =? -1)%Z eqn:E.
  - apply Z.eqb_eq, indexOf_absent in E. cbn. split; [reflexivity|].
    right. now split.
  - apply Z.eqb_neq in E. split; [reflexivity|]. left. split; [|reflexivity].
    destruct (in_dec string_dec name (fields t)) as [H|H]; [exact H|].
    apply indexOf_absent in H. contradiction.
Qed.

Lemma add_fields_spec (names : list string) (t : attribute_table) :
  let t' := fold_left add_field names t in
  attribute t' = attribute t
  /\ exists extra,
      fields t' = (fields t ++ extra)%list
      /\ NoDup extra
      /\ forall name, In name extra <-> In name names /\ ~ In name (fields t).
Proof.
  cbn zeta. revert t.
  induction names as [|n names IH]; intros t; cbn [fold_left].
  - split; [reflexivity|]. exists []. rewrite app_nil_r.
    split; [reflexivity|]. split; [constructor|]. cbn. tauto.
  - destruct (IH (add_field t n)) as (A & extra & F & N & I).
    destruct (add_field_fields t n) as [A1 [[P E]|[P E]]].
    + rewrite E in *. split; [exact A|]. exists extra.
      split; [exact F|]. split; [exact N|]. intros name. rewrite I.
      cbn [In]. split; [tauto|]. intros [[<-|H] H']; tauto.
    + split; [congruence|]. exists (n :: extra).
      rewrite F, E, <- app_assoc. split; [reflexivity|]. split.
      * constructor; [|exact N]. intros H. apply I in H as [_ H].
        apply H. rewrite E. apply in_or_app. right. now left.
      * intros name. cbn [In]. rewrite I, E. split.
        -- intros [<-|[H1 H2]]; [tauto|]. split; [tauto|].
           intros H. apply H2. apply in_or_app. now left.
        -- intros [[<-|H1] H2]; [tauto|].
           destruct (string_dec n name) as [<-|D]; [tauto|]. right.
           split; [exact H1|]. intros H. apply in_app_or in H as [H|[H|[]]];
             contradiction.
Qed.

Lemma add_fields_present (names : list string) (t : attribute_table) :
  (forall name, In name names -> In name (fields t)) ->
  fold_left add_field names t = t.
Proof.
  revert t. induction names as [|n names IH]; intros t H; [reflexivity|].
  cbn [fold_left].
  destruct (add_field_fields t n) as [_ [[_ E]|[P _]]].
  - rewrite E. apply IH. intros name Hn. apply H. now right.
  - exfalso. apply P, H. now left.
Qed.

Lemma metric_fields_present (t : attribute_table) (name : string) :
  In name fields_to_add ->
  In name (fields (fold_left add_field fields_to_add t)).
Proof.
  intros H. destruct (add_fields_spec fields_to_add t) as (_ & extra & F & _ & I).
  rewrite F. apply in_or_app.
  destruct (in_dec string_dec name (fields t)) as [P|P]; [now left|].
  right. apply I. now split.
Qed.

(** X27. The field loop appends to the layer's fields, once each and in
    the order of [fields_to_add], those of the six names the layer does
    not have; it moves no existing field and touches no attribute value.
    Afterwards each of the six names is the name of a field, and running
    the loop again adds nothing. *)
Theorem metric_fields_are_added_once (t : attribute_table) :
  let t' := fold_left add_field fields_to_add t in
  attribute t' = attribute t
  /\ (exists extra,
         fields t' = (fields t ++ extra)%list
         /\ NoDup extra
         /\ forall name,
             In name extra <-> In name fields_to_add /\ ~ In name (fields t))
  /\ (forall name, In name (fields t) ->
                   indexOf (fields t') name = indexOf (fields t) name)
  /\ (forall name, In name fields_to_add ->
                   (0 <= indexOf (fields t') name < len (fields t'))%Z)
  /\ fold_left add_field fields_to_add t' = t'.
Proof.
  cbn zeta.
  destruct (add_fields_spec fields_to_add t) as (A & extra & F & N & I).
  split; [exact A|]. split; [now exists extra|]. split.
  - intros name H. rewrite F. now apply indexOf_app.
  - split.
    + intros name H. apply indexOf_present. now apply metric_fields_present.
    + apply add_fields_present. intros name H.
      now apply metric_fields_present.
Qed.

(** ** The attribute values *)













End LayerFacts.

(* ------------------------------------------------------------------ *)
(** * The biomass script: what it raises, writes and reports *)

Module AnalysisFacts.
Import Py Qgs HarvestBiomassStats SamplerFacts HarvestBiomassMain.
Import Stdlib.Strings.String.
Local Open Scope Q_scope.

(** The last layer of the project with a given name. *)
Definition last_named (name : string) (project : list map_layer)
  : option map_layer :=
  find (fun layer => (layer_name layer =? name)%string) (rev project).

Lemma last_named_snoc (name : string) (project : list map_layer)
      (layer : map_layer) :
  last_named name (project ++ [layer])
  = if (layer_name layer =? name)%string then Some layer
    else last_named name project.
Proof. unfold last_named. rewrite rev_app_distr. reflexivity. Qed.

Lemma biomass_lookup_last_named (project : list map_layer) :
  find_layers project
  = (last_named "Vectorized" project, last_named "AGB_Masked" project).
Proof.
  induction project as [|layer project IH] using rev_ind; [reflexivity|].
  unfold find_layers in *. rewrite fold_left_app, IH. cbn [fold_left].
  rewrite !last_named_snoc. unfold note_layer. cbn [fst snd].
  destruct (layer_name layer =? "Vectorized")%string eqn:E.
  - apply String.eqb_eq in E. rewrite E. reflexivity.
  - destruct (layer_name layer =? "AGB_Masked")%string; reflexivity.
Qed.

(** Settles one equivalence of the case analysis on the two layers. *)
Ltac settle :=
  split; intros Hx;
  first [ discriminate
        | congruence
        | match type of Hx with _ /\ _ => destruct Hx; congruence end
        | (destruct Hx as (h' & b' & Hx1 & Hx2 & Hx3);
           first [ discriminate
                 | (injection Hx1 as <-; injection Hx2 as <-;
                    cbn in Hx3; intuition discriminate) ])
        | (split; congruence)
        | (eexists _, _; repeat split; auto; fail) ].

Definition is_vector (layer : map_layer) : bool :=
  match layer with VectorLayer _ _ _ => true | RasterLayer _ _ _ _ _ => false end.

Section Main.
Variable np_median np_std np_min np_max : list pyfloat -> pyfloat.
Variable np_percentile : list pyfloat -> Q -> pyfloat.
Variable reproject : string -> string -> QgsGeometry -> exc QgsGeometry.

Definition analysis :=
  extract_biomass_statistics np_median np_std np_min np_max np_percentile
                             reproject.

(** X29. [extract_biomass_statistics] writes a file or raises, never
    both and never neither, and what it raises is the last thing it
    prints.  It raises the harvest-layer exception exactly when no layer
    is named [Vectorized], whatever else the project holds; the
    biomass-layer exception when one is but none is named [AGB_Masked];
    an [AttributeError] when both names are present but the last layer
    named [Vectorized] is not a vector layer or the last named
    [AGB_Masked] is not a raster; and otherwise only when the file cannot
    be written. *)
Theorem analysis_raises_or_writes (writable : bool) (project : list map_layer) :
  let out := analysis writable project in
  let harvest := last_named "Vectorized" project in
  let biomass := last_named "AGB_Masked" project in
  (file out = None <-> raised out <> None)
  /\ (forall e, raised out = Some e ->
                exists before, printed out = before ++ [Error e])
  /\ (raised out = Some Harvest_vector_layer_not_found <-> harvest = None)
  /\ (raised out = Some Biomass_raster_layer_not_found
      <-> harvest <> None /\ biomass = None)
  /\ (raised out = Some AttributeError
      <-> exists h b, harvest = Some h /\ biomass = Some b
                      /\ (is_vector h = false \/ is_vector b = true))
  /\ (raised out = Some OSError
      <-> exists h b, harvest = Some h /\ biomass = Some b
                      /\ is_vector h = true /\ is_vector b = false
                      /\ writable = false).
Proof.
  cbn zeta. unfold analysis, extract_biomass_statistics.
  rewrite biomass_lookup_last_named.
  destruct (last_named "Vectorized" project) as [h|];
    [destruct (last_named "AGB_Masked" project) as [b|];
     [destruct h as [hn hc fs|hn hc hl hx hy];
      [destruct b as [bn bc bfs|bn bc bl bx by_]; [|destruct writable]|]|]|];
    unfold fail; cbn [file raised printed is_vector];
    (split; [split; [intros Hx; try discriminate; congruence
                    |intros Hx; try reflexivity; now contradiction Hx]|]);
    (split; [intros e Hx; try discriminate; injection Hx as <-;
             eexists; reflexivity|]);
    (split; [settle|split; [settle|split; settle]]).
Qed.

(** The rows of the feature loop. *)
Lemma loop_rows (transform : option (QgsGeometry -> exc QgsGeometry))
      (layer : QgsRasterLayer) (pixel_area_ha : Q) (features : list QgsFeature) :
  results (process_features np_median np_std np_min np_max np_percentile
                            transform layer pixel_area_ha features)
  = flat_map (fun feature =>
                match CallerFacts.sampled transform layer pixel_area_ha feature
                with
                | Some stats =>
                    [CallerFacts.row_of np_median np_std np_min np_max
                                        np_percentile pixel_area_ha
                                        feature stats]
                | None => []
                end) features.
Proof.
  unfold process_features.
  destruct (CallerFacts.loop_rows_and_skips
              np_median np_std np_min np_max np_percentile transform layer
              pixel_area_ha (len features) (enumerate features)
              {| results := []; HarvestBiomassStats.printed := [] |}) as [H _].
  cbv zeta in H. rewrite H. cbn [results app].
  rewrite <- (CallerFacts.enumerate_snd features) at 2.
  generalize (enumerate features). intros items.
  induction items as [|item items IH]; [reflexivity|].
  cbn [flat_map map]. now rewrite IH.
Qed.

(** X30. With a vector layer named [Vectorized], a raster named
    [AGB_Masked] and a writable file, the file holds the header and one
    row for each feature the sampler returned a dictionary for, sampled
    with a pixel area of [rasterUnitsPerPixelX * rasterUnitsPerPixelY /
    10000] and through a coordinate transform exactly when the two CRS
    differ.  [Analysis complete! Processed n patches] reports the number
    of those rows, which can be less than the feature count of the layer,
    and the summary block is printed exactly when there is at least one
    row. *)
Theorem analysis_reports_the_rows_written (project : list map_layer)
        (harvest_name harvest_crs : string) (features : list QgsFeature)
        (biomass_name biomass_crs : string) (layer : QgsRasterLayer)
        (pixel_size_x pixel_size_y : Q) :
  last_named "Vectorized" project
  = Some (VectorLayer harvest_name harvest_crs features) ->
  last_named "AGB_Masked" project
  = Some (RasterLayer biomass_name biomass_crs layer pixel_size_x pixel_size_y) ->
  let out := analysis true project in
  let pixel_area_ha := pixel_size_x * pixel_size_y / 10000 in
  let transform :=
    if (harvest_crs =? biomass_crs)%string then None
    else Some (reproject harvest_crs biomass_crs) in
  let rows :=
    flat_map (fun feature =>
                match CallerFacts.sampled transform layer pixel_area_ha feature
                with
                | Some stats =>
                    [CallerFacts.row_of np_median np_std np_min np_max
                                        np_percentile pixel_area_ha
                                        feature stats]
                | None => []
                end) features in
  file out = Some (Header :: map Row rows)
  /\ raised out = None
  /\ In (Analysis_complete (len rows)) (printed out)
  /\ (len rows <= len features)%Z
  /\ (In Summary_statistics (printed out) <-> rows <> []).
Proof.
  intros Hh Hb. cbn zeta. unfold analysis, extract_biomass_statistics.
  rewrite biomass_lookup_last_named, Hh, Hb. cbn [file raised printed].
  replace (if negb (harvest_crs =? biomass_crs)%string
           then Some (reproject harvest_crs biomass_crs) else None)
    with (if (harvest_crs =? biomass_crs)%string then None
          else Some (reproject harvest_crs biomass_crs))
    by (destruct (harvest_crs =? biomass_crs)%string; reflexivity).
  set (transform := if (harvest_crs =? biomass_crs)%string then None
                    else Some (reproject harvest_crs biomass_crs)).
  rewrite !loop_rows.
  set (rows := flat_map _ features).
  split; [reflexivity|]. split; [reflexivity|]. split.
  { rewrite !in_app_iff. right. left. now left. }
  split.
  { unfold rows, len. clear.
    induction features as [|f fs IH]; [cbn; lia|].
    cbn [flat_map]. rewrite length_app. cbn [List.length].
    destruct (CallerFacts.sampled transform layer _ f); cbn [List.length]; lia. }
  rewrite !in_app_iff. cbn [In]. split.
  - intros H Hr. rewrite Hr in H. cbn [summary In] in H.
    repeat (destruct H as [H|H]; try discriminate; try contradiction).
    + destruct (negb _); cbn [In] in H; intuition discriminate.
    + apply in_map_iff in H as (m & E & _). discriminate.
  - intros Hr. right. right. unfold summary.
    destruct rows; [now contradiction Hr|]. now left.
Qed.

End Main.

(** A project of the two layers the script expects, in the same CRS: the
    two patches over the scenario grid. *)
Definition surveyed_project : list map_layer :=
  [VectorLayer "Vectorized" "EPSG:3035"
               [CallerFacts.grid_patch; CallerFacts.far_patch];
   RasterLayer "AGB_Masked" "EPSG:3035" example_raster 10 10].

Lemma analysis_reports_the_rows_written_witness :
  let out := analysis np_mean np_mean np_mean np_mean
                      (fun values _ => np_mean values)
                      (fun _ _ geom => Return geom) true surveyed_project in
  exists rows,
    file out = Some (Header :: map Row rows)
    /\ raised out = None
    /\ In (Analysis_complete (len rows)) (printed out)
    /\ (len rows <= 2)%Z
    /\ (In Summary_statistics (printed out) <-> rows <> []).
Proof.
  cbn zeta. eexists.
  apply (analysis_reports_the_rows_written
           np_mean np_mean np_mean np_mean (fun values _ => np_mean values)
           (fun _ _ geom => Return geom) surveyed_project
           "Vectorized" "EPSG:3035"
           [CallerFacts.grid_patch; CallerFacts.far_patch]
           "AGB_Masked" "EPSG:3035" example_raster 10 10).
  - reflexivity.
  - reflexivity.
Defined.

End AnalysisFacts.
